(** * Sample construction pipeline of the TEDD1104 dataset (src/dataset.py)

    A shallow embedding of the transforms, the batch collator and the sample
    builder of [dataset.py], and the properties of the specification that
    were checked against them.

    Conventions of the embedding:
    - a tensor of rank 3 is a record of its three sizes and of its contents
      as nested lists [channel][row][column]; a tensor of rank 4 is the list
      of its rank-3 slices along the leading axis;
    - Python exceptions are values of [exn]; a call that may raise returns a
      [result];
    - Python floats that are compared but never computed with are [pyfloat]s:
      a rational or one of the three special values, with the comparison
      rules of IEEE 754;
    - [torch.rand] reads the next value of a stream of draws, each a rational
      of [0,1); the position in the stream is threaded through. *)

From Stdlib Require Import ZArith QArith Qround Lqa String Ascii.
From stdpp Require Import base numbers list gmap strings pretty.

Local Open Scope nat_scope.

(** ** Python: exceptions, results, slices and indexing *)

Module Py.

Inductive exn : Type :=
  | AssertionError (msg : string)
  | TypeError
  | IndexError
  | ValueError
  | FileNotFoundError
  | RuntimeError.

Inductive result (A : Type) : Type :=
  | Ok (a : A)
  | Raise (e : exn).
Global Arguments Ok {A} a.
Global Arguments Raise {A} e.

Definition bind {A B} (m : result A) (k : A -> result B) : result B :=
  match m with
  | Ok a => k a
  | Raise e => Raise e
  end.

Definition is_ok {A} (m : result A) : bool :=
  match m with Ok _ => true | Raise _ => false end.

(** [l[a:b]] for non-negative bounds: both are clamped to the length. *)
Definition slice {A} (a b : nat) (l : list A) : list A :=
  take (b - a) (drop a l).

(** [l[i]] with Python's negative indices. *)
Definition getitem {A} (l : list A) (i : Z) : result A :=
  let n := Z.of_nat (length l) in
  let j := if (i <? 0)%Z then (n + i)%Z else i in
  if (j <? 0)%Z then Raise IndexError
  else match l !! Z.to_nat j with
       | Some x => Ok x
       | None => Raise IndexError
       end.

(** A Python float as far as comparisons see it. *)
Inductive pyfloat : Type :=
  | Finite (q : Q)
  | PosInf
  | NegInf
  | NaN.

(** [x <= y] *)
Definition float_le (x y : pyfloat) : bool :=
  match x, y with
  | NaN, _ | _, NaN => false
  | NegInf, _ => true
  | _, PosInf => true
  | Finite a, Finite b => Qle_bool a b
  | _, _ => false
  end.

(** [x < y] *)
Definition float_lt (x y : pyfloat) : bool :=
  match x, y with
  | NaN, _ | _, NaN => false
  | _, _ => negb (float_le y x)
  end.

Global Arguments float_le : simpl never.
Global Arguments float_lt : simpl never.

Global Instance result_bind : MBind result := fun A B k m => bind m k.
Global Instance result_ret : MRet result := fun A a => Ok a.

End Py.
Export Py.

(** ** Tensors *)

Module Torch.

Record image (A : Type) : Type := Image {
  channels : nat;
  height : nat;
  width : nat;
  pixels : list (list (list A))
}.
Global Arguments Image {A} _ _ _ _.
Global Arguments channels {A} _.
Global Arguments height {A} _.
Global Arguments width {A} _.
Global Arguments pixels {A} _.

(** The contents agree with the declared sizes. *)
Definition wf_image {A} (img : image A) : Prop :=
  length (pixels img) = channels img /\
  Forall (fun ch => length ch = height img /\
                    Forall (fun row => length row = width img) ch)
         (pixels img).

Definition dims {A} (img : image A) : nat * nat * nat :=
  (channels img, height img, width img).

(** [image.size(2)] *)
Definition size2 {A} (img : image A) : nat := width img.

(** [img[c, r, k]] *)
Definition pixel {A} (img : image A) (c r k : nat) : option A :=
  match pixels img !! c with
  | Some ch => match ch !! r with
               | Some row => row !! k
               | None => None
               end
  | None => None
  end.

(** [image[:, :, a:b]] *)
Definition crop_cols {A} (a b : nat) (img : image A) : image A :=
  {| channels := channels img;
     height := height img;
     width := Nat.min b (width img) - Nat.min a (width img);
     pixels := fmap (M:=list) (fmap (M:=list) (slice a b)) (pixels img) |}.

(** [torch.stack] of rank-3 tensors: the list must be non-empty and all the
    shapes equal. *)
Definition stack {A} (ts : list (image A)) : result (list (image A)) :=
  match ts with
  | [] => Raise RuntimeError
  | t :: rest =>
      if bool_decide (Forall (fun t' => dims t' = dims t) rest)
      then Ok ts else Raise RuntimeError
  end.

(** [torch.cat((a, b), dim=2)] on two tensors of rank 3. *)
Definition hcat {A} (a b : image A) : image A :=
  {| channels := channels a;
     height := height a;
     width := width a + width b;
     pixels := zip_with (zip_with app) (pixels a) (pixels b) |}.

(** [torch.cat(ts, dim=2)] *)
Definition cat_width {A} (ts : list (image A)) : option (image A) :=
  match ts with
  | [] => None
  | t :: rest => Some (foldl hcat t rest)
  end.

(** A label tensor: the value it wraps and its gradient flag. *)
Record label_tensor (L : Type) : Type := LabelTensor {
  tensor_data : L;
  requires_grad : bool
}.
Global Arguments LabelTensor {L} _ _.
Global Arguments tensor_data {L} _.
Global Arguments requires_grad {L} _.

(** [torch.tensor(y)] *)
Definition tensor {L} (y : L) : label_tensor L := LabelTensor y false.

(** [torch.zeros((c, h, w))] *)
Definition zeros (d : nat * nat * nat) : image Z :=
  let '(c, h, w) := d in
  Image c h w (replicate c (replicate h (replicate w 0%Z))).

Global Arguments zeros : simpl never.

(** Broadcasting: a tensor of shape [src] expands to shape [dst] when every
    size of [src] is the size of [dst] or 1. *)
Definition expandable (src dst : nat * nat * nat) : bool :=
  let '(c, h, w) := src in
  let '(c', h', w') := dst in
  bool_decide ((c = c' \/ c = 1) /\ (h = h' \/ h = 1) /\ (w = w' \/ w = 1)).

Definition expand_dim {B} (n : nat) (l : list B) : list B :=
  match l with
  | [x] => replicate n x
  | _ => l
  end.

Definition expand {A} (dst : nat * nat * nat) (v : image A)
  : list (list (list A)) :=
  let '(c, h, w) := dst in
  expand_dim c (fmap (M:=list)
    (fun ch => expand_dim h (fmap (M:=list) (expand_dim w) ch)) (pixels v)).

(** The contents of [image] after [image[:, r0:, c0:c1] = v] (with
    [c0 <= c1]): the shape of the addressed region, the broadcast of [v] to
    it, and the copy. *)
Definition region_dims {A} (img : image A) (r0 c0 c1 : nat)
  : nat * nat * nat :=
  (channels img, height img - r0,
   Nat.min c1 (width img) - Nat.min c0 (width img)).

Definition write_cols {A} (c0 c1 : nat) (row vrow : list A) : list A :=
  take c0 row ++ vrow ++ drop (Nat.max c0 c1) row.

Definition write_rows {A} (r0 c0 c1 : nat) (ch vch : list (list A))
  : list (list A) :=
  take r0 ch ++ zip_with (write_cols c0 c1) (drop r0 ch) vch.

Definition assign_region {A} (img : image A) (r0 c0 c1 : nat) (v : image A)
  : result (image A) :=
  let d := region_dims img r0 c0 c1 in
  if expandable (dims v) d
  then Ok {| channels := channels img; height := height img;
             width := width img;
             pixels := zip_with (write_rows r0 c0 c1) (pixels img)
                                (expand d v) |}
  else Raise RuntimeError.

(** *** Tensor objects

    Tensors are objects: a variable holds a reference, and an assignment
    through a slice updates the object every holder of the reference sees.
    The state of a computation is the store of the tensor objects and the
    stream of random draws with the position reached in it. A computation
    that raises keeps the state it reached. *)

Definition loc := nat.

Record state (T : Type) : Type := State {
  store : gmap loc T;
  draws : nat -> Q;
  pos : nat;
  stdout : list string
}.
Global Arguments State {T} _ _ _ _.
Global Arguments store {T} _.
Global Arguments draws {T} _.
Global Arguments pos {T} _.
Global Arguments stdout {T} _.

Definition M (T A : Type) : Type := state T -> result A * state T.

Definition M_bind {T A B} (k : A -> M T B) (m : M T A) : M T B :=
  fun s => match m s with
           | (Ok a, s') => k a s'
           | (Raise e, s') => (Raise e, s')
           end.

Global Instance M_mbind T : MBind (M T) := fun A B k m => M_bind k m.
Global Instance M_mret T : MRet (M T) := fun A a s => (Ok a, s).

Definition raise {T A} (e : exn) : M T A := fun s => (Raise e, s).

Definition lift {T A} (m : result A) : M T A := fun s => (m, s).

(** Reading the object behind a reference. *)
Definition load {T} (l : loc) : M T T :=
  fun s => match store s !! l with
           | Some t => (Ok t, s)
           | None => (Raise RuntimeError, s)
           end.

(** Replacing the contents of an object. *)
Definition update {T} (l : loc) (t : T) : M T unit :=
  fun s => (Ok tt, State (<[l:=t]> (store s)) (draws s) (pos s) (stdout s)).

(** A new object. *)
Definition alloc {T} (t : T) : M T loc :=
  fun s => let l := fresh (dom (store s)) in
           (Ok l, State (<[l:=t]> (store s)) (draws s) (pos s) (stdout s)).

(** [torch.rand(1)[0]] *)
Definition rand {T} : M T Q :=
  fun s => (Ok (draws s (pos s)),
            State (store s) (draws s) (S (pos s)) (stdout s)).

(** [for x in xs: body(x)] *)
Fixpoint for_ {T B} (xs : list B) (body : B -> M T unit) : M T unit :=
  match xs with
  | [] => mret tt
  | x :: xs' => body x;; for_ xs' body
  end.

(** [image[:, r0:, c0:c1] = v] *)
Definition setitem {A} (image : loc) (r0 c0 c1 : nat) (v : Torch.image A)
  : M (Torch.image A) unit :=
  img ← load image;
  img' ← lift (assign_region img r0 c0 c1 v);
  update image img'.

End Torch.
Export Torch.

(** ** The transforms *)

(** [RemoveMinimap] *)
Record RemoveMinimap : Type := {
  RemoveMinimap_hide_map_prob : pyfloat
}.

(** [RemoveMinimap.__call__]: [sample] holds a reference to the image. *)
Definition RemoveMinimap_call {L} (self : RemoveMinimap) (sample : loc * L)
  : M (image Z) (loc * L) :=
  let '(image, y) := sample in
  img ← load image;
  let width := size2 img / 5 in
  (if float_lt (Finite 0) (RemoveMinimap_hide_map_prob self) then
     u ← rand;
     if float_le (Finite u) (RemoveMinimap_hide_map_prob self) then
       for_ (seq 0 5) (fun j =>
         setitem image 215 (j * width) (j * width + 80) (zeros (3, 55, 80)))
     else mret tt
   else mret tt);;
  mret (image, y).

(** [RemoveImage]: the probabilities are whatever the caller passed, [None]
    included. *)
Record RemoveImage : Type := {
  RemoveImage_dropout_images_prob : option (list pyfloat)
}.

(** [self.dropout_images_prob[j]] *)
Definition RemoveImage_prob (self : RemoveImage) (j : nat) : result pyfloat :=
  match RemoveImage_dropout_images_prob self with
  | None => Raise TypeError
  | Some l => getitem l (Z.of_nat j)
  end.

(** [RemoveImage.__call__] *)
Definition RemoveImage_call {L} (self : RemoveImage) (sample : loc * L)
  : M (image Z) (loc * L) :=
  let '(image, y) := sample in
  img ← load image;
  let width := size2 img / 5 in
  for_ (seq 0 5) (fun j =>
    p ← lift (RemoveImage_prob self j);
    if float_lt (Finite 0) p then
      u ← rand;
      if float_le (Finite u) p then
        setitem image 0 (j * width) ((j + 1) * width)
                (zeros (channels img, height img, width))
      else mret tt
    else mret tt);;
  mret (image, y).

(** [SplitImages.__call__] *)
Definition SplitImages {A L} (sample : image A * L)
  : result (list (image A) * label_tensor L) :=
  let '(image, y) := sample in
  let width := size2 image / 5 in
  let image1 := crop_cols 0 width image in
  let image2 := crop_cols width (width * 2) image in
  let image3 := crop_cols (width * 2) (width * 3) image in
  let image4 := crop_cols (width * 3) (width * 4) image in
  let image5 := crop_cols (width * 4) (width * 5) image in
  images ← Torch.stack [image1; image2; image3; image4; image5];
  Ok (images, Torch.tensor y).

(** [transforms.ColorJitter] is the library's: a function of the draws it
    takes and of the tensor it is given, which it does not modify. *)
Record ColorJitter : Type := {
  ColorJitter_forward :
    (nat -> Q) -> nat -> list (image Z) -> result (list (image Z)) * nat
}.

(** [SequenceColorJitter] *)
Record SequenceColorJitter : Type := {
  SequenceColorJitter_jitter : ColorJitter
}.

(** [SequenceColorJitter.__call__] on the contents of the stack. *)
Definition SequenceColorJitter_forward {T L} (self : SequenceColorJitter)
  (sample : list (image Z) * L) : M T (list (image Z) * L) :=
  fun s =>
    let '(images, y) := sample in
    let '(r, n) := ColorJitter_forward (SequenceColorJitter_jitter self)
                     (draws s) (pos s) images in
    (images ← r; Ok (images, y), State (store s) (draws s) n (stdout s)).

(** [SequenceColorJitter.__call__]: [sample] holds a reference to the stack,
    the result a reference to the tensor the library returned. *)
Definition SequenceColorJitter_call {L} (self : SequenceColorJitter)
  (sample : loc * L) : M (list (image Z)) (loc * L) :=
  let '(images, y) := sample in
  imgs ← load images;
  '(out, _) ← SequenceColorJitter_forward self (imgs, y);
  images ← alloc out;
  mret (images, y).

(** The conversion of an element to a float, as a division by a float does
    it. Floats are rationals here: the arithmetic is exact. *)
Class Dtype (A : Type) : Type := to_float : A -> Q.
Global Instance uint8_dtype : Dtype Z := inject_Z.
Global Instance float_dtype : Dtype Q := fun q => q.

(** [img / d] *)
Definition true_divide {A} `{Dtype A} (img : image A) (d : Q) : image Q :=
  {| channels := channels img; height := height img; width := width img;
     pixels := fmap (M:=list) (fmap (M:=list)
                 (fmap (M:=list) (fun x => (to_float x / d)%Q)))
                 (pixels img) |}.

(** [transforms.Normalize(mean, std)] on a float tensor of rank 3: the
    tensor must have one channel for each entry of [mean]; channel [c]
    becomes [(x - mean[c]) / std[c]]. *)
Definition transforms_Normalize (mean std : list Q) (img : image Q)
  : result (image Q) :=
  if bool_decide (channels img = length mean)
  then Ok {| channels := channels img; height := height img;
             width := width img;
             pixels := zip_with (fun ch ms =>
                         fmap (M:=list) (fmap (M:=list)
                           (fun x => ((x - ms.1) / ms.2)%Q)) ch)
                         (pixels img) (zip mean std) |}
  else Raise RuntimeError.

Definition Normalize_mean : list Q := [0.485; 0.456; 0.406]%Q.
Definition Normalize_std : list Q := [0.229; 0.224; 0.225]%Q.

(** [Normalize.transform] *)
Definition Normalize_transform : image Q -> result (image Q) :=
  transforms_Normalize Normalize_mean Normalize_std.

(** [Normalize.__call__] *)
Definition Normalize {A} `{Dtype A} {L} (sample : list (image A) * L)
  : result (list (image Q) * L) :=
  let '(images, y) := sample in
  f0 ← (img ← getitem images 0; Normalize_transform (true_divide img 255));
  f1 ← (img ← getitem images 1; Normalize_transform (true_divide img 255));
  f2 ← (img ← getitem images 2; Normalize_transform (true_divide img 255));
  f3 ← (img ← getitem images 3; Normalize_transform (true_divide img 255));
  f4 ← (img ← getitem images 4; Normalize_transform (true_divide img 255));
  out ← Torch.stack [f0; f1; f2; f3; f4];
  Ok (out, y).

(** ** The batch collator *)

(** A tensor seen along its leading axis: its slices and its gradient flag.
    [Shaped] gives the shape of a slice. *)
Record tensor (E : Type) : Type := Tensor {
  rows : list E;
  tensor_requires_grad : bool
}.
Global Arguments Tensor {E} _ _.
Global Arguments rows {E} _.
Global Arguments tensor_requires_grad {E} _.

Class Shaped (E : Type) : Type := shape_of : E -> list nat.
Global Instance image_shaped {A} : Shaped (image A) :=
  fun img => [channels img; height img; width img].

Definition same_shapes {E} `{Shaped E} (xs : list E) : bool :=
  match xs with
  | [] => true
  | x :: rest => bool_decide (Forall (fun x' => shape_of x' = shape_of x) rest)
  end.

(** [torch.cat(ts, dim=0)]: the list must be non-empty and the tensors must
    agree on every axis but the leading one; the result tracks gradients
    when one of the tensors does. *)
Definition cat {E} `{Shaped E} (ts : list (tensor E)) : result (tensor E) :=
  match ts with
  | [] => Raise RuntimeError
  | _ => let all := mjoin (rows <$> ts) in
         if same_shapes all
         then Ok (Tensor all (existsb tensor_requires_grad ts))
         else Raise RuntimeError
  end.

(** [torch.stack(ts)] of label tensors: the list must be non-empty and the
    shapes equal. *)
Definition stack_labels {L} `{Shaped L} (ts : list (label_tensor L))
  : result (tensor L) :=
  match ts with
  | [] => Raise RuntimeError
  | _ => let all := tensor_data <$> ts in
         if same_shapes all
         then Ok (Tensor all (existsb requires_grad ts))
         else Raise RuntimeError
  end.

(** [t.requires_grad = False]: refused on the result of an operation that
    tracks gradients, which is not a leaf. *)
Definition set_requires_grad_false {E} (t : tensor E) : result (tensor E) :=
  if tensor_requires_grad t then Raise RuntimeError
  else Ok (Tensor (rows t) false).

(** A sample: the frames, the attention mask and the label. *)
Abbreviation sample R L :=
  (tensor (image Q) * tensor R * label_tensor L)%type (only parsing).

(** The dict [collate_fn] returns. *)
Record batch_dict (R L : Type) : Type := BatchDict {
  dict_images : tensor (image Q);
  dict_attention_mask : tensor R;
  dict_y : tensor L
}.
Global Arguments BatchDict {R L} _ _ _.
Global Arguments dict_images {R L} _.
Global Arguments dict_attention_mask {R L} _.
Global Arguments dict_y {R L} _.

(** [collate_fn] *)
Definition collate_fn {R L} `{Shaped R} `{Shaped L} (batch : list (sample R L))
  : result (batch_dict R L) :=
  images ← cat ((fun b => b.1.1) <$> batch);
  attention_mask ← cat ((fun b => b.1.2) <$> batch);
  y ← stack_labels ((fun b => b.2) <$> batch);
  attention_mask ← set_requires_grad_false attention_mask;
  y ← set_requires_grad_false y;
  Ok (BatchDict images attention_mask y).

(** ** The sample builder *)

(** [c.lower()] for a code point below 256. *)
Definition lower_ascii (c : ascii) : ascii :=
  let n := nat_of_ascii c in
  if (65 <=? n) && (n <=? 90) then ascii_of_nat (n + 32)
  else if (192 <=? n) && (n <=? 222) && negb (n =? 215)
       then ascii_of_nat (n + 32)
       else c.

(** [s.lower()] *)
Fixpoint lower (s : string) : string :=
  match s with
  | EmptyString => EmptyString
  | String c s' => String (lower_ascii c) (lower s')
  end.

(** [assert cond, msg] *)
Definition assert (cond : bool) (msg : string) : result unit :=
  if cond then Ok tt else Raise (AssertionError msg).

(** [for x in xs: body(x)] where the body only raises or not. *)
Fixpoint for_each {B} (xs : list B) (body : B -> result unit) : result unit :=
  match xs with
  | [] => Ok tt
  | x :: xs' => body x;; for_each xs' body
  end.

(** [print(msg)] *)
Definition print {T} (msg : string) : M T unit :=
  fun s => (Ok tt, State (store s) (draws s) (pos s) (stdout s ++ [msg])).

(** The arguments of [Tedd1104Dataset.__init__]. *)
Record Tedd1104Dataset_args : Type := {
  arg_dataset_dir : string;
  arg_hide_map_prob : pyfloat;
  arg_token_mask_prob : pyfloat;
  arg_transformer_nheads : option Z;
  arg_dropout_images_prob : option (list pyfloat);
  arg_sequence_length : Z;
  arg_control_mode : string;
  arg_train : bool
}.

(** [self.transform]: the stages of the training pipeline that hold
    parameters, or the evaluation pipeline. *)
Inductive transform : Type :=
  | TrainTransform (minimap : RemoveMinimap) (dropout : RemoveImage)
                   (jitter : SequenceColorJitter)
  | EvalTransform.

(** A [Tedd1104Dataset] object. *)
Record Tedd1104Dataset : Type := {
  dataset_dir : string;
  hide_map_prob : pyfloat;
  dropout_images_prob : list pyfloat;
  control_mode : string;
  sequence_length : Z;
  token_mask_prob : pyfloat;
  transformer_nheads : option Z;
  train : bool;
  dataset_transform : transform;
  dataset_files : list string
}.

(** [dropout_images_prob if dropout_images_prob else [0.0] * sequence_length]:
    [None] and the empty list are both false. *)
Definition dropout_or_zeros (dropout : option (list pyfloat))
  (sequence_length : Z) : list pyfloat :=
  match dropout with
  | Some (p :: ps) => p :: ps
  | _ => replicate (Z.to_nat sequence_length) (Finite 0)
  end.

(** The exceptions that the handler of [__getitem__] catches. *)
Definition caught (e : exn) : bool :=
  match e with
  | ValueError | FileNotFoundError => true
  | _ => false
  end.

(** The message printed when an image cannot be read. *)
Definition read_warning (img_name : string) : string :=
  ("Error reading image: " ++ img_name ++
   " probably a corrupted file. We will load a random image instead.")%string.

(** [int(len(files) * u)] for a draw [u], which is not negative. *)
Definition retry_index (files : list string) (u : Q) : Z :=
  Qfloor (inject_Z (Z.of_nat (length files)) * u).
Global Arguments retry_index : simpl never.

Section SampleBuilder.
Context {L R : Type}.

(** What the sample builder takes from elsewhere: the listing of the
    [*.jpeg] files of a directory, the library's colour jitter with the
    ranges of [SequenceColorJitter.__init__], the image decoder, the label
    codec of [utils.IOHandler] and the mask generator [utils.get_mask],
    which reads draws. *)
Variable glob_jpeg : string -> list string.
Variable color_jitter : ColorJitter.
Variable read_image : string -> result (image Z).
Variable imagename_input_conversion : string -> string -> result L.
Variable get_mask :
  bool -> option Z -> pyfloat -> Z -> (nat -> Q) -> nat ->
  result (tensor R) * nat.

(** [Tedd1104Dataset.__init__] *)
Definition Tedd1104Dataset_init (a : Tedd1104Dataset_args)
  : result Tedd1104Dataset :=
  let dropout :=
    dropout_or_zeros (arg_dropout_images_prob a) (arg_sequence_length a) in
  let mode := lower (arg_control_mode a) in
  assert (bool_decide (mode ∈ ["keyboard"; "controller"]%string))
         "control mode not supported";;
  assert (float_le (Finite 0) (arg_hide_map_prob a) &&
          float_le (arg_hide_map_prob a) (Finite 1))
         "hide_map_prob not in 0 <= hide_map_prob <= 1.0 range";;
  (if bool_decide (length dropout = 5) then Ok tt
   else match arg_dropout_images_prob a with
        | None => Raise TypeError
        | Some _ => Raise (AssertionError
                      "dropout_images_prob must have 5 probabilities")
        end);;
  for_each dropout (fun p =>
    assert (float_le (Finite 0) p && float_lt p (Finite 1))
           "All probabilities in dropout_image_prob must be in the range");;
  assert (float_le (Finite 0) (arg_token_mask_prob a) &&
          float_lt (arg_token_mask_prob a) (Finite 1))
         "token_mask_prob not in 0 <= token_mask_prob < 1.0 range";;
  Ok {| dataset_dir := arg_dataset_dir a;
        hide_map_prob := arg_hide_map_prob a;
        dropout_images_prob := dropout;
        control_mode := mode;
        sequence_length := arg_sequence_length a;
        token_mask_prob := arg_token_mask_prob a;
        transformer_nheads := arg_transformer_nheads a;
        train := arg_train a;
        dataset_transform :=
          if arg_train a
          then TrainTransform
                 {| RemoveMinimap_hide_map_prob := arg_hide_map_prob a |}
                 {| RemoveImage_dropout_images_prob :=
                      arg_dropout_images_prob a |}
                 {| SequenceColorJitter_jitter := color_jitter |}
          else EvalTransform;
        dataset_files := glob_jpeg (arg_dataset_dir a) |}.

(** [Tedd1104Dataset.__len__] *)
Definition Tedd1104Dataset_len (self : Tedd1104Dataset) : nat :=
  length (dataset_files self).

(** The loop of [__getitem__] that reads the image. [fuel] bounds the
    number of reads; [None] is the loop still running when it is spent. *)
Fixpoint read_loop (fuel : nat) (files : list string) (img_name : string)
  : M (image Z) (option (string * image Z)) :=
  match fuel with
  | 0 => mret None
  | S fuel' =>
      match read_image img_name with
      | Ok image => mret (Some (img_name, image))
      | Raise e =>
          if caught e then
            print (read_warning img_name);;
            u ← rand;
            img_name ← lift (getitem files (retry_index files u));
            read_loop fuel' files img_name
          else raise e
      end
  end.

(** [self.transform((image, y))] *)
Definition apply_transform (t : transform) (image : image Z) (y : L)
  : M (Torch.image Z) (list (Torch.image Q) * label_tensor L) :=
  match t with
  | TrainTransform minimap dropout jitter =>
      image ← alloc image;
      '(image, y) ← RemoveMinimap_call minimap (image, y);
      '(image, y) ← RemoveImage_call dropout (image, y);
      img ← load image;
      '(images, y) ← lift (SplitImages (img, y));
      '(images, y) ← SequenceColorJitter_forward jitter (images, y);
      lift (Normalize (images, y))
  | EvalTransform =>
      '(images, y) ← lift (SplitImages (image, y));
      lift (Normalize (images, y))
  end.

(** [get_mask(...)] with the draws of the state. *)
Definition call_get_mask (self : Tedd1104Dataset)
  : M (image Z) (tensor R) :=
  fun s =>
    let '(r, n) := get_mask (train self) (transformer_nheads self)
                     (token_mask_prob self) (sequence_length self)
                     (draws s) (pos s) in
    (r, State (store s) (draws s) n (stdout s)).

(** [__getitem__] from the image read on: the label, the transform and the
    mask. *)
Definition build_sample (self : Tedd1104Dataset) (img_name : string)
  (image : image Z) : M (Torch.image Z) (sample R L) :=
  y ← lift (imagename_input_conversion img_name (control_mode self));
  '(images, y) ← apply_transform (dataset_transform self) image y;
  mask ← call_get_mask self;
  mret (Tensor images false, mask, y).

(** [Tedd1104Dataset.__getitem__] *)
Definition Tedd1104Dataset_getitem (fuel : nat) (self : Tedd1104Dataset)
  (idx : Z) : M (image Z) (option (sample R L)) :=
  img_name ← lift (getitem (dataset_files self) idx);
  r ← read_loop fuel (dataset_files self) img_name;
  match r with
  | None => mret None
  | Some (img_name, image) =>
      smp ← build_sample self img_name image;
      mret (Some smp)
  end.
End SampleBuilder.

(** ** Vocabulary of the statements *)

(** The number of slots of [d] with a positive probability: each of them
    takes one draw. *)
Fixpoint count_positive (d : list pyfloat) : nat :=
  match d with
  | [] => 0
  | p :: d' => (if float_lt (Finite 0) p then 1 else 0) + count_positive d'
  end.

(** The number of draws taken by the slots before slot [j]. *)
Definition draws_before (d : list pyfloat) (j : nat) : nat :=
  count_positive (take j d).

(** Slot [j] triggers: its probability is positive and the draw it takes,
    the one after those of the earlier slots, is at most the probability.
    [n] is the position of the first draw of the call. *)
Definition slot_dropped (d : list pyfloat) (dr : nat -> Q) (n j : nat) : bool :=
  match d !! j with
  | Some p => float_lt (Finite 0) p &&
              float_le (Finite (dr (n + draws_before d j))) p
  | None => false
  end.

(** The body of the loop of [RemoveImage.__call__], for an image of [C]
    channels and [H] rows and segments of [w] columns. *)
Definition RemoveImage_body (self : RemoveImage) (l : loc) (C H w : nat)
  (j : nat) : M (image Z) unit :=
  p ← lift (RemoveImage_prob self j);
  if float_lt (Finite 0) p then
    u ← rand;
    if float_le (Finite u) p then
      setitem l 0 (j * w) ((j + 1) * w) (zeros (C, H, w))
    else mret tt
  else mret tt.

(** [images[i][c, r, k]] *)
Definition stack_pixel {A} (images : list (image A)) (i c r k : nat)
  : option A :=
  match images !! i with
  | Some img => pixel img c r k
  | None => None
  end.

(** A stack of [n] well-formed frames of one shape, of 3 channels. *)
Definition wf_stack {A} (n : nat) (images : list (image A)) : Prop :=
  length images = n /\
  exists h w, Forall (fun f => wf_image f /\ dims f = (3, h, w)) images.

(** The mean and the standard deviation of each channel. *)
Definition channel_stats : list (Q * Q) :=
  [(0.485, 0.229); (0.456, 0.224); (0.406, 0.225)]%Q.

(** The file name of read [k] of a call of [__getitem__] that starts at
    [name0] with the draws [dr] from position [n] on: the first read is of
    [name0], read [k + 1] of the file that draw [n + k] picks. *)
Definition attempt (files : list string) (dr : nat -> Q) (n : nat)
  (name0 : string) (k : nat) : string :=
  match k with
  | 0 => name0
  | S k' => match getitem files (retry_index files (dr (n + k'))) with
            | Ok name => name
            | Raise _ => EmptyString
            end
  end.
Global Arguments attempt : simpl never.

(** The warnings printed by [k] failed reads. *)
Definition read_warnings (files : list string) (dr : nat -> Q) (n : nat)
  (name0 : string) (k : nat) : list string :=
  (fun i => read_warning (attempt files dr n name0 i)) <$> seq 0 k.

(** The state after [k] failed reads: [k] draws taken, [k] warnings
    printed. *)
Definition after_reads (files : list string) (name0 : string)
  (s : state (image Z)) (k : nat) : state (image Z) :=
  State (store s) (draws s) (pos s + k)
        (stdout s ++ read_warnings files (draws s) (pos s) name0 k).

(** *** Inputs of the examples *)

(** An image of shape (3, 1, 5), every pixel 7. *)
Definition small_image : image Z :=
  Image 3 1 5 (replicate 3 (replicate 1 (replicate 5 7%Z))).

(** An image of shape (3, 270, 500), every pixel 7. *)
Definition game_image : image Z :=
  Image 3 270 500 (replicate 3 (replicate 270 (replicate 500 7%Z))).

(** A state with one tensor object, at reference 0, in which every draw is
    [u]. *)
Definition one_tensor {T} (t : T) (u : Q) : state T :=
  State {[0 := t]} (fun _ => u) 0 [].

(** A dropper that drops the first frame half of the time. *)
Definition drop_first : RemoveImage :=
  {| RemoveImage_dropout_images_prob :=
       Some [Finite 0.5; Finite 0; Finite 0; Finite 0; Finite 0]%Q |}.

(** A minimap remover that always hides the minimap. *)
Definition hide_always : RemoveMinimap :=
  {| RemoveMinimap_hide_map_prob := Finite 1 |}.

(** A frame of shape (3, 1, 1) of float zeros, and a stack of five. *)
Definition dark_frame : image Q :=
  Image 3 1 1 (replicate 3 (replicate 1 (replicate 1 0%Q))).
Definition dark_stack : list (image Q) := replicate 5 dark_frame.

(** A split of two files: the first cannot be decoded, the second holds
    [small_image]. *)
Definition two_files : list string := ["bad.jpeg"; "good.jpeg"]%string.

Definition glob_two_files (pattern : string) : list string := two_files.

Definition read_second_file (img_name : string) : result (image Z) :=
  if String.eqb img_name "good.jpeg" then Ok small_image else Raise ValueError.

(** A decoder that fails with an exception the handler does not name. *)
Definition read_nothing (img_name : string) : result (image Z) :=
  Raise RuntimeError.

(** A label codec: the label is the length of the file name. *)
Definition name_length (img_name mode : string) : result Z :=
  Ok (Z.of_nat (String.length img_name)).

(** A mask generator: one position, visible; no draw taken. *)
Definition visible_mask (train : bool) (nheads : option Z)
  (mask_prob : pyfloat) (sequence_length : Z) (dr : nat -> Q) (n : nat)
  : result (tensor bool) * nat :=
  (Ok (Tensor [true] false), n).

(** A jitter that returns the stack as it is and takes four draws. *)
Definition no_jitter : ColorJitter :=
  {| ColorJitter_forward := fun dr n images => (Ok images, n + 4) |}.

Global Instance label_shaped : Shaped Z := fun _ => [].
Global Instance mask_row_shaped : Shaped bool := fun _ => [].

(** The arguments of a validation split and of a training split built
    without dropout probabilities. *)
Definition eval_args : Tedd1104Dataset_args :=
  {| arg_dataset_dir := "val"; arg_hide_map_prob := Finite 0;
     arg_token_mask_prob := Finite 0; arg_transformer_nheads := None;
     arg_dropout_images_prob := Some (replicate 5 (Finite 0));
     arg_sequence_length := 5; arg_control_mode := "Keyboard";
     arg_train := false |}.

Definition train_args : Tedd1104Dataset_args :=
  {| arg_dataset_dir := "train"; arg_hide_map_prob := Finite 0;
     arg_token_mask_prob := Finite 0; arg_transformer_nheads := None;
     arg_dropout_images_prob := None;
     arg_sequence_length := 5; arg_control_mode := "keyboard";
     arg_train := true |}.

(** The object that [eval_args] constructs. *)
Definition eval_dataset : Tedd1104Dataset :=
  {| dataset_dir := "val"; hide_map_prob := Finite 0;
     dropout_images_prob := replicate 5 (Finite 0);
     control_mode := "keyboard"; sequence_length := 5;
     token_mask_prob := Finite 0; transformer_nheads := None;
     train := false; dataset_transform := EvalTransform;
     dataset_files := two_files |}.

(** A batch of two samples. *)
Definition two_samples : list (sample bool Z) :=
  [(Tensor dark_stack false, Tensor [true] false, LabelTensor 3%Z false);
   (Tensor dark_stack false, Tensor [false] false, LabelTensor 8%Z false)].

(** A float that is a number of the interval [0,1], of the interval [0,1). *)
Definition in_unit_closed (p : pyfloat) : Prop :=
  exists q, p = Finite q /\ (0 <= q <= 1)%Q.

Definition in_unit_half_open (p : pyfloat) : Prop :=
  exists q, p = Finite q /\ (0 <= q < 1)%Q.

(** The assignment of segment [j] of [RemoveMinimap] has matching shapes. *)
Definition minimap_fits (img : image Z) (w j : nat) : Prop :=
  expandable (3, 55, 80) (region_dims img 215 (j * w) (j * w + 80)) = true.

(** ** The data module *)

(** The arguments of [Tedd1104DataModule.__init__]; a directory that is not
    given is [None]. *)
Record Tedd1104DataModule_args : Type := {
  dmarg_batch_size : Z;
  dmarg_train_dir : option string;
  dmarg_val_dir : option string;
  dmarg_test_dir : option string;
  dmarg_token_mask_prob : pyfloat;
  dmarg_transformer_nheads : option Z;
  dmarg_sequence_length : Z;
  dmarg_hide_map_prob : pyfloat;
  dmarg_dropout_images_prob : option (list pyfloat);
  dmarg_control_mode : string;
  dmarg_num_workers : Z
}.

(** A [Tedd1104DataModule] object; the datasets are there once [setup] has
    made them. *)
Record Tedd1104DataModule : Type := DataModule {
  dm_train_dir : option string;
  dm_val_dir : option string;
  dm_test_dir : option string;
  dm_batch_size : Z;
  dm_token_mask_prob : pyfloat;
  dm_transformer_nheads : option Z;
  dm_sequence_length : Z;
  dm_hide_map_prob : pyfloat;
  dm_dropout_images_prob : list pyfloat;
  dm_control_mode : string;
  dm_num_workers : Z;
  dm_train_dataset : option Tedd1104Dataset;
  dm_val_dataset : option Tedd1104Dataset;
  dm_test_dataset : option Tedd1104Dataset
}.

Definition workers_warning : string :=
  "WARNING: num_workers is greater than 32, this may cause memory issues, consider using a smaller value.Go ahead if you have a lot of RAM.".

(** [Tedd1104DataModule.__init__]: the object and what is printed. *)
Definition Tedd1104DataModule_init (a : Tedd1104DataModule_args)
  : Tedd1104DataModule * list string :=
  ({| dm_train_dir := dmarg_train_dir a;
      dm_val_dir := dmarg_val_dir a;
      dm_test_dir := dmarg_test_dir a;
      dm_batch_size := dmarg_batch_size a;
      dm_token_mask_prob := dmarg_token_mask_prob a;
      dm_transformer_nheads := dmarg_transformer_nheads a;
      dm_sequence_length := dmarg_sequence_length a;
      dm_hide_map_prob := dmarg_hide_map_prob a;
      dm_dropout_images_prob :=
        dropout_or_zeros (dmarg_dropout_images_prob a) 5;
      dm_control_mode := dmarg_control_mode a;
      dm_num_workers := dmarg_num_workers a;
      dm_train_dataset := None;
      dm_val_dataset := None;
      dm_test_dataset := None |},
   if (32 <? dmarg_num_workers a)%Z then [workers_warning] else []).

Definition set_train_dataset (self : Tedd1104DataModule)
  (d : Tedd1104Dataset) : Tedd1104DataModule :=
  DataModule (dm_train_dir self) (dm_val_dir self) (dm_test_dir self)
    (dm_batch_size self) (dm_token_mask_prob self)
    (dm_transformer_nheads self) (dm_sequence_length self)
    (dm_hide_map_prob self) (dm_dropout_images_prob self)
    (dm_control_mode self) (dm_num_workers self)
    (Some d) (dm_val_dataset self) (dm_test_dataset self).

Definition set_val_dataset (self : Tedd1104DataModule)
  (d : Tedd1104Dataset) : Tedd1104DataModule :=
  DataModule (dm_train_dir self) (dm_val_dir self) (dm_test_dir self)
    (dm_batch_size self) (dm_token_mask_prob self)
    (dm_transformer_nheads self) (dm_sequence_length self)
    (dm_hide_map_prob self) (dm_dropout_images_prob self)
    (dm_control_mode self) (dm_num_workers self)
    (dm_train_dataset self) (Some d) (dm_test_dataset self).

Definition set_test_dataset (self : Tedd1104DataModule)
  (d : Tedd1104Dataset) : Tedd1104DataModule :=
  DataModule (dm_train_dir self) (dm_val_dir self) (dm_test_dir self)
    (dm_batch_size self) (dm_token_mask_prob self)
    (dm_transformer_nheads self) (dm_sequence_length self)
    (dm_hide_map_prob self) (dm_dropout_images_prob self)
    (dm_control_mode self) (dm_num_workers self)
    (dm_train_dataset self) (dm_val_dataset self) (Some d).

(** [stage in (None, name)] *)
Definition stage_in (stage : option string) (name : string) : bool :=
  match stage with
  | None => true
  | Some st => String.eqb st name
  end.

(** The arguments [setup] passes for the training split, and the ones it
    passes for the validation and the test split. The directory is passed
    apart, as it may be [None]. *)
Definition train_split_args (self : Tedd1104DataModule) (dir : string)
  : Tedd1104Dataset_args :=
  {| arg_dataset_dir := dir;
     arg_hide_map_prob := dm_hide_map_prob self;
     arg_token_mask_prob := dm_token_mask_prob self;
     arg_transformer_nheads := dm_transformer_nheads self;
     arg_dropout_images_prob := Some (dm_dropout_images_prob self);
     arg_sequence_length := dm_sequence_length self;
     arg_control_mode := dm_control_mode self;
     arg_train := true |}.

Definition eval_split_args (self : Tedd1104DataModule) (dir : string)
  : Tedd1104Dataset_args :=
  {| arg_dataset_dir := dir;
     arg_hide_map_prob := Finite 0;
     arg_token_mask_prob := Finite 0;
     arg_transformer_nheads := dm_transformer_nheads self;
     arg_dropout_images_prob :=
       Some [Finite 0; Finite 0; Finite 0; Finite 0; Finite 0];
     arg_sequence_length := dm_sequence_length self;
     arg_control_mode := "keyboard";
     arg_train := false |}.

Section DataModule.
Variable glob_jpeg : string -> list string.
Variable color_jitter : ColorJitter.

(** [Tedd1104Dataset(dataset_dir=dir, ...)] for a directory that may be
    [None]: the attributes are assigned and checked as ever, and then
    [os.path.join(None, "*.jpeg")] raises TypeError. *)
Definition Tedd1104Dataset_in (dir : option string)
  (args : string -> Tedd1104Dataset_args) : result Tedd1104Dataset :=
  match dir with
  | Some d => Tedd1104Dataset_init glob_jpeg color_jitter (args d)
  | None =>
      _ ← Tedd1104Dataset_init glob_jpeg color_jitter (args EmptyString);
      Raise TypeError
  end.

Definition samples_message (split : string) (d : Tedd1104Dataset) : string :=
  ("Total " ++ split ++ " samples: " ++ pretty (Tedd1104Dataset_len d) ++ ".")
  %string.

(** The part of [setup] for the stages [None] and ["fit"]: the result, the
    object as the assignments left it and what was printed. *)
Definition setup_fit (self : Tedd1104DataModule)
  : result unit * Tedd1104DataModule * list string :=
  match Tedd1104Dataset_in (dm_train_dir self) (train_split_args self) with
  | Raise e => (Raise e, self, [])
  | Ok tr =>
      let self := set_train_dataset self tr in
      let out := [samples_message "training" tr] in
      match Tedd1104Dataset_in (dm_val_dir self) (eval_split_args self) with
      | Raise e => (Raise e, self, out)
      | Ok va =>
          (Ok tt, set_val_dataset self va,
           out ++ [samples_message "validation" va])
      end
  end.

(** The part of [setup] for the stages [None] and ["test"]. *)
Definition setup_test (self : Tedd1104DataModule)
  : result unit * Tedd1104DataModule * list string :=
  match Tedd1104Dataset_in (dm_test_dir self) (eval_split_args self) with
  | Raise e => (Raise e, self, [])
  | Ok te => (Ok tt, set_test_dataset self te, [samples_message "test" te])
  end.

(** [Tedd1104DataModule.setup] *)
Definition Tedd1104DataModule_setup (self : Tedd1104DataModule)
  (stage : option string)
  : result unit * Tedd1104DataModule * list string :=
  let '(r, self, out) :=
    if stage_in stage "fit" then setup_fit self else (Ok tt, self, []) in
  match r with
  | Raise e => (Raise e, self, out)
  | Ok _ =>
      if stage_in stage "test"
      then let '(r, self, out') := setup_test self in (r, self, out ++ out')
      else (Ok tt, self, out)
  end.
End DataModule.

(** The configuration of a validation or test split: no augmentation, no
    masking, keyboard labels. *)
Definition eval_configuration (d : Tedd1104Dataset) : Prop :=
  hide_map_prob d = Finite 0 /\
  token_mask_prob d = Finite 0 /\
  dropout_images_prob d = replicate 5 (Finite 0) /\
  control_mode d = "keyboard"%string /\
  train d = false /\
  dataset_transform d = EvalTransform.

(** ** The mean and the standard deviation of a split
    (src/calculate_mean_std.py) *)

(** [x + y] on Python floats. *)
Definition float_add (x y : pyfloat) : pyfloat :=
  match x, y with
  | NaN, _ | _, NaN => NaN
  | Finite a, Finite b => Finite (a + b)
  | PosInf, NegInf | NegInf, PosInf => NaN
  | PosInf, _ | _, PosInf => PosInf
  | NegInf, _ | _, NegInf => NegInf
  end.

(** [x / n] for a float [x] and an int [n]: [None] stands for the
    ZeroDivisionError of [n = 0]. *)
Definition float_div_int (x : pyfloat) (n : nat) : option pyfloat :=
  if n =? 0 then None
  else Some match x with
            | Finite a => Finite (a / inject_Z (Z.of_nat n))
            | other => other
            end.

(** The elements of a tensor of rank 3. *)
Definition elements {A} (img : image A) : list A :=
  mjoin (mjoin (pixels img)).

Definition Qsum (xs : list Q) : Q := foldr Qplus 0%Q xs.

(** [torch.mean(img).item()]: NaN for a tensor without elements. *)
Definition torch_mean (img : image Q) : pyfloat :=
  match elements img with
  | [] => NaN
  | xs => Finite (Qsum xs / inject_Z (Z.of_nat (length xs)))
  end.

(** How a call of [calculate_mean_str] ends: it returns, it raises what the
    decoder raised, or it raises ZeroDivisionError. *)
Inductive mean_std_outcome : Type :=
  | Returned (mean std : pyfloat)
  | Raised (e : exn)
  | ZeroDivisionError.

Section MeanStd.
Variable glob_jpeg : string -> list string.
Variable read_image : string -> result (image Z).

(** [torch.std(img).item()] is the library's. *)
Variable torch_std : image Q -> pyfloat.

(** The inner loop: [for image in images]. *)
Definition add_frames (acc : pyfloat * pyfloat * nat)
  (images : list (image Z)) : pyfloat * pyfloat * nat :=
  foldl (fun '(mean_sum, stds_sum, total) image =>
           (float_add mean_sum (torch_mean (true_divide image 255)),
            float_add stds_sum (torch_std (true_divide image 255)),
            S total))
        acc images.

(** The outer loop: [for img_name in dataset_files]. *)
Fixpoint add_files (dataset_files : list string)
  (acc : pyfloat * pyfloat * nat) : result (pyfloat * pyfloat * nat) :=
  match dataset_files with
  | [] => Ok acc
  | img_name :: rest =>
      images ← read_image img_name;
      '(images, _) ← SplitImages (images, 0%Z);
      add_files rest (add_frames acc images)
  end.

(** [calculate_mean_str]; the progress bar and the two lines printed before
    the return are left out. *)
Definition calculate_mean_str (dataset_dir : string) : mean_std_outcome :=
  match add_files (glob_jpeg dataset_dir) (Finite 0, Finite 0, 0) with
  | Raise e => Raised e
  | Ok (mean_sum, stds_sum, total) =>
      match float_div_int mean_sum total with
      | None => ZeroDivisionError
      | Some mean =>
          match float_div_int stds_sum total with
          | None => ZeroDivisionError
          | Some std => Returned mean std
          end
      end
  end.
End MeanStd.

(** The pixels of an image are bytes. *)
Definition byte_image (img : image Z) : Prop :=
  Forall (Forall (Forall (fun p => (0 <= p <= 255)%Z))) (pixels img).

(** The five frames of an image file. *)
Definition frames_of (img : image Z) : list (image Z) :=
  let W := width img / 5 in
  [crop_cols 0 W img; crop_cols W (W * 2) img;
   crop_cols (W * 2) (W * 3) img; crop_cols (W * 3) (W * 4) img;
   crop_cols (W * 4) (W * 5) img].

(** A file the decoder reads. *)
Definition readable (read_image : string -> result (image Z))
  (f : string) : Prop :=
  is_ok (read_image f) = true.

(** A file that holds a non-empty image of bytes, wide enough for five
    frames of at least one column. *)
Definition byte_file (read_image : string -> result (image Z))
  (f : string) : Prop :=
  exists img, read_image f = Ok img /\ wf_image img /\ byte_image img /\
              0 < channels img /\ 0 < height img /\ 5 <= width img.

(** ** More inputs of the examples *)

(** An image of shape (3, 270, 250), every pixel 7: the minimap window of
    the last segment does not fit. *)
Definition narrow_game_image : image Z :=
  Image 3 270 250 (replicate 3 (replicate 270 (replicate 250 7%Z))).

(** An image of shape (3, 1, 4), every pixel 7: too narrow for frames. *)
Definition thin_image : image Z :=
  Image 3 1 4 (replicate 3 (replicate 1 (replicate 4 7%Z))).

(** Droppers with two and with six probabilities, and one that never
    drops. *)
Definition drop_first_of_two : RemoveImage :=
  {| RemoveImage_dropout_images_prob := Some [Finite 0.5; Finite 0]%Q |}.

Definition drop_first_of_six : RemoveImage :=
  {| RemoveImage_dropout_images_prob :=
       Some [Finite 0.5; Finite 0; Finite 0; Finite 0; Finite 0;
             Finite 1]%Q |}.

Definition drop_none : RemoveImage :=
  {| RemoveImage_dropout_images_prob := Some (replicate 5 (Finite 0)) |}.

(** A minimap remover that never hides the minimap. *)
Definition hide_never : RemoveMinimap :=
  {| RemoveMinimap_hide_map_prob := Finite 0 |}.

(** A stack of five frames of shape (3, 1, 1) of bytes. *)
Definition gray_frame : image Z :=
  Image 3 1 1 (replicate 3 (replicate 1 (replicate 1 7%Z))).
Definition gray_stack : list (image Z) := replicate 5 gray_frame.

(** Arguments of a split with a sequence length of 4 and no dropout
    probabilities, and of a training split with an empty list of them. *)
Definition short_sequence_args : Tedd1104Dataset_args :=
  {| arg_dataset_dir := "train"; arg_hide_map_prob := Finite 0;
     arg_token_mask_prob := Finite 0; arg_transformer_nheads := None;
     arg_dropout_images_prob := None;
     arg_sequence_length := 4; arg_control_mode := "keyboard";
     arg_train := true |}.

Definition empty_dropout_args : Tedd1104Dataset_args :=
  {| arg_dataset_dir := "train"; arg_hide_map_prob := Finite 0;
     arg_token_mask_prob := Finite 0; arg_transformer_nheads := None;
     arg_dropout_images_prob := Some [];
     arg_sequence_length := 5; arg_control_mode := "keyboard";
     arg_train := true |}.

(** The arguments of a data module with its three directories, for the
    controller, with a minimap hidden half of the time; and of one without
    a test directory. *)
Definition module_args : Tedd1104DataModule_args :=
  {| dmarg_batch_size := 2; dmarg_train_dir := Some "train"%string;
     dmarg_val_dir := Some "val"%string;
     dmarg_test_dir := Some "test"%string;
     dmarg_token_mask_prob := Finite 0.5;
     dmarg_transformer_nheads := None; dmarg_sequence_length := 5;
     dmarg_hide_map_prob := Finite 0.5;
     dmarg_dropout_images_prob := None;
     dmarg_control_mode := "controller"; dmarg_num_workers := 1 |}.

Definition module_args_no_test : Tedd1104DataModule_args :=
  {| dmarg_batch_size := 2; dmarg_train_dir := Some "train"%string;
     dmarg_val_dir := Some "val"%string;
     dmarg_test_dir := None;
     dmarg_token_mask_prob := Finite 0.5;
     dmarg_transformer_nheads := None; dmarg_sequence_length := 5;
     dmarg_hide_map_prob := Finite 0.5;
     dmarg_dropout_images_prob := None;
     dmarg_control_mode := "controller"; dmarg_num_workers := 1 |}.

(** Directories: an empty one, and one with the single file "good.jpeg". *)
Definition glob_no_file (pattern : string) : list string := [].

Definition glob_one_file (pattern : string) : list string :=
  ["good.jpeg"%string].

(** A decoder that returns [thin_image] for every file. *)
Definition read_thin (img_name : string) : result (image Z) :=
  Ok thin_image.

(** A standard deviation that is 0 for every tensor. *)
Definition std_zero (img : image Q) : pyfloat := Finite 0.

(** ** Tactics *)

Ltac unfold_M :=
  unfold mbind, M_mbind, M_bind, mret, M_mret, load, lift, update, raise, rand.

Tactic Notation "unfold_M" "in" hyp(H) :=
  unfold mbind, M_mbind, M_bind, mret, M_mret, load, lift, update, raise, rand
    in H.

(** * Properties *)

(** ** Slices *)

Section Slices.
Context {A : Type}.
Implicit Types l : list A.

Lemma slice_length a b l :
  length (slice a b l) = Nat.min b (length l) - Nat.min a (length l).
Proof. unfold slice. rewrite length_take, length_drop. lia. Qed.

Lemma slice_app a b c l :
  a <= b -> b <= c -> slice a b l ++ slice b c l = slice a c l.
Proof.
  intros Hab Hbc. unfold slice.
  replace (c - a) with ((b - a) + (c - b)) by lia.
  rewrite <- take_take_drop, drop_drop.
  by replace (a + (b - a)) with b by lia.
Qed.

Lemma slice_0 b l : slice 0 b l = take b l.
Proof. unfold slice. by rewrite Nat.sub_0_r, drop_0. Qed.

Lemma slice_lookup a b l i :
  slice a b l !! i = if decide (i < b - a) then l !! (a + i) else None.
Proof.
  unfold slice. rewrite lookup_take.
  destruct (decide (i < b - a)); [apply lookup_drop | done].
Qed.
End Slices.

(** ** Shapes *)

Section Shapes.
Context {A : Type}.
Implicit Types img : image A.

Lemma wf_crop_cols a b img : wf_image img -> wf_image (crop_cols a b img).
Proof.
  intros [Hc Hrows]. split; simpl.
  - by rewrite length_fmap.
  - apply Forall_fmap. eapply Forall_impl; [exact Hrows |].
    intros ch [Hh Hw]; simpl. split.
    + by rewrite length_fmap.
    + apply Forall_fmap. eapply Forall_impl; [exact Hw |].
      intros row Hrow; simpl. by rewrite slice_length, Hrow.
Qed.

Lemma crop_cols_dims a b img :
  a <= b -> b <= width img ->
  dims (crop_cols a b img) = (channels img, height img, b - a).
Proof. intros. unfold dims; simpl. f_equal. lia. Qed.

Lemma hcat_crop_cols a b c img :
  a <= b -> b <= c ->
  hcat (crop_cols a b img) (crop_cols b c img) = crop_cols a c img.
Proof.
  intros Hab Hbc. unfold hcat, crop_cols; simpl. f_equal; [lia |].
  induction (pixels img) as [|ch chs IH]; simpl; [done |].
  f_equal; [| exact IH].
  clear IH. induction ch as [|row rows IH]; simpl; [done |].
  f_equal; [by apply slice_app | exact IH].
Qed.

Lemma crop_cols_all img :
  wf_image img -> crop_cols 0 (width img) img = img.
Proof.
  destruct img as [c h w p]. intros [_ Hrows]; simpl in *.
  unfold crop_cols; simpl. f_equal; [lia |].
  induction Hrows as [|ch chs [_ Hw] _ IH]; simpl; [done |].
  f_equal; [| exact IH].
  clear IH. induction Hw as [|row rows Hrow _ IH]; simpl; [done |].
  f_equal; [| exact IH].
  rewrite slice_0. apply take_ge. lia.
Qed.
End Shapes.

(** ** Assignment of a block of zeros through a slice *)

Section AssignZeros.
Implicit Types img : image Z.

Lemma write_cols_length {A} c0 c1 (row : list A) x :
  c0 <= c1 ->
  length (write_cols c0 c1 row
            (replicate (Nat.min c1 (length row) - Nat.min c0 (length row)) x))
  = length row.
Proof.
  intros. unfold write_cols.
  rewrite !length_app, length_take, length_replicate, length_drop. lia.
Qed.

Lemma write_cols_lookup {A} c0 c1 (row : list A) x k :
  c0 <= c1 -> k < length row ->
  write_cols c0 c1 row
    (replicate (Nat.min c1 (length row) - Nat.min c0 (length row)) x) !! k
  = if decide (c0 <= k < c1) then Some x else row !! k.
Proof.
  intros Hc Hk. unfold write_cols.
  destruct (decide (k < c0)) as [Hlt|Hge].
  - rewrite lookup_app_l by (rewrite length_take; lia).
    rewrite lookup_take. rewrite decide_True by done.
    rewrite decide_False by lia. done.
  - rewrite lookup_app_r by (rewrite length_take; lia).
    rewrite length_take.
    destruct (decide (k < c1)) as [Hlt1|Hge1].
    + rewrite lookup_app_l by (rewrite length_replicate; lia).
      rewrite decide_True by lia. apply lookup_replicate_2. lia.
    + rewrite lookup_app_r by (rewrite length_replicate; lia).
      rewrite length_replicate, lookup_drop.
      rewrite decide_False by lia. f_equal. lia.
Qed.

Lemma expand_dim_replicate {B} n m (x : B) :
  m = n \/ m = 1 -> expand_dim n (replicate m x) = replicate n x.
Proof.
  intros [->| ->]; [| done].
  destruct n as [|[|n]]; done.
Qed.

Lemma expand_zeros vd d :
  expandable vd d = true ->
  expand d (zeros vd) =
    replicate d.1.1 (replicate d.1.2 (replicate d.2 0%Z)).
Proof.
  destruct vd as [[c h] w], d as [[c' h'] w']. unfold expandable.
  intros (Hc & Hh & Hw)%bool_decide_eq_true. simpl.
  rewrite fmap_replicate, fmap_replicate.
  by rewrite !expand_dim_replicate.
Qed.

(** What [image[:, r0:, c0:c1] = torch.zeros(vd)] does when the shapes
    agree. *)
Lemma assign_zeros img r0 c0 c1 vd :
  wf_image img -> c0 <= c1 ->
  expandable vd (region_dims img r0 c0 c1) = true ->
  exists img',
    assign_region img r0 c0 c1 (zeros vd) = Ok img' /\
    wf_image img' /\ dims img' = dims img /\
    forall c r k, c < channels img -> r < height img -> k < width img ->
      pixel img' c r k =
        if decide (r0 <= r /\ c0 <= k < c1) then Some 0%Z
        else pixel img c r k.
Proof.
  intros [Hc Hrows] Hcc Hexp. unfold assign_region.
  assert (Hd : dims (zeros vd) = vd) by (by destruct vd as [[??]?]).
  rewrite Hd, Hexp, (expand_zeros _ _ Hexp). simpl.
  set (zrow := replicate (Nat.min c1 (width img) - Nat.min c0 (width img)) 0%Z).
  set (zch := replicate (height img - r0) zrow).
  eexists; split; [done |].
  assert (Hrow : forall ch r row, ch ∈ pixels img -> ch !! r = Some row ->
            length row = width img).
  { intros ch r row Hin Hr. rewrite Forall_forall in Hrows.
    destruct (Hrows ch Hin) as [_ Hw]. rewrite Forall_lookup in Hw. eauto. }
  assert (Hch : forall ch, ch ∈ pixels img -> length ch = height img).
  { intros ch Hin. rewrite Forall_forall in Hrows. by apply Hrows. }
  assert (Hwr : forall ch r, ch ∈ pixels img -> r < height img ->
            write_rows r0 c0 c1 ch zch !! r =
              if decide (r0 <= r)
              then (fun row => write_cols c0 c1 row zrow) <$> ch !! r
              else ch !! r).
  { intros ch r Hin Hr. unfold write_rows. specialize (Hch ch Hin).
    destruct (decide (r0 <= r)).
    - rewrite lookup_app_r by (rewrite length_take; lia).
      rewrite length_take, lookup_zip_with, lookup_drop.
      replace (r0 + (r - r0 `min` length ch)) with r by lia.
      unfold zch. rewrite lookup_replicate_2 by lia.
      by destruct (ch !! r).
    - rewrite lookup_app_l by (rewrite length_take; lia).
      rewrite lookup_take. by rewrite decide_True by lia. }
  split; [| split; [done |]].
  - split; simpl.
    + rewrite length_zip_with, length_replicate. lia.
    + apply Forall_lookup. intros c ch'.
      rewrite lookup_zip_with_Some. intros (ch & v & -> & Hch1 & Hv).
      apply lookup_replicate in Hv as [-> _].
      assert (Hin : ch ∈ pixels img) by (eapply list_elem_of_lookup_2; eauto).
      fold zrow zch. split.
      * unfold write_rows.
        rewrite length_app, length_take, length_zip_with, length_drop.
        unfold zch. rewrite length_replicate, (Hch _ Hin). lia.
      * apply Forall_lookup. intros r row' Hr'.
        assert (r < height img).
        { apply lookup_lt_Some in Hr'. revert Hr'. unfold write_rows.
          rewrite length_app, length_take, length_zip_with, length_drop.
          rewrite (Hch _ Hin). lia. }
        rewrite Hwr in Hr' by done.
        destruct (decide (r0 <= r)); [| by eapply Hrow].
        destruct (ch !! r) as [row|] eqn:Hr; [| done].
        injection Hr' as <-. unfold zrow.
        rewrite <- (Hrow _ _ _ Hin Hr). by apply write_cols_length.
  - intros c r k Hcl Hrl Hkl. unfold pixel; simpl.
    rewrite lookup_zip_with. fold zrow zch.
    destruct (pixels img !! c) as [ch|] eqn:Hc1; simpl;
      [| apply lookup_ge_None in Hc1; lia].
    rewrite lookup_replicate_2 by lia. simpl.
    assert (Hin : ch ∈ pixels img) by (eapply list_elem_of_lookup_2; eauto).
    rewrite Hwr by done.
    destruct (ch !! r) as [row|] eqn:Hr;
      [| apply lookup_ge_None in Hr; rewrite (Hch _ Hin) in Hr; lia].
    destruct (decide (r0 <= r)); simpl.
    + unfold zrow. rewrite <- (Hrow _ _ _ Hin Hr).
      rewrite write_cols_lookup by (rewrite ?(Hrow _ _ _ Hin Hr); lia).
      destruct (decide (c0 <= k < c1)).
      * by rewrite decide_True by done.
      * by rewrite decide_False by tauto.
    + by rewrite decide_False by tauto.
Qed.
End AssignZeros.

(** ** The in-place transforms on a tensor object *)

Section Monad.
Context {T : Type}.
Implicit Types s : state T.

Lemma bind_ok {A B} (m : M T A) (k : A -> M T B) s a s' :
  m s = (Ok a, s') -> (m ≫= k) s = k a s'.
Proof. intros H. unfold_M. by rewrite H. Qed.

Lemma bind_raise {A B} (m : M T A) (k : A -> M T B) s e s' :
  m s = (Raise e, s') -> (m ≫= k) s = (Raise e, s').
Proof. intros H. unfold_M. by rewrite H. Qed.

Lemma for_cons {B} (x : B) xs (body : B -> M T unit) :
  for_ (x :: xs) body = body x ≫= fun _ => for_ xs body.
Proof. done. Qed.

Lemma state_eta s : State (store s) (draws s) (pos s) (stdout s) = s.
Proof. by destruct s. Qed.
End Monad.

Section InPlace.
Implicit Types (img : image Z) (s : state (image Z)) (l : loc).

Lemma region_dims_ext img img' r0 c0 c1 :
  dims img' = dims img ->
  region_dims img' r0 c0 c1 = region_dims img r0 c0 c1.
Proof. unfold dims, region_dims. by intros [= -> -> ->]. Qed.

Lemma setitem_zeros_ok l s img r0 c0 c1 vd :
  store s !! l = Some img -> wf_image img -> c0 <= c1 ->
  expandable vd (region_dims img r0 c0 c1) = true ->
  exists img',
    setitem l r0 c0 c1 (zeros vd) s =
      (Ok tt, State (<[l:=img']> (store s)) (draws s) (pos s) (stdout s)) /\
    wf_image img' /\ dims img' = dims img /\
    forall c r k, c < channels img -> r < height img -> k < width img ->
      pixel img' c r k =
        if decide (r0 <= r /\ c0 <= k < c1) then Some 0%Z
        else pixel img c r k.
Proof.
  intros Hl Hwf Hc Hexp.
  destruct (assign_zeros img r0 c0 c1 vd Hwf Hc Hexp)
    as (img' & Ha & Hwf' & Hd & Hpx).
  exists img'. split; [| done].
  unfold setitem. unfold_M. by rewrite Hl, Ha.
Qed.

Lemma setitem_zeros_fail l s img r0 c0 c1 vd :
  store s !! l = Some img ->
  expandable vd (region_dims img r0 c0 c1) = false ->
  setitem l r0 c0 c1 (zeros vd) s = (Raise RuntimeError, s).
Proof.
  intros Hl Hexp. unfold setitem, assign_region. unfold_M.
  assert (Hd : dims (zeros vd) = vd) by (by destruct vd as [[??]?]).
  by rewrite Hl, Hd, Hexp.
Qed.

(** The loop of [RemoveMinimap.__call__] over the segments [js]. *)
Lemma minimap_loop_ok l w js : forall s img,
  store s !! l = Some img -> wf_image img ->
  Forall (minimap_fits img w) js ->
  exists img',
    for_ js (fun j =>
      setitem l 215 (j * w) (j * w + 80) (zeros (3, 55, 80))) s =
      (Ok tt, State (<[l:=img']> (store s)) (draws s) (pos s) (stdout s)) /\
    wf_image img' /\ dims img' = dims img /\
    forall c r k, c < channels img -> r < height img -> k < width img ->
      pixel img' c r k =
        if decide (215 <= r /\ Exists (fun j => j * w <= k < j * w + 80) js)
        then Some 0%Z else pixel img c r k.
Proof.
  induction js as [|j js IH]; intros s img Hl Hwf Hfit.
  - exists img. split; [| split; [done | split; [done |]]].
    + simpl. unfold_M. by rewrite insert_id, state_eta.
    + intros c r k _ _ _. rewrite decide_False; [done |].
      intros [_ H]. by apply Exists_nil in H.
  - apply Forall_cons in Hfit as [Hj Hfit].
    destruct (setitem_zeros_ok l s img 215 (j * w) (j * w + 80) (3, 55, 80))
      as (img1 & Hrun1 & Hwf1 & Hd1 & Hpx1); [done | done | lia | done |].
    set (s1 := State (<[l:=img1]> (store s)) (draws s) (pos s) (stdout s)).
    destruct (IH s1 img1) as (img2 & Hrun2 & Hwf2 & Hd2 & Hpx2).
    { unfold s1; simpl. apply lookup_insert_eq. }
    { done. }
    { eapply Forall_impl; [exact Hfit |]. intros j'. unfold minimap_fits.
      by rewrite (region_dims_ext img img1). }
    exists img2. split; [| split; [done | split; [congruence |]]].
    + rewrite for_cons, (bind_ok _ _ _ _ _ Hrun1). fold s1. rewrite Hrun2.
      unfold s1; simpl. by rewrite insert_insert_eq.
    + intros c r k Hc Hr Hk.
      assert (Hdd : channels img1 = channels img /\ height img1 = height img
                    /\ width img1 = width img).
      { unfold dims in Hd1. by injection Hd1. }
      destruct Hdd as (Ec & Eh & Ew).
      rewrite Hpx2 by lia. rewrite Hpx1 by lia.
      destruct (decide (215 <= r /\
                  Exists (fun j => j * w <= k < j * w + 80) js)) as [[? He]|Hn].
      * rewrite decide_True; [done |]. split; [done |]. by apply Exists_cons_tl.
      * destruct (decide (215 <= r /\ j * w <= k < j * w + 80))
          as [[? Hj']|Hn'].
        -- rewrite decide_True; [done |]. split; [done |].
           by apply Exists_cons_hd.
        -- rewrite decide_False; [done |].
           intros [? [?|?]%Exists_cons]; tauto.
Qed.

Lemma minimap_fits_iff img w j :
  j * w <= width img ->
  minimap_fits img w j <->
  channels img = 3 /\ height img = 270 /\ j * w + 80 <= width img.
Proof.
  intros Hj. unfold minimap_fits, expandable, region_dims.
  rewrite bool_decide_eq_true. lia.
Qed.

Lemma minimap_loop_fail l w js : forall s img,
  store s !! l = Some img -> wf_image img ->
  Exists (fun j => ~ minimap_fits img w j) js ->
  exists s',
    for_ js (fun j =>
      setitem l 215 (j * w) (j * w + 80) (zeros (3, 55, 80))) s =
      (Raise RuntimeError, s') /\
    draws s' = draws s /\ pos s' = pos s.
Proof.
  induction js as [|j js IH]; intros s img Hl Hwf Hex.
  - by apply Exists_nil in Hex.
  - rewrite for_cons.
    destruct (expandable (3, 55, 80)
                (region_dims img 215 (j * w) (j * w + 80))) eqn:Hj.
    + destruct (setitem_zeros_ok l s img 215 (j * w) (j * w + 80) (3, 55, 80))
        as (img1 & Hrun1 & Hwf1 & Hd1 & _); [done | done | lia | done |].
      rewrite (bind_ok _ _ _ _ _ Hrun1).
      apply Exists_cons in Hex as [Hex|Hex]; [by destruct Hex |].
      destruct (IH (State (<[l:=img1]> (store s)) (draws s) (pos s)
                          (stdout s)) img1)
        as (s' & Hrun & Hdr & Hps).
      { simpl. apply lookup_insert_eq. }
      { done. }
      { eapply Exists_impl; [exact Hex |]. intros j'. unfold minimap_fits.
        by rewrite (region_dims_ext img img1). }
      by exists s'.
    + exists s. split; [| done]. eapply bind_raise.
      by eapply setitem_zeros_fail.
Qed.

(** The three ways through [RemoveMinimap.__call__]. *)
Lemma RemoveMinimap_call_off {L} self l (y : L) s img :
  store s !! l = Some img ->
  float_lt (Finite 0) (RemoveMinimap_hide_map_prob self) = false ->
  RemoveMinimap_call self (l, y) s = (Ok (l, y), s).
Proof.
  intros Hl Hp. unfold RemoveMinimap_call. unfold_M. by rewrite Hl, Hp.
Qed.

Lemma RemoveMinimap_call_skip {L} self l (y : L) s img :
  store s !! l = Some img ->
  float_lt (Finite 0) (RemoveMinimap_hide_map_prob self) = true ->
  float_le (Finite (draws s (pos s))) (RemoveMinimap_hide_map_prob self)
    = false ->
  RemoveMinimap_call self (l, y) s =
    (Ok (l, y), State (store s) (draws s) (S (pos s)) (stdout s)).
Proof.
  intros Hl Hp Hu. unfold RemoveMinimap_call. unfold_M.
  by rewrite Hl, Hp, Hu.
Qed.

Lemma RemoveMinimap_call_hit {L} self l (y : L) s img :
  store s !! l = Some img ->
  float_lt (Finite 0) (RemoveMinimap_hide_map_prob self) = true ->
  float_le (Finite (draws s (pos s))) (RemoveMinimap_hide_map_prob self)
    = true ->
  RemoveMinimap_call self (l, y) s =
    (for_ (seq 0 5) (fun j =>
       setitem l 215 (j * (width img / 5)) (j * (width img / 5) + 80)
               (zeros (3, 55, 80))) ≫= fun _ => mret (l, y))
      (State (store s) (draws s) (S (pos s)) (stdout s)).
Proof.
  intros Hl Hp Hu. unfold RemoveMinimap_call. unfold_M.
  by rewrite Hl, Hp, Hu.
Qed.

(** The loop of [RemoveImage.__call__]. *)
Lemma getitem_nat {A} (xs : list A) i x :
  xs !! i = Some x -> getitem xs (Z.of_nat i) = Ok x.
Proof.
  intros H. unfold getitem.
  destruct (Z.ltb_spec (Z.of_nat i) 0); [lia |].
  destruct (Z.ltb_spec (Z.of_nat i) 0); [lia |].
  by rewrite Nat2Z.id, H.
Qed.

Lemma count_positive_app d1 d2 :
  count_positive (d1 ++ d2) = count_positive d1 + count_positive d2.
Proof. induction d1 as [|p d1 IH]; simpl; [done | rewrite IH; lia]. Qed.

Lemma draws_before_S d j p :
  d !! j = Some p ->
  draws_before d (S j) =
    draws_before d j + (if float_lt (Finite 0) p then 1 else 0).
Proof.
  intros H. unfold draws_before.
  rewrite (take_S_r _ _ _ H), count_positive_app. simpl. lia.
Qed.

Lemma RemoveImage_loop self l d C H w n0 : forall len a s img,
  RemoveImage_dropout_images_prob self = Some d ->
  store s !! l = Some img -> wf_image img ->
  channels img = C -> height img = H ->
  a + len <= length d -> (a + len) * w <= width img ->
  pos s = n0 + draws_before d a ->
  exists img',
    for_ (seq a len) (RemoveImage_body self l C H w) s =
      (Ok tt, State (<[l:=img']> (store s)) (draws s)
                    (n0 + draws_before d (a + len)) (stdout s)) /\
    wf_image img' /\ dims img' = dims img /\
    forall c r k, c < channels img -> r < height img -> k < width img ->
      pixel img' c r k =
        if decide (Exists (fun j => slot_dropped d (draws s) n0 j = true /\
                                    j * w <= k < (j + 1) * w) (seq a len))
        then Some 0%Z else pixel img c r k.
Proof.
  induction len as [|len IH]; intros a s img Hself Hl Hwf HC HH Hlen Hw Hpos.
  - exists img. split; [| split; [done | split; [done |]]].
    + simpl. unfold_M. rewrite insert_id by done.
      rewrite Nat.add_0_r, <- Hpos. by rewrite state_eta.
    + intros c r k _ _ _. rewrite decide_False; [done |].
      intros H'. by apply Exists_nil in H'.
  - destruct (lookup_lt_is_Some_2 d a) as [p Hp]; [lia |].
    assert (Hprob : RemoveImage_prob self a = Ok p).
    { unfold RemoveImage_prob. rewrite Hself. by apply getitem_nat. }
    (* the state and the image after slot [a] *)
    assert (Hstep : exists img1,
      RemoveImage_body self l C H w a s =
        (Ok tt, State (<[l:=img1]> (store s)) (draws s)
                      (n0 + draws_before d (S a)) (stdout s)) /\
      wf_image img1 /\ dims img1 = dims img /\
      forall c r k, c < channels img -> r < height img -> k < width img ->
        pixel img1 c r k =
          if decide (slot_dropped d (draws s) n0 a = true /\
                     a * w <= k < (a + 1) * w)
          then Some 0%Z else pixel img c r k).
    { unfold RemoveImage_body, slot_dropped.
      rewrite (draws_before_S _ _ _ Hp), Hp, <- Hpos.
      destruct (float_lt (Finite 0) p) eqn:Hlt; simpl.
      - destruct (float_le (Finite (draws s (pos s))) p) eqn:Hle.
        + destruct (setitem_zeros_ok l
                      (State (store s) (draws s) (S (pos s)) (stdout s)) img 0
                      (a * w) ((a + 1) * w) (C, H, w))
            as (img1 & Hrun & Hwf1 & Hd1 & Hpx1); [done | done | lia | |].
          { unfold expandable, region_dims. apply bool_decide_eq_true. lia. }
          exists img1. split; [| split; [done | split; [done |]]].
          * unfold_M. rewrite Hprob, Hlt, Hle. rewrite Hrun. simpl.
            do 2 f_equal. lia.
          * intros c r k Hc Hr Hk. rewrite Hpx1 by done.
            destruct (decide (a * w <= k < (a + 1) * w)).
            -- rewrite !decide_True; [done | done | split; [lia | done]].
            -- rewrite !decide_False; [done | tauto | tauto].
        + exists img. split; [| split; [done | split; [done |]]].
          * unfold_M. rewrite Hprob, Hlt, Hle. simpl.
            rewrite insert_id by done. do 2 f_equal. lia.
          * intros c r k _ _ _. rewrite decide_False; [done |].
            by intros [? _].
      - exists img. split; [| split; [done | split; [done |]]].
        + unfold_M. rewrite Hprob, Hlt. rewrite insert_id by done.
          rewrite <- (state_eta s) at 1. do 2 f_equal. lia.
        + done. }
    destruct Hstep as (img1 & Hrun1 & Hwf1 & Hd1 & Hpx1).
    assert (Hdd : channels img1 = channels img /\ height img1 = height img
                  /\ width img1 = width img).
    { unfold dims in Hd1. by injection Hd1. }
    destruct Hdd as (Ec & Eh & Ew).
    set (s1 := State (<[l:=img1]> (store s)) (draws s)
                     (n0 + draws_before d (S a)) (stdout s)).
    destruct (IH (S a) s1 img1) as (img2 & Hrun2 & Hwf2 & Hd2 & Hpx2);
      try done.
    { unfold s1; simpl. apply lookup_insert_eq. }
    { congruence. }
    { congruence. }
    { lia. }
    { rewrite Ew. lia. }
    exists img2. split; [| split; [done | split; [congruence |]]].
    + change (seq a (S len)) with (a :: seq (S a) len).
      rewrite for_cons, (bind_ok _ _ _ _ _ Hrun1). fold s1. rewrite Hrun2.
      unfold s1; simpl. rewrite insert_insert_eq.
      by rewrite Nat.add_succ_r.
    + intros c r k Hc Hr Hk.
      rewrite Hpx2 by lia. rewrite Hpx1 by lia.
      change (seq a (S len)) with (a :: seq (S a) len).
      unfold s1; simpl.
      destruct (decide (Exists
        (fun j => slot_dropped d (draws s) n0 j = true /\
                  j * w <= k < (j + 1) * w) (seq (S a) len))) as [He|Hn].
      * rewrite decide_True; [done |]. by apply Exists_cons_tl.
      * destruct (decide (slot_dropped d (draws s) n0 a = true /\
                          a * w <= k < (a + 1) * w)) as [Ha|Hna].
        -- rewrite decide_True; [done |]. by apply Exists_cons_hd.
        -- rewrite decide_False; [done |].
           intros [?|?]%Exists_cons; tauto.
Qed.

Lemma RemoveImage_loop_off self l d C H w :
  RemoveImage_dropout_images_prob self = Some d ->
  Forall (fun p => float_lt (Finite 0) p = false) d ->
  forall len a s, a + len <= length d ->
    for_ (seq a len) (RemoveImage_body self l C H w) s = (Ok tt, s).
Proof.
  intros Hself Hoff. induction len as [|len IH]; intros a s Hlen; [done |].
  destruct (lookup_lt_is_Some_2 d a) as [p Hp]; [lia |].
  change (seq a (S len)) with (a :: seq (S a) len).
  rewrite for_cons. erewrite bind_ok; [apply IH; lia |].
  unfold RemoveImage_body, RemoveImage_prob. unfold_M.
  rewrite Hself, (getitem_nat _ _ _ Hp).
  rewrite Forall_lookup in Hoff. by rewrite (Hoff _ _ Hp).
Qed.

Lemma draws_before_mono d i j :
  i <= j -> draws_before d i <= draws_before d j.
Proof.
  intros Hij. unfold draws_before.
  replace j with (i + (j - i)) by lia.
  rewrite <- take_take_drop, count_positive_app. lia.
Qed.

Lemma RemoveImage_call_body {L} self l (y : L) s img :
  store s !! l = Some img ->
  RemoveImage_call self (l, y) s =
    (for_ (seq 0 5)
       (RemoveImage_body self l (channels img) (height img) (width img / 5))
     ≫= fun _ => mret (l, y)) s.
Proof. intros Hl. unfold RemoveImage_call. unfold_M. by rewrite Hl. Qed.
End InPlace.

(** ** Frame Splitter *)

(** C1. For every well-formed image of shape (C, H, TW) (C = 3 in the
    pipeline) and every label y, SplitImages returns a stack of exactly 5
    frames, each well formed and of shape (C, H, W) with W = TW / 5, and the
    label unchanged, wrapped as a tensor; concatenating the 5 frames along
    the width axis gives the image cropped to its first 5*W columns, which is
    the image itself when TW = 5*W. *)
Theorem SplitImages_five_frames {A L} (img : image A) (y : L) :
  wf_image img ->
  let W := width img / 5 in
  exists frames,
    SplitImages (img, y) = Ok (frames, Torch.tensor y) /\
    tensor_data (Torch.tensor y) = y /\
    length frames = 5 /\
    Forall (fun f => wf_image f /\ dims f = (channels img, height img, W))
           frames /\
    cat_width frames = Some (crop_cols 0 (5 * W) img) /\
    (width img = 5 * W -> cat_width frames = Some img).
Proof.
  intros Hwf W.
  assert (HW : 5 * W <= width img) by (apply Nat.Div0.mul_div_le).
  set (fs := [crop_cols 0 W img; crop_cols W (W * 2) img;
              crop_cols (W * 2) (W * 3) img; crop_cols (W * 3) (W * 4) img;
              crop_cols (W * 4) (W * 5) img]).
  assert (Hdims : Forall (fun f => wf_image f /\
                            dims f = (channels img, height img, W)) fs).
  { unfold fs. repeat (apply Forall_cons_2 || apply Forall_nil_2);
      (split; [by apply wf_crop_cols |]);
      rewrite crop_cols_dims by lia; f_equal; lia. }
  assert (Hcat : cat_width fs = Some (crop_cols 0 (5 * W) img)).
  { unfold fs, cat_width; simpl. f_equal.
    rewrite !hcat_crop_cols by lia. f_equal; lia. }
  exists fs. split; [| repeat split; try done].
  - unfold SplitImages, size2. fold W. fold fs. unfold Torch.stack, fs.
    rewrite bool_decide_eq_true_2; [done |].
    fold fs in Hdims. unfold fs in Hdims.
    apply Forall_cons in Hdims as [[_ H1] Hrest].
    eapply Forall_impl; [exact Hrest |].
    intros f [_ Hf]; simpl in *. congruence.
  - intros Heq. rewrite Hcat, <- Heq. f_equal. by apply crop_cols_all.
Qed.

(** ** Minimap Remover *)


(** C5, as amended. With hide_map_prob = 0 RemoveMinimap leaves the image
    as it is, for every image and every draw, and takes no draw. With
    hide_map_prob = 1 and an image of shape (3, 270, TW) in which the window
    of the last segment fits (4*W + 80 <= TW, W = TW / 5), one draw decides
    for the whole sample and the call zeroes rows 215 onward of the first 80
    columns of each of the 5 segments, leaving every other pixel as it
    was. *)
Theorem RemoveMinimap_zero_or_one {L} (self : RemoveMinimap) l (y : L) s img q :
  store s !! l = Some img -> wf_image img ->
  RemoveMinimap_hide_map_prob self = Finite q ->
  (0 <= draws s (pos s) < 1)%Q ->
  let W := width img / 5 in
  (q == 0 -> RemoveMinimap_call self (l, y) s = (Ok (l, y), s))%Q /\
  ((q == 1)%Q -> dims img = (3, 270, width img) -> 4 * W + 80 <= width img ->
   exists img',
     RemoveMinimap_call self (l, y) s =
       (Ok (l, y), State (<[l:=img']> (store s)) (draws s) (S (pos s))
                         (stdout s)) /\
     wf_image img' /\ dims img' = dims img /\
     forall c r k, c < 3 -> r < 270 -> k < width img ->
       (215 <= r -> (exists j, j < 5 /\ j * W <= k < j * W + 80) ->
        pixel img' c r k = Some 0%Z) /\
       (~ (215 <= r /\ exists j, j < 5 /\ j * W <= k < j * W + 80) ->
        pixel img' c r k = pixel img c r k)).
Proof.
  intros Hl Hwf Hq [Hu0 Hu1] W. split.
  - intros Hq0. eapply RemoveMinimap_call_off; [done |].
    rewrite Hq. simpl. apply negb_false_iff, Qle_bool_iff. lra.
  - intros Hq1 Hd Hfit.
    assert (HW : 5 * W <= width img) by apply Nat.Div0.mul_div_le.
    unfold dims in Hd. injection Hd as Hc Hh.
    erewrite RemoveMinimap_call_hit; [| done | |].
    2: { rewrite Hq. simpl. apply negb_true_iff.
         destruct (Qle_bool q 0) eqn:E; [| done].
         apply Qle_bool_iff in E. lra. }
    2: { rewrite Hq. simpl. apply Qle_bool_iff. lra. }
    set (s1 := State (store s) (draws s) (S (pos s)) (stdout s)).
    destruct (minimap_loop_ok l W (seq 0 5) s1 img) as
      (img' & Hrun & Hwf' & Hd' & Hpx); [done | done | |].
    { repeat (apply Forall_cons_2 || apply Forall_nil_2);
        apply minimap_fits_iff; lia. }
    exists img'. split; [| split; [done | split; [done |]]].
    + by rewrite (bind_ok _ _ _ _ _ Hrun).
    + intros c r k Hcl Hrl Hkl. rewrite Hpx by lia.
      assert (Hex : Exists (fun j => j * W <= k < j * W + 80) (seq 0 5) <->
                    exists j, j < 5 /\ j * W <= k < j * W + 80).
      { rewrite Exists_exists. split.
        - intros (j & Hin & Hj). exists j. split; [| done].
          apply elem_of_seq in Hin. lia.
        - intros (j & Hlt & Hj). exists j. split; [| done].
          apply elem_of_seq. lia. }
      split.
      * intros Hr Hj. rewrite decide_True; [done |]. by rewrite Hex.
      * intros Hn. rewrite decide_False; [done |]. by rewrite Hex.
Qed.

(** ** Frame Dropper *)


(** ** Normalizer *)

Section Normalizer.
Context {A : Type} `{Dtype A}.

Lemma Normalize_frame (img : image A) h w :
  wf_image img -> dims img = (3, h, w) ->
  exists out,
    Normalize_transform (true_divide img 255) = Ok out /\
    wf_image out /\ dims out = (3, h, w) /\
    forall c r k p m sd,
      pixel img c r k = Some p -> channel_stats !! c = Some (m, sd) ->
      pixel out c r k = Some ((to_float p / 255 - m) / sd)%Q.
Proof.
  intros [Hc Hrows] Hd. unfold dims in Hd. injection Hd as Hch Hh Hw.
  unfold Normalize_transform, transforms_Normalize. simpl.
  rewrite bool_decide_eq_true_2 by done.
  eexists. split; [done |]. split; [| split].
  - split; simpl.
    + rewrite length_zip_with, !length_fmap. simpl. lia.
    + apply Forall_lookup. intros c ch'.
      rewrite lookup_zip_with_Some. intros (ch & ms & -> & Hch1 & _).
      apply list_lookup_fmap_Some in Hch1 as (ch0 & -> & Hch0).
      rewrite Forall_lookup in Hrows. destruct (Hrows _ _ Hch0) as [Hl Hr].
      split; [by rewrite !length_fmap |].
      rewrite <- list_fmap_compose. apply Forall_fmap.
      eapply Forall_impl; [exact Hr |]. intros row Hrow; simpl.
      by rewrite !length_fmap.
  - unfold dims; simpl. congruence.
  - intros c r k p m sd Hp Hms. unfold pixel in *; simpl.
    rewrite lookup_zip_with, list_lookup_fmap.
    destruct (pixels img !! c) as [ch|]; [simpl | done].
    unfold channel_stats in Hms. rewrite Hms. simpl.
    rewrite !list_lookup_fmap.
    destruct (ch !! r) as [row|]; [simpl | done].
    rewrite !list_lookup_fmap. by rewrite Hp.
Qed.
End Normalizer.

(** C7. Normalize takes no draw: its result is a function of the sample. On
    a stack of 5 frames of 3 channels it returns a stack of 5 frames of the
    same shape and the label as it was, and in every frame the value p of a
    pixel of channel c becomes (p/255 - mean_c)/std_c, with the means 0.485,
    0.456, 0.406 and the standard deviations 0.229, 0.224, 0.225. It is not
    idempotent: on some stack, applying it to its own result gives a
    different stack. *)
Theorem Normalize_formula :
  (forall {A} `{Dtype A} {L} (images : list (image A)) (y : L),
     wf_stack 5 images ->
     exists out,
       Normalize (images, y) = Ok (out, y) /\
       wf_stack 5 out /\ dims <$> out = dims <$> images /\
       forall i c r k p m sd,
         stack_pixel images i c r k = Some p ->
         channel_stats !! c = Some (m, sd) ->
         stack_pixel out i c r k = Some ((to_float p / 255 - m) / sd)%Q) /\
  (exists (images once twice : list (image Q)) x1 x2,
     wf_stack 5 images /\
     Normalize (images, tt) = Ok (once, tt) /\
     Normalize (once, tt) = Ok (twice, tt) /\
     stack_pixel once 0 0 0 0 = Some x1 /\
     stack_pixel twice 0 0 0 0 = Some x2 /\
     ~ (x1 == x2)%Q).
Proof.
  split.
  - intros A HA L images y [Hlen (h & w & Hall)].
    destruct images as [|a [|b [|c [|d [|e [|? ?]]]]]]; try done.
    repeat match goal with
           | Hf : Forall _ (_ :: _) |- _ =>
               apply Forall_cons in Hf as [[? ?] Hf]
           end.
    destruct (Normalize_frame a h w) as (a' & Ha & Hwa & Hda & Hpa); try done.
    destruct (Normalize_frame b h w) as (b' & Hb & Hwb & Hdb & Hpb); try done.
    destruct (Normalize_frame c h w) as (c' & Hc & Hwc & Hdc & Hpc); try done.
    destruct (Normalize_frame d h w) as (d' & Hd & Hwd & Hdd & Hpd); try done.
    destruct (Normalize_frame e h w) as (e' & He & Hwe & Hde & Hpe); try done.
    exists [a'; b'; c'; d'; e'].
    split; [| split; [| split]].
    + unfold Normalize. cbn [getitem length]. simpl.
      unfold mbind, result_bind; simpl.
      rewrite Ha, Hb, Hc, Hd, He; simpl.
      rewrite bool_decide_eq_true_2; [done |].
      repeat (apply Forall_cons_2 || apply Forall_nil_2); congruence.
    + split; [done |]. exists h, w.
      by repeat (apply Forall_cons_2 || apply Forall_nil_2).
    + simpl. congruence.
    + intros i c0 r k p m sd Hp Hms. unfold stack_pixel in *.
      destruct i as [|[|[|[|[|i]]]]]; simpl in *; eauto; done.
  - set (img := Image 3 1 1 [[[0%Q]]; [[0%Q]]; [[0%Q]]]).
    set (images := [img; img; img; img; img]).
    destruct (Normalize (images, tt)) as [[once []]|] eqn:H1; [| done].
    destruct (Normalize (once, tt)) as [[twice []]|] eqn:H2;
      [| vm_compute in H1; injection H1 as <-; done].
    exists images, once, twice.
    vm_compute in H1. injection H1 as <-.
    vm_compute in H2. injection H2 as <-.
    eexists _, _. split; [| split; [done | split; [done | split; [done |]]]].
    + split; [done |]. exists 1, 1.
      repeat (apply Forall_cons_2 || apply Forall_nil_2);
        (split; [split; [done | repeat constructor] | done]).
    + split; [done |]. by vm_compute.
Qed.

(** ** Batch Collator *)

Section Collator.
Context {E : Type}.

Lemma join_length_uniform (n : nat) (ls : list (list E)) :
  Forall (fun l => length l = n) ls -> length (mjoin ls) = n * length ls.
Proof.
  induction 1 as [|l ls Hl _ IH]; simpl; [lia |].
  rewrite length_app, IH, Hl. lia.
Qed.

Lemma join_lookup_uniform (n : nat) (ls : list (list E)) i t :
  Forall (fun l => length l = n) ls -> t < n ->
  mjoin ls !! (i * n + t) = ls !! i ≫= fun l => l !! t.
Proof.
  intros Hall Ht.
  destruct (ls !! i) as [l|] eqn:Hi; simpl.
  - assert (Hl : length l = n).
    { rewrite Forall_lookup in Hall. eauto. }
    destruct (lookup_lt_is_Some_2 l t) as [x Hx]; [lia |].
    rewrite Hx. apply (join_lookup_Some_same_length' n); eauto.
  - apply lookup_ge_None. apply lookup_ge_None in Hi.
    rewrite (join_length_uniform n) by done. nia.
Qed.

Context `{Shaped E}.

Lemma cat_Ok (ts : list (tensor E)) t :
  cat ts = Ok t -> rows t = mjoin (rows <$> ts).
Proof.
  unfold cat. destruct ts as [|t0 ts]; [done |].
  destruct (same_shapes _); [| done]. by intros [= <-].
Qed.

Lemma cat_total (ts : list (tensor E)) :
  ts <> [] -> same_shapes (mjoin (rows <$> ts)) = true ->
  cat ts = Ok (Tensor (mjoin (rows <$> ts))
                      (existsb tensor_requires_grad ts)).
Proof. unfold cat. destruct ts as [|t0 ts]; [done |]. by intros _ ->. Qed.

Lemma stack_labels_Ok (ts : list (label_tensor E)) t :
  stack_labels ts = Ok t -> rows t = tensor_data <$> ts.
Proof.
  unfold stack_labels. destruct ts as [|t0 ts]; [done |].
  destruct (same_shapes _); [| done]. by intros [= <-].
Qed.

Lemma stack_labels_total (ts : list (label_tensor E)) :
  ts <> [] -> same_shapes (tensor_data <$> ts) = true ->
  stack_labels ts = Ok (Tensor (tensor_data <$> ts)
                               (existsb requires_grad ts)).
Proof.
  unfold stack_labels. destruct ts as [|t0 ts]; [done |]. by intros _ ->.
Qed.

Lemma set_requires_grad_false_Ok (t t' : tensor E) :
  set_requires_grad_false t = Ok t' ->
  rows t' = rows t /\ tensor_requires_grad t' = false.
Proof.
  unfold set_requires_grad_false.
  destruct (tensor_requires_grad t); [done |]. by intros [= <-].
Qed.
End Collator.

Lemma existsb_fmap_false {X Y} (f : X -> Y) (g : Y -> bool) (xs : list X) :
  Forall (fun x => g (f x) = false) xs -> existsb g (f <$> xs) = false.
Proof.
  induction 1 as [|x xs Hx _ IH]; [done |].
  rewrite fmap_cons. cbn [existsb]. by rewrite Hx, IH.
Qed.

Lemma bind_Ok_inv {A B} (m : result A) (k : A -> result B) b :
  m ≫= k = Ok b -> exists a, m = Ok a /\ k a = Ok b.
Proof. destruct m as [a|e]; [by exists a | done]. Qed.


(** ** Construction of the sample builder *)

Lemma unit_closed_spec p :
  float_le (Finite 0) p && float_le p (Finite 1) = true <-> in_unit_closed p.
Proof.
  unfold in_unit_closed, float_le. destruct p as [q| | |]; simpl.
  - rewrite andb_true_iff, !Qle_bool_iff. split.
    + intros ?. by exists q.
    + by intros (q' & [= <-] & ?).
  - split; [done | by intros (? & ? & _)].
  - split; [done | by intros (? & ? & _)].
  - split; [done | by intros (? & ? & _)].
Qed.

Lemma unit_half_open_spec p :
  float_le (Finite 0) p && float_lt p (Finite 1) = true <->
  in_unit_half_open p.
Proof.
  unfold in_unit_half_open, float_lt, float_le. destruct p as [q| | |]; simpl.
  - rewrite andb_true_iff, negb_true_iff, Qle_bool_iff.
    rewrite <- not_true_iff_false, Qle_bool_iff. split.
    + intros [? ?]. exists q. split; [done |]. split; [done |].
      by apply Qnot_le_lt.
    + intros (q' & [= <-] & ? & ?). split; [done |]. by apply Qlt_not_le.
  - split; [done | by intros (? & ? & _)].
  - split; [done | by intros (? & ? & _)].
  - split; [done | by intros (? & ? & _)].
Qed.

Lemma for_each_assert {B} (f : B -> bool) msg (xs : list B) :
  (for_each xs (fun p => assert (f p) msg) = Ok tt /\
   Forall (fun p => f p = true) xs) \/
  (for_each xs (fun p => assert (f p) msg) = Raise (AssertionError msg) /\
   Exists (fun p => f p = false) xs).
Proof.
  unfold assert. induction xs as [|x xs IH]; simpl; [by left |].
  destruct (f x) eqn:Hx; simpl.
  - destruct IH as [[-> ?]|[-> ?]]; [left | right]; split; try done.
    + by apply Forall_cons_2.
    + by apply Exists_cons_tl.
  - right. split; [done |]. by apply Exists_cons_hd.
Qed.

(** C2. Constructing Tedd1104Dataset raises if and only if the lower-cased
    control mode is neither "keyboard" nor "controller", or hide_map_prob is
    outside [0,1], or the dropout vector in force (the one passed, or
    sequence_length zeros when none or an empty one is passed) has a length
    other than 5, or one of its entries is outside [0,1), or token_mask_prob
    is outside [0,1). Nothing is clamped: an object that is constructed
    holds the probabilities as they were passed. *)
Theorem Tedd1104Dataset_init_validation (glob_jpeg : string -> list string)
  (color_jitter : ColorJitter) (a : Tedd1104Dataset_args) :
  let dropout :=
    dropout_or_zeros (arg_dropout_images_prob a) (arg_sequence_length a) in
  let mode := lower (arg_control_mode a) in
  ((exists e, Tedd1104Dataset_init glob_jpeg color_jitter a = Raise e) <->
   (mode <> "keyboard"%string /\ mode <> "controller"%string) \/
   ~ in_unit_closed (arg_hide_map_prob a) \/
   length dropout <> 5 \/
   Exists (fun p => ~ in_unit_half_open p) dropout \/
   ~ in_unit_half_open (arg_token_mask_prob a)) /\
  (forall self, Tedd1104Dataset_init glob_jpeg color_jitter a = Ok self ->
     hide_map_prob self = arg_hide_map_prob a /\
     dropout_images_prob self = dropout /\
     token_mask_prob self = arg_token_mask_prob a /\
     control_mode self = mode).
Proof.
  intros dropout mode. unfold Tedd1104Dataset_init.
  fold dropout. fold mode.
  pose proof (unit_closed_spec (arg_hide_map_prob a)) as Hhide.
  pose proof (unit_half_open_spec (arg_token_mask_prob a)) as Htok.
  assert (Hmode :
    bool_decide (mode ∈ ["keyboard"; "controller"]%string) = true
                  <-> ~ (mode <> "keyboard"%string /\
                         mode <> "controller"%string)).
  { rewrite bool_decide_eq_true, !elem_of_cons, elem_of_nil.
    destruct (decide (mode = "keyboard"%string)),
             (decide (mode = "controller"%string)); tauto. }
  assert (Hdrop : Forall (fun p =>
              float_le (Finite 0) p && float_lt p (Finite 1) = true) dropout
            <-> ~ Exists (fun p => ~ in_unit_half_open p) dropout).
  { rewrite <- Forall_Exists_neg. apply Forall_proper; [| done].
    intros p. rewrite unit_half_open_spec.
    split; [tauto |]. intros Hnn.
    destruct (float_le (Finite 0) p && float_lt p (Finite 1)) eqn:E.
    - by apply unit_half_open_spec.
    - exfalso. apply Hnn. rewrite <- unit_half_open_spec. congruence. }
  destruct (bool_decide (mode ∈ ["keyboard"; "controller"]%string)) eqn:E1;
    simpl.
  2: { split; [| done]. split; [intros _ | by eexists].
       left. destruct (decide (mode <> "keyboard"%string /\
                                mode <> "controller"%string)); [done |].
       apply Hmode in n. congruence. }
  destruct (float_le (Finite 0) (arg_hide_map_prob a) &&
            float_le (arg_hide_map_prob a) (Finite 1)) eqn:E2; simpl.
  2: { split; [| done]. split; [intros _ | by eexists].
       right; left. rewrite <- Hhide. congruence. }
  destruct (bool_decide (length dropout = 5)) eqn:E3; simpl.
  2: { apply bool_decide_eq_false in E3.
       split; [| by destruct (arg_dropout_images_prob a)].
       split; [intros _; tauto |].
       intros _. destruct (arg_dropout_images_prob a); by eexists. }
  apply bool_decide_eq_true in E3.
  destruct (for_each_assert
              (fun p => float_le (Finite 0) p && float_lt p (Finite 1))
              "All probabilities in dropout_image_prob must be in the range"
              dropout) as [[-> Hall]|[-> Hex]]; simpl.
  2: { split; [| done]. split; [intros _ | by eexists].
       right; right; right; left.
       eapply Exists_impl; [exact Hex |]. intros p Hp.
       rewrite <- unit_half_open_spec. congruence. }
  destruct (float_le (Finite 0) (arg_token_mask_prob a) &&
            float_lt (arg_token_mask_prob a) (Finite 1)) eqn:E5; simpl.
  2: { split; [| done]. split; [intros _ | by eexists].
       do 4 right. rewrite <- Htok. congruence. }
  split.
  - split; [by intros [e ?] |].
    intros [Hm|[Hh|[Hl|[Hd|Ht]]]]; exfalso.
    + by apply Hmode.
    + by apply Hh, Hhide.
    + done.
    + by apply Hdrop in Hall.
    + by apply Ht, Htok.
  - by intros self [= <-].
Qed.

(** ** Recovery from unreadable files *)

Lemma retry_in_range (files : list string) (u : Q) :
  files <> [] -> (0 <= u < 1)%Q ->
  exists name, getitem files (retry_index files u) = Ok name /\ name ∈ files.
Proof.
  intros Hne [Hu0 Hu1]. unfold retry_index, getitem.
  set (n := Z.of_nat (length files)).
  assert (Hn : (0 < n)%Z) by (destruct files; [done | unfold n; simpl; lia]).
  set (z := Qfloor (inject_Z n * u)).
  assert (Hz0 : (0 <= z)%Z).
  { unfold z. change 0%Z with (Qfloor 0). apply Qfloor_resp_le.
    apply Qmult_le_0_compat; [| done].
    change 0%Q with (inject_Z 0). rewrite <- Zle_Qle. lia. }
  assert (Hz1 : (z < n)%Z).
  { rewrite Zlt_Qlt. eapply Qle_lt_trans; [apply Qfloor_le |].
    rewrite <- (Qmult_1_r (inject_Z n)) at 2.
    apply Qmult_lt_l; [| done].
    change 0%Q with (inject_Z 0). rewrite <- Zlt_Qlt. lia. }
  destruct (Z.ltb_spec z 0); [lia |].
  destruct (Z.ltb_spec z 0); [lia |].
  destruct (lookup_lt_is_Some_2 files (Z.to_nat z)) as [name Hname];
    [unfold n in Hz1; lia |].
  exists name. rewrite Hname. split; [done |].
  by eapply list_elem_of_lookup_2.
Qed.

Section Recovery.
Context {L R : Type}.
Variable glob_jpeg : string -> list string.
Variable color_jitter : ColorJitter.
Variable read_image : string -> result (image Z).
Variable imagename_input_conversion : string -> string -> result L.
Variable get_mask :
  bool -> option Z -> pyfloat -> Z -> (nat -> Q) -> nat ->
  result (tensor R) * nat.
Implicit Types (s : state (image Z)) (files : list string).

Lemma attempt_shift files dr n name0 i :
  attempt files dr (S n) (attempt files dr n name0 1) i =
  attempt files dr n name0 (S i).
Proof.
  destruct i as [|i]; [done |]. unfold attempt.
  by replace (S n + i) with (n + S i) by lia.
Qed.

Lemma read_warnings_S files dr n name0 k :
  read_warnings files dr n name0 (S k) =
  read_warning name0 ::
    read_warnings files dr (S n) (attempt files dr n name0 1) k.
Proof.
  unfold read_warnings. change (seq 0 (S k)) with (0 :: seq 1 k).
  rewrite fmap_cons, <- fmap_S_seq, <- list_fmap_compose. f_equal.
  apply list_fmap_ext. intros _ i _. unfold compose.
  by rewrite attempt_shift.
Qed.

(** [k] reads that fail with a caught exception take the loop [k]
    iterations further. *)
Lemma read_loop_retries files : forall k fuel name0 s,
  files <> [] -> (forall n, 0 <= draws s n < 1)%Q -> k <= fuel ->
  (forall i, i < k -> exists e,
     read_image (attempt files (draws s) (pos s) name0 i) = Raise e /\
     caught e = true) ->
  read_loop read_image fuel files name0 s =
  read_loop read_image (fuel - k) files
    (attempt files (draws s) (pos s) name0 k) (after_reads files name0 s k).
Proof.
  induction k as [|k IH]; intros fuel name0 s Hne Hdr Hk Hfail.
  - unfold after_reads, read_warnings. simpl.
    by rewrite Nat.sub_0_r, Nat.add_0_r, app_nil_r, state_eta.
  - destruct fuel as [|fuel]; [lia |].
    destruct (Hfail 0) as (e & He & Hc); [lia |].
    change (attempt files (draws s) (pos s) name0 0) with name0 in He.
    destruct (retry_in_range files (draws s (pos s)) Hne (Hdr _))
      as (name1 & Hname1 & _).
    assert (Hatt : attempt files (draws s) (pos s) name0 1 = name1).
    { unfold attempt. by rewrite Nat.add_0_r, Hname1. }
    set (s1 := State (store s) (draws s) (S (pos s))
                     (stdout s ++ [read_warning name0])).
    assert (Hstep : read_loop read_image (S fuel) files name0 s =
                    read_loop read_image fuel files name1 s1).
    { simpl. rewrite He, Hc. unfold print. unfold_M. simpl.
      by rewrite Hname1. }
    rewrite Hstep, (IH fuel name1 s1); try done; try lia.
    + rewrite <- Hatt. unfold s1; simpl. rewrite attempt_shift.
      f_equal. unfold after_reads; simpl.
      rewrite read_warnings_S, <- app_assoc. simpl. f_equal. lia.
    + intros i Hi. unfold s1; simpl. rewrite <- Hatt, attempt_shift.
      apply Hfail. lia.
Qed.

(** The label goes through the stages as it is. *)
Lemma M_bind_Ok_inv {T A B} (m : M T A) (k : A -> M T B) st b st' :
  (m ≫= k) st = (Ok b, st') ->
  exists a st1, m st = (Ok a, st1) /\ k a st1 = (Ok b, st').
Proof.
  unfold_M. destruct (m st) as [[a|e] st1]; [| done]. by exists a, st1.
Qed.

Lemma RemoveMinimap_call_returns self l (y : L) s l' y' s' :
  RemoveMinimap_call self (l, y) s = (Ok (l', y'), s') -> l' = l /\ y' = y.
Proof.
  unfold RemoveMinimap_call. intros H.
  apply M_bind_Ok_inv in H as (img & s1 & _ & H).
  apply M_bind_Ok_inv in H as (? & s2 & _ & H).
  by injection H as <- <- _.
Qed.

Lemma RemoveImage_call_returns self l (y : L) s l' y' s' :
  RemoveImage_call self (l, y) s = (Ok (l', y'), s') -> l' = l /\ y' = y.
Proof.
  unfold RemoveImage_call. intros H.
  apply M_bind_Ok_inv in H as (img & s1 & _ & H).
  apply M_bind_Ok_inv in H as (? & s2 & _ & H).
  by injection H as <- <- _.
Qed.

Lemma SplitImages_label {A} (img : image A) (y : L) images t :
  SplitImages (img, y) = Ok (images, t) -> t = Torch.tensor y.
Proof.
  unfold SplitImages. intros H.
  apply bind_Ok_inv in H as (? & _ & H). by injection H as _ <-.
Qed.

Lemma SequenceColorJitter_forward_label self images (t : label_tensor L)
  s images' t' s' :
  SequenceColorJitter_forward self (images, t) s = (Ok (images', t'), s') ->
  t' = t.
Proof.
  unfold SequenceColorJitter_forward.
  destruct (ColorJitter_forward _ _ _ _) as [[imgs|e] n]; [| done].
  simpl. by intros [= _ <- _].
Qed.

Lemma Normalize_label {A} `{Dtype A} (images : list (image A))
  (t : label_tensor L) out t' :
  Normalize (images, t) = Ok (out, t') -> t' = t.
Proof.
  unfold Normalize. intros Hn.
  do 6 (apply bind_Ok_inv in Hn as (? & _ & Hn)).
  by injection Hn as _ <-.
Qed.

Lemma apply_transform_label t image (y : L) s images ty s' :
  apply_transform t image y s = (Ok (images, ty), s') ->
  ty = Torch.tensor y.
Proof.
  destruct t as [minimap dropout jitter|]; simpl; intros Ht.
  - apply M_bind_Ok_inv in Ht as (l & s1 & _ & Ht).
    apply M_bind_Ok_inv in Ht as ([l1 y1] & s2 & H1 & Ht).
    apply RemoveMinimap_call_returns in H1 as [-> ->].
    apply M_bind_Ok_inv in Ht as ([l2 y2] & s3 & H2 & Ht).
    apply RemoveImage_call_returns in H2 as [-> ->].
    apply M_bind_Ok_inv in Ht as (img & s4 & _ & Ht).
    apply M_bind_Ok_inv in Ht as ([imgs t1] & s5 & H3 & Ht).
    unfold lift in H3. injection H3 as H3 _.
    apply SplitImages_label in H3 as ->.
    apply M_bind_Ok_inv in Ht as ([imgs' t2] & s6 & H4 & Ht).
    apply SequenceColorJitter_forward_label in H4 as ->.
    unfold lift in Ht. injection Ht as Ht _.
    by apply Normalize_label in Ht.
  - apply M_bind_Ok_inv in Ht as ([imgs t1] & s5 & H3 & Ht).
    unfold lift in H3. injection H3 as H3 _.
    apply SplitImages_label in H3 as ->.
    unfold lift in Ht. injection Ht as Ht _.
    by apply Normalize_label in Ht.
Qed.

Lemma build_sample_label self img_name image s (smp : sample R L) s' :
  build_sample imagename_input_conversion get_mask self img_name image s
    = (Ok smp, s') ->
  exists y0,
    imagename_input_conversion img_name (control_mode self) = Ok y0 /\
    smp.2 = Torch.tensor y0.
Proof.
  unfold build_sample. intros Hb.
  apply M_bind_Ok_inv in Hb as (y0 & s1 & Hy & Hb).
  apply M_bind_Ok_inv in Hb as ([images ty] & s2 & Ht & Hb).
  apply M_bind_Ok_inv in Hb as (mask & s3 & _ & Hb).
  injection Hb as <- _.
  apply apply_transform_label in Ht as ->.
  exists y0. split; [| done].
  unfold lift in Hy. by injection Hy as ->.
Qed.

Lemma getitem_Ok_elem {A} (xs : list A) i x :
  getitem xs i = Ok x -> x ∈ xs.
Proof.
  unfold getitem. destruct (_ <? 0)%Z; [done |].
  destruct (xs !! _) eqn:E; [| done]. intros [= <-].
  by eapply list_elem_of_lookup_2.
Qed.

Lemma attempt_elem files dr n name0 k :
  files <> [] -> (forall i, 0 <= dr i < 1)%Q -> name0 ∈ files ->
  attempt files dr n name0 k ∈ files.
Proof.
  intros Hne Hdr H0. destruct k as [|k]; [done |]. unfold attempt.
  destruct (retry_in_range files (dr (n + k)) Hne (Hdr _))
    as (name & -> & Hin). done.
Qed.

End Recovery.

(** ** Training without dropout probabilities *)

Section NoDropout.
Context {L R : Type}.
Variable glob_jpeg : string -> list string.
Variable color_jitter : ColorJitter.
Variable read_image : string -> result (image Z).
Variable imagename_input_conversion : string -> string -> result L.
Variable get_mask :
  bool -> option Z -> pyfloat -> Z -> (nat -> Q) -> nat ->
  result (tensor R) * nat.
Implicit Types (s : state (image Z)).

Lemma RemoveImage_call_None (self : RemoveImage) l (y : L) s :
  RemoveImage_dropout_images_prob self = None ->
  exists e, RemoveImage_call self (l, y) s = (Raise e, s) /\
            (is_Some (store s !! l) -> e = TypeError).
Proof.
  intros Hnone. unfold RemoveImage_call, RemoveImage_prob. unfold_M.
  destruct (store s !! l) as [img|] eqn:Hl.
  - exists TypeError. simpl. unfold_M. by rewrite Hnone.
  - exists RuntimeError. split; [done |]. by intros [? ?].
Qed.

Lemma apply_transform_None minimap dropout jitter image (y : L) s :
  RemoveImage_dropout_images_prob dropout = None ->
  (exists e s',
     apply_transform (TrainTransform minimap dropout jitter) image y s
     = (Raise e, s')) /\
  (float_lt (Finite 0) (RemoveMinimap_hide_map_prob minimap) = false ->
   exists s',
     apply_transform (TrainTransform minimap dropout jitter) image y s
     = (Raise TypeError, s')).
Proof.
  intros Hnone. unfold apply_transform.
  set (l := fresh (dom (store s))).
  set (s1 := State (<[l:=image]> (store s)) (draws s) (pos s) (stdout s)).
  assert (Ha : alloc image s = (Ok l, s1)) by done.
  rewrite (bind_ok _ _ _ _ _ Ha).
  assert (Hl : store s1 !! l = Some image) by apply lookup_insert_eq.
  split.
  - destruct (RemoveMinimap_call minimap (l, y) s1) as [[[l' y']|e] s2]
      eqn:Hm.
    + rewrite (bind_ok _ _ _ _ _ Hm).
      destruct (RemoveImage_call_None dropout l' y' s2 Hnone) as (e & Hr & _).
      exists e, s2. by apply bind_raise.
    + exists e, s2. by apply bind_raise.
  - intros Hoff.
    rewrite (bind_ok _ _ _ _ _
               (RemoveMinimap_call_off minimap l y s1 image Hl Hoff)).
    destruct (RemoveImage_call_None dropout l y s1 Hnone) as (e & Hr & He).
    rewrite He in Hr by (by rewrite Hl).
    exists s1. by apply bind_raise.
Qed.

(** C10. Constructing Tedd1104Dataset with train=True and
    dropout_images_prob=None (the sequence length being 5 and the other
    arguments valid) passes the validation, the stored attribute being
    five zeros; but the RemoveImage stage of the training transform holds
    the raw None, so no call of __getitem__ returns a sample: once the
    image is read, the call raises, with TypeError from indexing None when
    the label is decoded and the minimap stage passes (as it does for
    hide_map_prob = 0). *)
Theorem train_with_dropout_None (a : Tedd1104Dataset_args) :
  arg_train a = true -> arg_dropout_images_prob a = None ->
  arg_sequence_length a = 5%Z ->
  lower (arg_control_mode a) ∈ ["keyboard"; "controller"]%string ->
  in_unit_closed (arg_hide_map_prob a) ->
  in_unit_half_open (arg_token_mask_prob a) ->
  exists self,
    Tedd1104Dataset_init glob_jpeg color_jitter a = Ok self /\
    dropout_images_prob self = replicate 5 (Finite 0) /\
    (forall fuel idx s (smp : sample R L) s',
       Tedd1104Dataset_getitem read_image imagename_input_conversion
         get_mask fuel self idx s <> (Ok (Some smp), s')) /\
    (forall img_name image s, exists e s',
       build_sample (R:=R) imagename_input_conversion get_mask self
         img_name image s = (Raise e, s')) /\
    (forall img_name image s y0,
       imagename_input_conversion img_name (control_mode self) = Ok y0 ->
       float_lt (Finite 0) (arg_hide_map_prob a) = false ->
       exists s',
         build_sample (R:=R) imagename_input_conversion get_mask self
           img_name image s = (Raise TypeError, s')).
Proof.
  intros Htrain Hnone Hlen Hmode Hhide Htok.
  apply (bool_decide_eq_true_2 _) in Hmode.
  apply unit_closed_spec in Hhide. apply unit_half_open_spec in Htok.
  eexists. split.
  { unfold Tedd1104Dataset_init. rewrite Hmode, Hhide, Htok, Hnone, Hlen.
    simpl. rewrite Htrain. reflexivity. }
  simpl.
  set (minimap := {| RemoveMinimap_hide_map_prob := arg_hide_map_prob a |}).
  set (dropout := {| RemoveImage_dropout_images_prob := None |}).
  set (jitter := {| SequenceColorJitter_jitter := color_jitter |}).
  set (self := Build_Tedd1104Dataset _ _ _ _ _ _ _ _ _ _).
  assert (Hbuild : forall img_name image s,
    (exists e s',
       build_sample (R:=R) imagename_input_conversion get_mask self
         img_name image s = (Raise e, s')) /\
    (forall y0,
       imagename_input_conversion img_name (control_mode self) = Ok y0 ->
       float_lt (Finite 0) (arg_hide_map_prob a) = false ->
       exists s',
         build_sample (R:=R) imagename_input_conversion get_mask self
           img_name image s = (Raise TypeError, s'))).
  { intros img_name image s. unfold build_sample.
    destruct (imagename_input_conversion img_name (control_mode self))
      as [y0|e] eqn:Hy.
    - rewrite (bind_ok (lift (Ok y0)) _ s y0 s) by done.
      destruct (apply_transform_None minimap dropout jitter image y0 s)
        as [(e & s' & He) Hte]; [done |].
      split.
      + exists e, s'. by apply bind_raise.
      + intros y0' [= <-] Hoff. destruct (Hte Hoff) as (s'' & Hs).
        exists s''. by apply bind_raise.
    - split; [| done]. exists e, s. by apply bind_raise. }
  split; [done |]. split; [| split].
  - intros fuel idx s smp s' Hget.
    unfold Tedd1104Dataset_getitem in Hget.
    apply M_bind_Ok_inv in Hget as (name & s1 & _ & Hget).
    apply M_bind_Ok_inv in Hget as ([[name' image]|] & s2 & _ & Hget);
      [| done].
    apply M_bind_Ok_inv in Hget as (smp' & s3 & Hb & _).
    destruct (Hbuild name' image s2) as [(e & s4 & He) _]. congruence.
  - intros img_name image s. apply Hbuild.
  - intros img_name image s y0. apply Hbuild.
Qed.
End NoDropout.

(** ** Purity of the augmentation stages *)

Lemma image_ext {A} (img img' : image A) :
  wf_image img -> wf_image img' -> dims img' = dims img ->
  (forall c r k, c < channels img -> r < height img -> k < width img ->
     pixel img' c r k = pixel img c r k) ->
  img' = img.
Proof.
  destruct img as [c h w p], img' as [c' h' w' p'].
  intros [Hc Hrows] [Hc' Hrows'] [= -> -> ->] Hpx; simpl in *.
  f_equal. apply list_eq. intros i.
  destruct (decide (i < c)) as [Hi|Hi].
  2: { rewrite (proj2 (lookup_ge_None p i)), (proj2 (lookup_ge_None p' i));
         [done | lia | lia]. }
  destruct (lookup_lt_is_Some_2 p i) as [ch Hch]; [lia |].
  destruct (lookup_lt_is_Some_2 p' i) as [ch' Hch']; [lia |].
  rewrite Hch, Hch'. f_equal.
  rewrite Forall_lookup in Hrows. destruct (Hrows _ _ Hch) as [Hh Hw].
  rewrite Forall_lookup in Hrows'. destruct (Hrows' _ _ Hch') as [Hh' Hw'].
  apply list_eq. intros r.
  destruct (decide (r < h)) as [Hr|Hr].
  2: { rewrite (proj2 (lookup_ge_None ch r)), (proj2 (lookup_ge_None ch' r));
         [done | lia | lia]. }
  destruct (lookup_lt_is_Some_2 ch r) as [row Hrow]; [lia |].
  destruct (lookup_lt_is_Some_2 ch' r) as [row' Hrow']; [lia |].
  rewrite Hrow, Hrow'. f_equal.
  rewrite Forall_lookup in Hw. specialize (Hw _ _ Hrow).
  rewrite Forall_lookup in Hw'. specialize (Hw' _ _ Hrow').
  apply list_eq. intros k.
  destruct (decide (k < w)) as [Hk|Hk].
  2: { rewrite (proj2 (lookup_ge_None row k)),
         (proj2 (lookup_ge_None row' k)); [done | lia | lia]. }
  specialize (Hpx i r k Hi Hr Hk). unfold pixel in Hpx; simpl in Hpx.
  by rewrite Hch, Hch', Hrow, Hrow' in Hpx.
Qed.



(** ** The statements at concrete inputs *)

Lemma wf_image_replicate {A} (c h w : nat) (x : A) :
  wf_image (Image c h w (replicate c (replicate h (replicate w x)))).
Proof.
  split; simpl; [apply length_replicate |].
  apply Forall_replicate. split; [apply length_replicate |].
  apply Forall_replicate. apply length_replicate.
Qed.

Lemma one_tensor_lookup {T} (t : T) (u : Q) :
  store (one_tensor t u) !! 0 = Some t.
Proof. apply lookup_singleton_eq. Qed.

(** SplitImages on an image of shape (3, 1, 5). *)
Lemma SplitImages_five_frames_witness :
  wf_image small_image /\
  exists frames,
    SplitImages (small_image, 7%Z) = Ok (frames, Torch.tensor 7%Z) /\
    length frames = 5 /\
    cat_width frames = Some small_image.
Proof.
  assert (Hwf : wf_image small_image) by apply wf_image_replicate.
  split; [exact Hwf |].
  destruct (SplitImages_five_frames small_image 7%Z Hwf)
    as (frames & H1 & _ & H3 & _ & _ & H6).
  exists frames. split; [exact H1 |]. split; [exact H3 |].
  apply H6. reflexivity.
Defined.


(** C5 fails as stated: with hide_map_prob = 1 and an image of shape
    (3, 1, 5), RemoveMinimap raises and zeroes nothing. *)
Lemma RemoveMinimap_raises_on_other_heights :
  RemoveMinimap_hide_map_prob hide_always = Finite 1 /\
  wf_image small_image /\
  RemoveMinimap_call hide_always (0, tt) (one_tensor small_image 0.75) =
    (Raise RuntimeError, State {[0 := small_image]} (fun _ => 0.75%Q) 1 []).
Proof.
  split; [reflexivity |]. split; [apply wf_image_replicate |].
  vm_compute. reflexivity.
Qed.

(** RemoveMinimap with hide_map_prob = 1 on an image of shape
    (3, 270, 500). *)
Lemma RemoveMinimap_zero_or_one_witness :
  store (one_tensor game_image 0.25) !! 0 = Some game_image /\
  wf_image game_image /\
  (0 <= 0.25 < 1)%Q /\
  exists img',
    RemoveMinimap_call hide_always (0, tt) (one_tensor game_image 0.25) =
      (Ok (0, tt), State (<[0:=img']> {[0 := game_image]})
                         (fun _ => 0.25%Q) 1 []) /\
    pixel img' 0 215 0 = Some 0%Z /\
    pixel img' 2 269 479 = Some 0%Z /\
    pixel img' 0 214 0 = Some 7%Z /\
    pixel img' 1 250 90 = Some 7%Z.
Proof.
  assert (Hwf : wf_image game_image) by apply wf_image_replicate.
  assert (Hu : (0 <= 0.25 < 1)%Q) by (split; [discriminate | reflexivity]).
  split; [apply one_tensor_lookup |]. split; [exact Hwf |].
  split; [exact Hu |].
  destruct (RemoveMinimap_zero_or_one hide_always 0 tt
              (one_tensor game_image 0.25) game_image 1
              (one_tensor_lookup _ _) Hwf eq_refl Hu) as [_ H].
  destruct H as (img' & Hrun & _ & _ & Hpx);
    [reflexivity | reflexivity | simpl; lia |].
  exists img'. split; [exact Hrun |].
  split; [| split; [| split]].
  - apply (Hpx 0 215 0); [lia | lia | simpl; lia | lia |].
    exists 0. simpl. lia.
  - apply (Hpx 2 269 479); [lia | lia | simpl; lia | lia |].
    exists 4. simpl. lia.
  - rewrite (proj2 (Hpx 0 214 0 ltac:(lia) ltac:(lia) ltac:(simpl; lia)));
      [reflexivity | lia].
  - rewrite (proj2 (Hpx 1 250 90 ltac:(lia) ltac:(lia) ltac:(simpl; lia)));
      [reflexivity |].
    simpl. intros [_ (j & Hj & Hk)]. lia.
Defined.



(** Normalize on a stack of five frames of zeros. *)
Lemma Normalize_formula_witness :
  wf_stack 5 dark_stack /\
  exists out,
    Normalize (dark_stack, tt) = Ok (out, tt) /\
    stack_pixel out 4 2 0 0 = Some ((0 / 255 - 0.406) / 0.225)%Q.
Proof.
  assert (Hwf : wf_stack 5 dark_stack).
  { split; [reflexivity |]. exists 1, 1.
    apply Forall_replicate. split; [apply wf_image_replicate | reflexivity]. }
  split; [exact Hwf |].
  destruct Normalize_formula as [H _].
  destruct (H Q _ unit dark_stack tt Hwf) as (out & Hrun & _ & _ & Hpx).
  exists out. split; [exact Hrun |].
  apply (Hpx 4 2 0 0 0%Q 0.406%Q 0.225%Q); reflexivity.
Defined.


(** The construction of a validation split: "Keyboard" is accepted and the
    probabilities are stored as they were passed. *)
Lemma Tedd1104Dataset_init_validation_witness :
  Tedd1104Dataset_init glob_two_files no_jitter eval_args = Ok eval_dataset /\
  hide_map_prob eval_dataset = arg_hide_map_prob eval_args /\
  dropout_images_prob eval_dataset = replicate 5 (Finite 0) /\
  control_mode eval_dataset = "keyboard"%string.
Proof.
  assert (Hinit : Tedd1104Dataset_init glob_two_files no_jitter eval_args
                  = Ok eval_dataset) by reflexivity.
  split; [exact Hinit |].
  destruct (Tedd1104Dataset_init_validation glob_two_files no_jitter eval_args)
    as [_ H].
  destruct (H eval_dataset Hinit) as (H1 & H2 & _ & H4).
  split; [exact H1 |]. split; [exact H2 | exact H4].
Defined.



(** A training split constructed without dropout probabilities: the
    construction succeeds and the sample of a readable file cannot be
    built. *)
Lemma train_with_dropout_None_witness :
  arg_train train_args = true /\
  arg_dropout_images_prob train_args = None /\
  exists self,
    Tedd1104Dataset_init glob_two_files no_jitter train_args = Ok self /\
    dropout_images_prob self = replicate 5 (Finite 0) /\
    exists s',
      build_sample name_length visible_mask self "good.jpeg" small_image
        (one_tensor small_image 0.75) = (Raise TypeError, s').
Proof.
  split; [reflexivity |]. split; [reflexivity |].
  destruct (train_with_dropout_None (R:=bool) glob_two_files no_jitter
              read_second_file name_length visible_mask train_args
              eq_refl eq_refl eq_refl)
    as (self & Hinit & Hdrop & _ & _ & Htype).
  - change (lower (arg_control_mode train_args)) with "keyboard"%string.
    constructor.
  - exists 0%Q. split; [reflexivity |]. split; discriminate.
  - exists 0%Q. split; [reflexivity |]. split; [discriminate | reflexivity].
  - exists self. split; [exact Hinit |]. split; [exact Hdrop |].
    apply (Htype "good.jpeg"%string small_image
             (one_tensor small_image 0.75) 9%Z); reflexivity.
Defined.

(** * Further properties of the code *)

(** ** Frames and columns *)

Lemma pixel_crop_cols {A} (a b : nat) (img : image A) c r k :
  pixel (crop_cols a b img) c r k =
  if decide (k < b - a) then pixel img c r (a + k) else None.
Proof.
  unfold pixel; simpl. rewrite list_lookup_fmap.
  destruct (pixels img !! c) as [ch|]; simpl; [| by destruct (decide _)].
  rewrite list_lookup_fmap.
  destruct (ch !! r) as [row|]; simpl; [| by destruct (decide _)].
  apply slice_lookup.
Qed.

(** The frames of SplitImages, which never fails. *)
Lemma SplitImages_Ok {A L} (img : image A) (y : L) :
  let W := width img / 5 in
  SplitImages (img, y) =
    Ok ([crop_cols 0 W img; crop_cols W (W * 2) img;
         crop_cols (W * 2) (W * 3) img; crop_cols (W * 3) (W * 4) img;
         crop_cols (W * 4) (W * 5) img], Torch.tensor y).
Proof.
  intros W. unfold SplitImages, size2. fold W. unfold Torch.stack.
  rewrite bool_decide_eq_true_2; [reflexivity |].
  assert (5 * W <= width img) by apply Nat.Div0.mul_div_le.
  repeat (apply Forall_cons_2 || apply Forall_nil_2);
    unfold dims; simpl; f_equal; lia.
Qed.

Lemma SplitImages_frame_pixel {A} (img : image A) i c r k :
  let W := width img / 5 in
  i < 5 ->
  stack_pixel [crop_cols 0 W img; crop_cols W (W * 2) img;
               crop_cols (W * 2) (W * 3) img; crop_cols (W * 3) (W * 4) img;
               crop_cols (W * 4) (W * 5) img] i c r k =
  if decide (k < W) then pixel img c r (i * W + k) else None.
Proof.
  intros W Hi. unfold stack_pixel.
  destruct i as [|[|[|[|[|i]]]]]; [| | | | | lia]; simpl;
    rewrite pixel_crop_cols;
    (destruct (decide (k < W)) as [Hk|Hk];
     [rewrite decide_True by lia; f_equal; lia
     |rewrite decide_False by lia; reflexivity]).
Qed.

(** X1. SplitImages never fails, whatever the width: column k of frame i
    is column i*W + k of the image (W = width / 5) and a frame has no
    column from W on, so the columns of the image from 5*W on are in no
    frame. *)
Theorem SplitImages_pixels {A L} (img : image A) (y : L) :
  let W := width img / 5 in
  exists frames,
    SplitImages (img, y) = Ok (frames, Torch.tensor y) /\
    length frames = 5 /\
    forall i c r k, i < 5 ->
      stack_pixel frames i c r k =
      if decide (k < W) then pixel img c r (i * W + k) else None.
Proof.
  intros W. eexists. split; [apply SplitImages_Ok |].
  split; [reflexivity |]. intros i c r k Hi.
  by apply SplitImages_frame_pixel.
Qed.


(** ** Failures that leave a trace *)

Lemma for_app {T B} (xs ys : list B) (body : B -> M T unit) st :
  for_ (xs ++ ys) body st = (for_ xs body ≫= fun _ => for_ ys body) st.
Proof.
  revert st. induction xs as [|x xs IH]; intros st; [done |].
  simpl. unfold mbind, M_mbind, M_bind.
  destruct (body x st) as [[[]|e] st1]; [| done]. apply IH.
Qed.

(** X3. A triggered RemoveMinimap on an image of 3 channels and height 270
    that is too narrow for the window of segment j0 (the first that does not
    fit) raises the shape mismatch only after it has zeroed the windows of
    the segments before j0: the caller's tensor is left modified. *)
Theorem RemoveMinimap_partial_update {L} (self : RemoveMinimap) l (y : L) s
  img (j0 : nat) :
  store s !! l = Some img -> wf_image img ->
  float_lt (Finite 0) (RemoveMinimap_hide_map_prob self) = true ->
  float_le (Finite (draws s (pos s))) (RemoveMinimap_hide_map_prob self)
    = true ->
  channels img = 3 -> height img = 270 ->
  let W := width img / 5 in
  j0 < 5 -> (forall j, j < j0 -> j * W + 80 <= width img) ->
  width img < j0 * W + 80 ->
  exists img',
    RemoveMinimap_call self (l, y) s =
      (Raise RuntimeError,
       State (<[l:=img']> (store s)) (draws s) (S (pos s)) (stdout s)) /\
    wf_image img' /\ dims img' = dims img /\
    forall c r k, c < 3 -> r < 270 -> k < width img ->
      (215 <= r -> (exists j, j < j0 /\ j * W <= k < j * W + 80) ->
       pixel img' c r k = Some 0%Z) /\
      (~ (215 <= r /\ exists j, j < j0 /\ j * W <= k < j * W + 80) ->
       pixel img' c r k = pixel img c r k).
Proof.
  intros Hl Hwf Hp Hu Hc Hh W Hj0 Hfit Hno.
  assert (HW : 5 * W <= width img) by apply Nat.Div0.mul_div_le.
  erewrite RemoveMinimap_call_hit by done. fold W.
  set (s1 := State (store s) (draws s) (S (pos s)) (stdout s)).
  destruct (minimap_loop_ok l W (seq 0 j0) s1 img) as
    (img' & Hrun & Hwf' & Hd' & Hpx); [done | done | |].
  { apply Forall_forall. intros j Hj%elem_of_seq.
    apply minimap_fits_iff; [nia |]. split; [done |]. split; [done |].
    apply Hfit. lia. }
  exists img'. split; [| split; [done | split; [done |]]].
  - eapply bind_raise.
    replace (seq 0 5) with (seq 0 j0 ++ j0 :: seq (S j0) (4 - j0)).
    2: { change (j0 :: seq (S j0) (4 - j0)) with (seq (0 + j0) (S (4 - j0))).
         rewrite <- seq_app. f_equal. lia. }
    rewrite for_app, (bind_ok _ _ _ _ _ Hrun), for_cons.
    eapply bind_raise. eapply setitem_zeros_fail.
    + simpl. apply lookup_insert_eq.
    + rewrite (region_dims_ext img img') by done.
      unfold expandable, region_dims. apply bool_decide_eq_false. nia.
  - intros c r k Hcl Hrl Hkl. rewrite Hpx by lia.
    assert (Hex : Exists (fun j => j * W <= k < j * W + 80) (seq 0 j0) <->
                  exists j, j < j0 /\ j * W <= k < j * W + 80).
    { rewrite Exists_exists. split.
      - intros (j & Hin & Hj). exists j. split; [| done].
        apply elem_of_seq in Hin. lia.
      - intros (j & Hlt & Hj). exists j. split; [| done].
        apply elem_of_seq. lia. }
    split.
    + intros Hr Hj. rewrite decide_True; [done |]. by rewrite Hex.
    + intros Hn. rewrite decide_False; [done |]. by rewrite Hex.
Qed.

Lemma getitem_nat_None {A} (xs : list A) i :
  xs !! i = None -> getitem xs (Z.of_nat i) = Raise IndexError.
Proof.
  intros H. unfold getitem.
  destruct (Z.ltb_spec (Z.of_nat i) 0); [lia |].
  destruct (Z.ltb_spec (Z.of_nat i) 0); [lia |].
  by rewrite Nat2Z.id, H.
Qed.

Lemma for_ext {T B} (xs : list B) (body1 body2 : B -> M T unit) :
  (forall x st, x ∈ xs -> body1 x st = body2 x st) ->
  forall st, for_ xs body1 st = for_ xs body2 st.
Proof.
  induction xs as [|x xs IH]; intros Hext st; [done |].
  simpl. unfold mbind, M_mbind, M_bind.
  rewrite Hext by apply list_elem_of_here.
  destruct (body2 x st) as [[[]|e] st1]; [| done].
  apply IH. intros x' st' Hin. apply Hext. by apply list_elem_of_further.
Qed.


(** X5. RemoveImage reads the first 5 probabilities only: with a longer
    vector it does what it does with the first 5 entries. *)
Theorem RemoveImage_long_vector {L} (self self' : RemoveImage)
  (sample : loc * L) s d :
  RemoveImage_dropout_images_prob self = Some d ->
  RemoveImage_dropout_images_prob self' = Some (take 5 d) ->
  5 <= length d ->
  RemoveImage_call self sample s = RemoveImage_call self' sample s.
Proof.
  intros Hself Hself' Hlen. destruct sample as [l y].
  destruct (store s !! l) as [img|] eqn:Hl.
  2: { unfold RemoveImage_call. unfold_M. by rewrite Hl. }
  rewrite !(RemoveImage_call_body _ _ _ _ _ Hl).
  unfold mbind, M_mbind, M_bind.
  rewrite (for_ext (seq 0 5) _
             (RemoveImage_body self' l (channels img) (height img)
                (width img / 5))); [done |].
  intros j st Hj%elem_of_seq.
  destruct (lookup_lt_is_Some_2 d j) as [p Hp]; [lia |].
  assert (Hp' : take 5 d !! j = Some p).
  { rewrite lookup_take, decide_True by lia. done. }
  unfold RemoveImage_body, RemoveImage_prob. rewrite Hself, Hself'.
  by rewrite (getitem_nat _ _ _ Hp), (getitem_nat _ _ _ Hp').
Qed.

(** ** More on the Normalizer *)

Lemma pixel_Some_lt {A} (img : image A) c r k p :
  wf_image img -> pixel img c r k = Some p ->
  c < channels img /\ r < height img /\ k < width img.
Proof.
  intros [Hc Hrows] Hp. unfold pixel in Hp.
  destruct (pixels img !! c) as [ch|] eqn:Hch; [| done].
  destruct (ch !! r) as [row|] eqn:Hrow; [| done].
  rewrite Forall_lookup in Hrows. destruct (Hrows _ _ Hch) as [Hh Hw].
  rewrite Forall_lookup in Hw. specialize (Hw _ _ Hrow).
  apply lookup_lt_Some in Hch, Hrow, Hp. lia.
Qed.

Lemma pixel_lt_is_Some {A} (img : image A) c r k :
  wf_image img -> c < channels img -> r < height img -> k < width img ->
  exists p, pixel img c r k = Some p.
Proof.
  intros [Hc Hrows] Hcl Hrl Hkl. unfold pixel.
  destruct (lookup_lt_is_Some_2 (pixels img) c) as [ch Hch]; [lia |].
  rewrite Forall_lookup in Hrows. destruct (Hrows _ _ Hch) as [Hh Hw].
  destruct (lookup_lt_is_Some_2 ch r) as [row Hrow]; [lia |].
  rewrite Forall_lookup in Hw. specialize (Hw _ _ Hrow).
  destruct (lookup_lt_is_Some_2 row k) as [p Hp]; [lia |].
  exists p. by rewrite Hch, Hrow.
Qed.

(** Normalize on a stack of five frames, read from the result. *)
Lemma Normalize_preimage {A} `{Dtype A} {L} (images : list (image A)) (y : L) :
  wf_stack 5 images ->
  exists out,
    Normalize (images, y) = Ok (out, y) /\
    forall i c r k x,
      stack_pixel out i c r k = Some x ->
      exists p m sd,
        stack_pixel images i c r k = Some p /\
        channel_stats !! c = Some (m, sd) /\
        x = ((to_float p / 255 - m) / sd)%Q.
Proof.
  intros [Hlen (h & w & Hall)].
  destruct images as [|a [|b [|c [|d [|e [|? ?]]]]]]; try done.
  repeat match goal with
         | Hf : Forall _ (_ :: _) |- _ =>
             apply Forall_cons in Hf as [[? ?] Hf]
         end.
  destruct (Normalize_frame a h w) as (a' & Ha & Hwa & Hda & Hpa); try done.
  destruct (Normalize_frame b h w) as (b' & Hb & Hwb & Hdb & Hpb); try done.
  destruct (Normalize_frame c h w) as (c' & Hc & Hwc & Hdc & Hpc); try done.
  destruct (Normalize_frame d h w) as (d' & Hd & Hwd & Hdd & Hpd); try done.
  destruct (Normalize_frame e h w) as (e' & He & Hwe & Hde & Hpe); try done.
  exists [a'; b'; c'; d'; e']. split.
  - unfold Normalize. cbn [getitem length]. simpl.
    unfold mbind, result_bind; simpl.
    rewrite Ha, Hb, Hc, Hd, He; simpl.
    rewrite bool_decide_eq_true_2; [done |].
    repeat (apply Forall_cons_2 || apply Forall_nil_2); congruence.
  - assert (Hone : forall (f : image A) (f' : image Q) c0 r k x,
      wf_image f -> dims f = (3, h, w) -> wf_image f' -> dims f' = (3, h, w) ->
      (forall c r k p m sd, pixel f c r k = Some p ->
         channel_stats !! c = Some (m, sd) ->
         pixel f' c r k = Some ((to_float p / 255 - m) / sd)%Q) ->
      pixel f' c0 r k = Some x ->
      exists p m sd, pixel f c0 r k = Some p /\
        channel_stats !! c0 = Some (m, sd) /\
        x = ((to_float p / 255 - m) / sd)%Q).
    { intros f f' c0 r k x Hwf Hdf Hwf' Hdf' Hpx Hx.
      destruct (pixel_Some_lt f' c0 r k x Hwf' Hx) as (Hc0 & Hr & Hk).
      unfold dims in Hdf, Hdf'. injection Hdf as E1 E2 E3.
      injection Hdf' as E1' E2' E3'.
      destruct (pixel_lt_is_Some f c0 r k Hwf) as [p Hp]; [lia | lia | lia |].
      destruct (lookup_lt_is_Some_2 channel_stats c0) as [[m sd] Hms];
        [simpl; lia |].
      exists p, m, sd. split; [done |]. split; [done |].
      rewrite (Hpx _ _ _ _ _ _ Hp Hms) in Hx. by injection Hx as <-. }
    intros i c0 r k x Hx. unfold stack_pixel in *.
    destruct i as [|[|[|[|[|i]]]]]; simpl in *; [eauto .. | done].
Qed.

Lemma channel_std_positive c m sd :
  channel_stats !! c = Some (m, sd) -> (0 < sd)%Q.
Proof.
  destruct c as [|[|[|c]]]; simpl; intros [= <- <-] || intros [=];
    reflexivity.
Qed.

Lemma normalize_mono (a b m sd : Q) :
  (0 < sd)%Q -> (a <= b)%Q -> ((a - m) / sd <= (b - m) / sd)%Q.
Proof.
  intros Hsd Hab. unfold Qdiv. apply Qmult_le_compat_r; [lra |].
  apply Qinv_le_0_compat. lra.
Qed.

(** X6. The range of Normalize on decoded images: when the pixels of the
    stack are bytes (0 to 255), every value of channel c of the result lies
    between -mean_c/std_c and (1 - mean_c)/std_c. *)
Theorem Normalize_range {L} (images : list (image Z)) (y : L) :
  wf_stack 5 images ->
  (forall i c r k p, stack_pixel images i c r k = Some p ->
     (0 <= p <= 255)%Z) ->
  exists out,
    Normalize (images, y) = Ok (out, y) /\
    forall i c r k x m sd,
      stack_pixel out i c r k = Some x ->
      channel_stats !! c = Some (m, sd) ->
      ((0 - m) / sd <= x <= (1 - m) / sd)%Q.
Proof.
  intros Hwf Hbytes.
  destruct (Normalize_preimage images y Hwf) as (out & Hrun & Hpre).
  exists out. split; [done |].
  intros i c r k x m sd Hx Hms.
  destruct (Hpre _ _ _ _ _ Hx) as (p & m' & sd' & Hp & Hms' & ->).
  rewrite Hms in Hms'. injection Hms' as <- <-.
  pose proof (channel_std_positive _ _ _ Hms) as Hsd.
  destruct (Hbytes _ _ _ _ _ Hp) as [Hp0 Hp1].
  assert (Ht : (0 <= to_float p / 255 <= 1)%Q).
  { unfold to_float, uint8_dtype.
    assert (0 <= inject_Z p <= 255)%Q.
    { split.
      - change 0%Q with (inject_Z 0). by rewrite <- Zle_Qle.
      - change 255%Q with (inject_Z 255). by rewrite <- Zle_Qle. }
    unfold Qdiv. change (/ 255)%Q with (1 # 255)%Q. lra. }
  split; apply normalize_mono; try done; lra.
Qed.

(** X7. Normalize can be undone: a value x of channel c of the result comes
    from the pixel (x * std_c + mean_c) * 255 of the stack. *)
Theorem Normalize_inverse {A} `{Dtype A} {L} (images : list (image A))
  (y : L) :
  wf_stack 5 images ->
  exists out,
    Normalize (images, y) = Ok (out, y) /\
    forall i c r k x,
      stack_pixel out i c r k = Some x ->
      exists p m sd,
        stack_pixel images i c r k = Some p /\
        channel_stats !! c = Some (m, sd) /\
        (to_float p == (x * sd + m) * 255)%Q.
Proof.
  intros Hwf.
  destruct (Normalize_preimage images y Hwf) as (out & Hrun & Hpre).
  exists out. split; [done |].
  intros i c r k x Hx.
  destruct (Hpre _ _ _ _ _ Hx) as (p & m & sd & Hp & Hms & ->).
  exists p, m, sd. split; [done |]. split; [done |].
  pose proof (channel_std_positive _ _ _ Hms) as Hsd.
  field. lra.
Qed.

(** X8. Normalize reads the frames 0 to 4: a stack of fewer than five
    well-formed frames raises IndexError, and the frames after the fifth
    are ignored. *)
Theorem Normalize_frame_count {A} `{Dtype A} {L} (images : list (image A))
  (y : L) :
  (forall n, n < 5 -> wf_stack n images ->
     Normalize (images, y) = Raise IndexError) /\
  (5 <= length images ->
   Normalize (images, y) = Normalize (take 5 images, y)).
Proof.
  split.
  - intros n Hn [Hlen (h & w & Hall)].
    assert (Hfr : forall f, f ∈ images ->
              exists f', Normalize_transform (true_divide f 255) = Ok f').
    { intros f Hin. rewrite Forall_forall in Hall.
      destruct (Hall f Hin) as [Hwf Hd].
      destruct (Normalize_frame f h w Hwf Hd) as (f' & Hf' & _). eauto. }
    unfold Normalize.
    destruct images as [|a [|b [|c [|d [|e rest]]]]]; simpl in Hlen;
      [| | | | | lia]; cbn [getitem length]; simpl;
      unfold mbind, result_bind; simpl;
      repeat match goal with
             | |- context [Normalize_transform (true_divide ?f 255)] =>
                 let f' := fresh "f" in
                 let E := fresh "E" in
                 destruct (Hfr f) as [f' E];
                 [ repeat (apply list_elem_of_here || apply list_elem_of_further)
                 | rewrite E; simpl ]
             end; reflexivity.
  - intros Hlen.
    destruct images as [|a [|b [|c [|d [|e rest]]]]]; simpl in Hlen;
      try lia. reflexivity.
Qed.

(** ** When the collator fails *)

Lemma cat_Ok_iff {E} `{Shaped E} (ts : list (tensor E)) t :
  cat ts = Ok t <->
  ts <> [] /\ same_shapes (mjoin (rows <$> ts)) = true /\
  t = Tensor (mjoin (rows <$> ts)) (existsb tensor_requires_grad ts).
Proof.
  unfold cat. destruct ts as [|t0 ts].
  - split; [done | by intros [? _]].
  - destruct (same_shapes _) eqn:E0.
    + split; [by intros [= <-] | by intros (_ & _ & ->)].
    + split; [done | by intros (_ & ? & _)].
Qed.

Lemma stack_labels_Ok_iff {E} `{Shaped E} (ts : list (label_tensor E)) t :
  stack_labels ts = Ok t <->
  ts <> [] /\ same_shapes (tensor_data <$> ts) = true /\
  t = Tensor (tensor_data <$> ts) (existsb requires_grad ts).
Proof.
  unfold stack_labels. destruct ts as [|t0 ts].
  - split; [done | by intros [? _]].
  - destruct (same_shapes _) eqn:E0.
    + split; [by intros [= <-] | by intros (_ & _ & ->)].
    + split; [done | by intros (_ & ? & _)].
Qed.

Lemma existsb_fmap_false_inv {X Y} (f : X -> Y) (g : Y -> bool) (xs : list X) :
  existsb g (f <$> xs) = false -> Forall (fun x => g (f x) = false) xs.
Proof.
  induction xs as [|x xs IH]; [by intros; apply Forall_nil_2 |].
  rewrite fmap_cons. cbn [existsb]. intros [Hx Hxs]%orb_false_iff.
  apply Forall_cons_2; [done | by apply IH].
Qed.


(** ** Indexing the sample builder *)

Lemma getitem_out_of_range {A} (xs : list A) (i : Z) :
  (i < - Z.of_nat (length xs) \/ Z.of_nat (length xs) <= i)%Z ->
  getitem xs i = Raise IndexError.
Proof.
  intros Hi. unfold getitem.
  destruct (Z.ltb_spec i 0).
  - destruct (Z.ltb_spec (Z.of_nat (length xs) + i) 0); [done | lia].
  - destruct (Z.ltb_spec i 0); [lia |].
    rewrite (proj2 (lookup_ge_None xs (Z.to_nat i))); [done | lia].
Qed.

Lemma getitem_negative {A} (xs : list A) (i : Z) :
  (- Z.of_nat (length xs) <= i < 0)%Z ->
  getitem xs i = getitem xs (Z.of_nat (length xs) + i).
Proof.
  intros Hi. unfold getitem.
  destruct (Z.ltb_spec i 0); [| lia].
  destruct (Z.ltb_spec (Z.of_nat (length xs) + i) 0); [lia |].
  destruct (Z.ltb_spec (Z.of_nat (length xs) + i) 0); [lia | done].
Qed.

Lemma Normalize_Ok {A} `{Dtype A} {L} (images : list (image A)) (y : L) :
  wf_stack 5 images ->
  exists out,
    Normalize (images, y) = Ok (out, y) /\
    wf_stack 5 out /\ dims <$> out = dims <$> images /\
    forall i c r k p m sd,
      stack_pixel images i c r k = Some p ->
      channel_stats !! c = Some (m, sd) ->
      stack_pixel out i c r k = Some ((to_float p / 255 - m) / sd)%Q.
Proof.
  intros [Hlen (h & w & Hall)].
  destruct images as [|a [|b [|c [|d [|e [|? ?]]]]]]; try done.
  repeat match goal with
         | Hf : Forall _ (_ :: _) |- _ =>
             apply Forall_cons in Hf as [[? ?] Hf]
         end.
  destruct (Normalize_frame a h w) as (a' & Ha & Hwa & Hda & Hpa); try done.
  destruct (Normalize_frame b h w) as (b' & Hb & Hwb & Hdb & Hpb); try done.
  destruct (Normalize_frame c h w) as (c' & Hc & Hwc & Hdc & Hpc); try done.
  destruct (Normalize_frame d h w) as (d' & Hd & Hwd & Hdd & Hpd); try done.
  destruct (Normalize_frame e h w) as (e' & He & Hwe & Hde & Hpe); try done.
  exists [a'; b'; c'; d'; e'].
  split; [| split; [| split]].
  - unfold Normalize. cbn [getitem length]. simpl.
    unfold mbind, result_bind; simpl.
    rewrite Ha, Hb, Hc, Hd, He; simpl.
    rewrite bool_decide_eq_true_2; [done |].
    repeat (apply Forall_cons_2 || apply Forall_nil_2); congruence.
  - split; [done |]. exists h, w.
    by repeat (apply Forall_cons_2 || apply Forall_nil_2).
  - simpl. congruence.
  - intros i c0 r k p m sd Hp Hms. unfold stack_pixel in *.
    destruct i as [|[|[|[|[|i]]]]]; simpl in *; eauto; done.
Qed.

Lemma SplitImages_wf_stack {A} (img : image A) :
  wf_image img -> channels img = 3 ->
  let W := width img / 5 in
  wf_stack 5 [crop_cols 0 W img; crop_cols W (W * 2) img;
              crop_cols (W * 2) (W * 3) img; crop_cols (W * 3) (W * 4) img;
              crop_cols (W * 4) (W * 5) img].
Proof.
  intros Hwf Hc W.
  assert (HW : 5 * W <= width img) by apply Nat.Div0.mul_div_le.
  split; [done |]. exists (height img), W.
  repeat (apply Forall_cons_2 || apply Forall_nil_2);
    (split; [by apply wf_crop_cols |]);
    rewrite crop_cols_dims by lia; rewrite Hc; f_equal; lia.
Qed.

Section Indexing.
Context {L R : Type}.
Variable read_image : string -> result (image Z).
Variable imagename_input_conversion : string -> string -> result L.
Variable get_mask :
  bool -> option Z -> pyfloat -> Z -> (nat -> Q) -> nat ->
  result (tensor R) * nat.
Implicit Types (s : state (image Z)).

(** X10. __getitem__ takes the indices of a Python list: an index below
    -len or from len on (every index, for an empty split) raises IndexError
    before anything is read, and a negative index from -len on is the
    sample at len + index. *)
Theorem getitem_index (self : Tedd1104Dataset) (fuel : nat) (idx : Z) s :
  let len := Z.of_nat (Tedd1104Dataset_len self) in
  let call i :=
    Tedd1104Dataset_getitem (R:=R) read_image imagename_input_conversion
      get_mask fuel self i s in
  ((idx < - len \/ len <= idx)%Z -> call idx = (Raise IndexError, s)) /\
  ((- len <= idx < 0)%Z -> call idx = call (len + idx)%Z).
Proof.
  intros len call. unfold call, Tedd1104Dataset_getitem. split.
  - intros Hi. rewrite getitem_out_of_range by done. reflexivity.
  - intros Hi. by rewrite getitem_negative.
Qed.

(** X11. The evaluation pipeline from one end to the other: for a file at
    the index that decodes to a well-formed image of 3 channels, with a
    label the codec decodes and a mask the generator returns, __getitem__
    returns at the first read; the frame stack has 5 frames of shape
    (3, H, W) with W = width / 5, pixel (c, r, k) of frame i being
    (p/255 - mean_c)/std_c for p the pixel (c, r, i*W + k) of the image; the
    label is the decoded one and the mask the generated one; nothing is
    printed, no tensor object is made and only the mask generator takes
    draws. *)
Theorem getitem_eval (self : Tedd1104Dataset) (fuel : nat) (idx : Z) s
  img_name image y0 mask n :
  dataset_transform self = EvalTransform ->
  getitem (dataset_files self) idx = Ok img_name ->
  read_image img_name = Ok image ->
  wf_image image -> channels image = 3 ->
  imagename_input_conversion img_name (control_mode self) = Ok y0 ->
  get_mask (train self) (transformer_nheads self) (token_mask_prob self)
    (sequence_length self) (draws s) (pos s) = (Ok mask, n) ->
  let W := width image / 5 in
  exists frames,
    Tedd1104Dataset_getitem read_image imagename_input_conversion get_mask
      (S fuel) self idx s =
      (Ok (Some (Tensor frames false, mask, Torch.tensor y0)),
       State (store s) (draws s) n (stdout s)) /\
    length frames = 5 /\
    Forall (fun f => wf_image f /\ dims f = (3, height image, W)) frames /\
    forall i c r k p m sd, i < 5 -> k < W ->
      pixel image c r (i * W + k) = Some p ->
      channel_stats !! c = Some (m, sd) ->
      stack_pixel frames i c r k = Some ((inject_Z p / 255 - m) / sd)%Q.
Proof.
  intros Ht Hidx Hread Hwf Hc Hy Hmask W.
  pose proof (SplitImages_wf_stack image Hwf Hc) as Hstack. fold W in Hstack.
  destruct (Normalize_Ok _ (Torch.tensor y0) Hstack)
    as (frames & Hnorm & [Hlen (h & w & Hall)] & Hdims & Hpx).
  exists frames. split; [| split; [done | split]].
  - unfold Tedd1104Dataset_getitem. rewrite Hidx.
    rewrite (bind_ok (lift (Ok img_name)) _ s img_name s) by done.
    erewrite bind_ok; [| simpl; rewrite Hread; reflexivity].
    unfold build_sample. rewrite Hy, Ht.
    unfold apply_transform.
    pose proof (SplitImages_Ok image y0) as Hsplit. fold W in Hsplit.
    unfold_M. cbv beta. rewrite Hsplit. cbv beta iota.
    rewrite Hnorm. cbv beta iota. unfold call_get_mask.
    by rewrite Hmask.
  - assert (Hd0 : forall i f f', frames !! i = Some f' ->
              [crop_cols 0 W image; crop_cols W (W * 2) image;
               crop_cols (W * 2) (W * 3) image;
               crop_cols (W * 3) (W * 4) image;
               crop_cols (W * 4) (W * 5) image] !! i = Some f ->
              dims f' = dims f).
    { intros i f f' Hf' Hf.
      assert (Hi : (dims <$> frames) !! i = Some (dims f')).
      { by rewrite list_lookup_fmap, Hf'. }
      rewrite Hdims, list_lookup_fmap, Hf in Hi. simpl in Hi. congruence. }
    assert (HW : 5 * W <= width image) by apply Nat.Div0.mul_div_le.
    apply Forall_lookup. intros i f' Hf'.
    rewrite Forall_lookup in Hall. destruct (Hall _ _ Hf') as [Hwf' _].
    split; [done |].
    assert (Hi : i < 5) by (apply lookup_lt_Some in Hf'; lia).
    destruct i as [|[|[|[|[|i]]]]]; [| | | | | lia];
      erewrite (Hd0 _ _ _ Hf') by reflexivity;
      rewrite crop_cols_dims by lia; rewrite Hc; f_equal; lia.
  - intros i c r k p m sd Hi Hk Hp Hms.
    apply (Hpx i c r k p m sd); [| done].
    pose proof (SplitImages_frame_pixel image i c r k Hi) as Hfp.
    fold W in Hfp. rewrite Hfp. by rewrite decide_True by done.
Qed.
End Indexing.

(** ** More on the construction and on the training transform *)

(** X12. When no dropout vector is passed (or an empty one) and
    sequence_length is not 5, with a valid control mode and hide_map_prob,
    the construction fails on the length check: with the AssertionError of
    the check for the empty list, but with a TypeError for None, raised
    while the message of the assertion is formatted. *)
Theorem init_wrong_sequence_length (glob_jpeg : string -> list string)
  (color_jitter : ColorJitter) (a : Tedd1104Dataset_args) :
  Z.to_nat (arg_sequence_length a) <> 5 ->
  lower (arg_control_mode a) ∈ ["keyboard"; "controller"]%string ->
  in_unit_closed (arg_hide_map_prob a) ->
  (arg_dropout_images_prob a = None ->
   Tedd1104Dataset_init glob_jpeg color_jitter a = Raise TypeError) /\
  (arg_dropout_images_prob a = Some [] ->
   Tedd1104Dataset_init glob_jpeg color_jitter a =
     Raise (AssertionError "dropout_images_prob must have 5 probabilities")).
Proof.
  intros Hlen Hmode Hhide.
  apply (bool_decide_eq_true_2 _) in Hmode.
  apply unit_closed_spec in Hhide.
  split; intros Hd; unfold Tedd1104Dataset_init;
    rewrite Hmode, Hhide, Hd; simpl;
    rewrite bool_decide_eq_false_2; try done;
    by rewrite length_replicate.
Qed.

Section EmptyDropout.
Context {L R : Type}.
Variable glob_jpeg : string -> list string.
Variable color_jitter : ColorJitter.
Variable read_image : string -> result (image Z).
Variable imagename_input_conversion : string -> string -> result L.
Variable get_mask :
  bool -> option Z -> pyfloat -> Z -> (nat -> Q) -> nat ->
  result (tensor R) * nat.
Implicit Types (s : state (image Z)).

Lemma RemoveImage_call_empty (self : RemoveImage) l (y : L) s :
  RemoveImage_dropout_images_prob self = Some [] ->
  exists e, RemoveImage_call self (l, y) s = (Raise e, s) /\
            (is_Some (store s !! l) -> e = IndexError).
Proof.
  intros Hnone. unfold RemoveImage_call, RemoveImage_prob. unfold_M.
  destruct (store s !! l) as [img|] eqn:Hl.
  - exists IndexError. simpl. unfold_M. by rewrite Hnone.
  - exists RuntimeError. split; [done |]. by intros [? ?].
Qed.

(** X13. An empty dropout vector is replaced by zeros in the attribute that
    is validated but not in the RemoveImage stage: a training split
    constructed with dropout_images_prob=[] (sequence length 5, the other
    arguments valid) is constructed, and no __getitem__ call on it returns a
    sample; once the image is read and the label decoded, with
    hide_map_prob = 0, the call raises IndexError. *)
Theorem train_with_empty_dropout (a : Tedd1104Dataset_args) :
  arg_train a = true -> arg_dropout_images_prob a = Some [] ->
  arg_sequence_length a = 5%Z ->
  lower (arg_control_mode a) ∈ ["keyboard"; "controller"]%string ->
  in_unit_closed (arg_hide_map_prob a) ->
  in_unit_half_open (arg_token_mask_prob a) ->
  exists self,
    Tedd1104Dataset_init glob_jpeg color_jitter a = Ok self /\
    dropout_images_prob self = replicate 5 (Finite 0) /\
    (forall fuel idx s (smp : sample R L) s',
       Tedd1104Dataset_getitem read_image imagename_input_conversion
         get_mask fuel self idx s <> (Ok (Some smp), s')) /\
    (forall img_name image s y0,
       imagename_input_conversion img_name (control_mode self) = Ok y0 ->
       float_lt (Finite 0) (arg_hide_map_prob a) = false ->
       exists s',
         build_sample (R:=R) imagename_input_conversion get_mask self
           img_name image s = (Raise IndexError, s')).
Proof.
  intros Htrain Hnone Hlen Hmode Hhide Htok.
  apply (bool_decide_eq_true_2 _) in Hmode.
  apply unit_closed_spec in Hhide. apply unit_half_open_spec in Htok.
  eexists. split.
  { unfold Tedd1104Dataset_init. rewrite Hmode, Hhide, Htok, Hnone, Hlen.
    simpl. rewrite Htrain. reflexivity. }
  simpl.
  set (minimap := {| RemoveMinimap_hide_map_prob := arg_hide_map_prob a |}).
  set (dropout := {| RemoveImage_dropout_images_prob := Some [] |}).
  set (jitter := {| SequenceColorJitter_jitter := color_jitter |}).
  set (self := Build_Tedd1104Dataset _ _ _ _ _ _ _ _ _ _).
  assert (Htr : forall image (y : L) s,
    (exists e s', apply_transform (TrainTransform minimap dropout jitter)
                    image y s = (Raise e, s')) /\
    (float_lt (Finite 0) (arg_hide_map_prob a) = false ->
     exists s', apply_transform (TrainTransform minimap dropout jitter)
                  image y s = (Raise IndexError, s'))).
  { intros image y s. unfold apply_transform.
    set (l := fresh (dom (store s))).
    set (s1 := State (<[l:=image]> (store s)) (draws s) (pos s) (stdout s)).
    assert (Ha : alloc image s = (Ok l, s1)) by done.
    rewrite (bind_ok _ _ _ _ _ Ha).
    assert (Hl : store s1 !! l = Some image) by apply lookup_insert_eq.
    split.
    - destruct (RemoveMinimap_call minimap (l, y) s1) as [[[l' y']|e] s2]
        eqn:Hm.
      + rewrite (bind_ok _ _ _ _ _ Hm).
        destruct (RemoveImage_call_empty dropout l' y' s2 eq_refl)
          as (e & Hr & _).
        exists e, s2. by apply bind_raise.
      + exists e, s2. by apply bind_raise.
    - intros Hoff.
      rewrite (bind_ok _ _ _ _ _
                 (RemoveMinimap_call_off minimap l y s1 image Hl Hoff)).
      destruct (RemoveImage_call_empty dropout l y s1 eq_refl)
        as (e & Hr & He).
      rewrite He in Hr by (by rewrite Hl).
      exists s1. by apply bind_raise. }
  split; [done |]. split.
  - intros fuel idx s smp s' Hget.
    unfold Tedd1104Dataset_getitem in Hget.
    apply M_bind_Ok_inv in Hget as (name & s1 & _ & Hget).
    apply M_bind_Ok_inv in Hget as ([[name' image]|] & s2 & _ & Hget);
      [| done].
    apply M_bind_Ok_inv in Hget as (smp' & s3 & Hb & _).
    unfold build_sample in Hb.
    apply M_bind_Ok_inv in Hb as (y0 & s4 & _ & Hb).
    apply M_bind_Ok_inv in Hb as ([images ty] & s5 & Ht & _).
    destruct (Htr image y0 s4) as [(e & s6 & He) _].
    change (dataset_transform self)
      with (TrainTransform minimap dropout jitter) in Ht.
    congruence.
  - intros img_name image s y0 Hy Hoff. unfold build_sample.
    change (control_mode self) with (lower (arg_control_mode a)).
    rewrite Hy. rewrite (bind_ok (lift (Ok y0)) _ s y0 s) by done.
    change (dataset_transform self)
      with (TrainTransform minimap dropout jitter).
    destruct (Htr image y0 s) as [_ Hte]. destruct (Hte Hoff) as (s' & Hs).
    exists s'. by apply bind_raise.
Qed.
End EmptyDropout.

(** X14. With hide_map_prob not positive and a dropout vector of at least 5
    entries none of which is positive, the training transform is the
    evaluation transform with the colour jitter in between: the image becomes
    one tensor object, the two droppers take no draw and change nothing, and
    the frames are Normalize of the jitter of SplitImages of the image. *)
Theorem train_transform_without_dropping {L} minimap dropout jitter d
  (image : image Z) (y : L) (s : state (Torch.image Z)) :
  float_lt (Finite 0) (RemoveMinimap_hide_map_prob minimap) = false ->
  RemoveImage_dropout_images_prob dropout = Some d -> 5 <= length d ->
  Forall (fun p => float_lt (Finite 0) p = false) d ->
  apply_transform (TrainTransform minimap dropout jitter) image y s =
    ('(images, t) ← lift (SplitImages (image, y));
     '(images, t) ← SequenceColorJitter_forward jitter (images, t);
     lift (Normalize (images, t)))
      (State (<[fresh (dom (store s)):=image]> (store s)) (draws s) (pos s)
             (stdout s)).
Proof.
  intros Hoff Hd Hlen Hzero. unfold apply_transform.
  set (l := fresh (dom (store s))).
  set (s1 := State (<[l:=image]> (store s)) (draws s) (pos s) (stdout s)).
  assert (Ha : alloc image s = (Ok l, s1)) by done.
  rewrite (bind_ok _ _ _ _ _ Ha).
  assert (Hl : store s1 !! l = Some image) by apply lookup_insert_eq.
  rewrite (bind_ok _ _ _ _ _
             (RemoveMinimap_call_off minimap l y s1 image Hl Hoff)).
  assert (Hri : RemoveImage_call dropout (l, y) s1 = (Ok (l, y), s1)).
  { rewrite (RemoveImage_call_body _ _ _ _ _ Hl).
    erewrite bind_ok; [done |].
    eapply RemoveImage_loop_off; [done | done | lia]. }
  rewrite (bind_ok _ _ _ _ _ Hri).
  assert (Hload : load l s1 = (Ok image, s1)).
  { unfold load. by rewrite Hl. }
  by rewrite (bind_ok _ _ _ _ _ Hload).
Qed.

(** ** The file picked by a retry *)


(** ** The data module *)

Lemma init_Ok_inv glob_jpeg color_jitter (a : Tedd1104Dataset_args) self :
  Tedd1104Dataset_init glob_jpeg color_jitter a = Ok self ->
  let dropout :=
    dropout_or_zeros (arg_dropout_images_prob a) (arg_sequence_length a) in
  in_unit_closed (arg_hide_map_prob a) /\
  length dropout = 5 /\
  Forall in_unit_half_open dropout /\
  in_unit_half_open (arg_token_mask_prob a) /\
  hide_map_prob self = arg_hide_map_prob a /\
  dropout_images_prob self = dropout /\
  train self = arg_train a /\
  dataset_files self = glob_jpeg (arg_dataset_dir a) /\
  dataset_transform self =
    if arg_train a
    then TrainTransform
           {| RemoveMinimap_hide_map_prob := arg_hide_map_prob a |}
           {| RemoveImage_dropout_images_prob := arg_dropout_images_prob a |}
           {| SequenceColorJitter_jitter := color_jitter |}
    else EvalTransform.
Proof.
  intros Hinit dropout. unfold Tedd1104Dataset_init in Hinit.
  fold dropout in Hinit.
  apply bind_Ok_inv in Hinit as ([] & _ & Hinit).
  apply bind_Ok_inv in Hinit as ([] & Hhide & Hinit).
  apply bind_Ok_inv in Hinit as ([] & Hlen & Hinit).
  apply bind_Ok_inv in Hinit as ([] & Hall & Hinit).
  apply bind_Ok_inv in Hinit as ([] & Htok & Hinit).
  injection Hinit as <-. simpl.
  unfold assert in Hhide, Htok.
  destruct (float_le (Finite 0) (arg_hide_map_prob a) && _) eqn:E2;
    [| done].
  destruct (float_le (Finite 0) (arg_token_mask_prob a) && _) eqn:E5;
    [| done].
  destruct (bool_decide (length dropout = 5)) eqn:E3;
    [| by destruct (arg_dropout_images_prob a)].
  apply unit_closed_spec in E2. apply unit_half_open_spec in E5.
  apply bool_decide_eq_true in E3.
  repeat split; try done.
  destruct (for_each_assert
              (fun p => float_le (Finite 0) p && float_lt p (Finite 1))
              "All probabilities in dropout_image_prob must be in the range"
              dropout) as [[_ Hok]|[Hr _]]; [| congruence].
  eapply Forall_impl; [exact Hok |]. intros p. apply unit_half_open_spec.
Qed.

Lemma eval_split_init glob_jpeg color_jitter (self : Tedd1104DataModule)
  (dir : string) :
  exists d,
    Tedd1104Dataset_init glob_jpeg color_jitter (eval_split_args self dir)
      = Ok d /\
    eval_configuration d /\
    dataset_files d = glob_jpeg dir /\
    sequence_length d = dm_sequence_length self /\
    transformer_nheads d = dm_transformer_nheads self.
Proof. eexists. split; [reflexivity |]. by repeat split. Qed.

Section DataModuleProperties.
Variable glob_jpeg : string -> list string.
Variable color_jitter : ColorJitter.

Lemma eval_split_in (self : Tedd1104DataModule) (dir : option string) :
  match dir with
  | Some d =>
      exists ds,
        Tedd1104Dataset_in glob_jpeg color_jitter dir (eval_split_args self)
          = Ok ds /\
        eval_configuration ds /\ dataset_files ds = glob_jpeg d
  | None =>
      Tedd1104Dataset_in glob_jpeg color_jitter dir (eval_split_args self)
        = Raise TypeError
  end.
Proof.
  destruct dir as [d|]; unfold Tedd1104Dataset_in.
  - destruct (eval_split_init glob_jpeg color_jitter self d)
      as (ds & Hds & Hcfg & Hfiles & _). by exists ds.
  - destruct (eval_split_init glob_jpeg color_jitter self EmptyString)
      as (ds & Hds & _). by rewrite Hds.
Qed.

Lemma setup_fit_cases (self : Tedd1104DataModule) :
  match Tedd1104Dataset_in glob_jpeg color_jitter (dm_train_dir self)
          (train_split_args self) with
  | Raise e => setup_fit glob_jpeg color_jitter self = (Raise e, self, [])
  | Ok tr =>
      match dm_val_dir self with
      | None =>
          setup_fit glob_jpeg color_jitter self =
            (Raise TypeError, set_train_dataset self tr,
             [samples_message "training" tr])
      | Some d =>
          exists va,
            setup_fit glob_jpeg color_jitter self =
              (Ok tt, set_val_dataset (set_train_dataset self tr) va,
               [samples_message "training" tr;
                samples_message "validation" va]) /\
            eval_configuration va /\ dataset_files va = glob_jpeg d
      end
  end.
Proof.
  unfold setup_fit.
  destruct (Tedd1104Dataset_in _ _ (dm_train_dir self) _) as [tr|e]; [| done].
  cbv zeta.
  change (dm_val_dir (set_train_dataset self tr)) with (dm_val_dir self).
  change (eval_split_args (set_train_dataset self tr))
    with (eval_split_args self).
  pose proof (eval_split_in self (dm_val_dir self)) as Hval.
  destruct (dm_val_dir self) as [d|].
  - destruct Hval as (va & -> & Hcfg & Hfiles). by exists va.
  - by rewrite Hval.
Qed.

Lemma setup_test_cases (self : Tedd1104DataModule) :
  match dm_test_dir self with
  | None => setup_test glob_jpeg color_jitter self = (Raise TypeError, self, [])
  | Some d =>
      exists te,
        setup_test glob_jpeg color_jitter self =
          (Ok tt, set_test_dataset self te, [samples_message "test" te]) /\
        eval_configuration te /\ dataset_files te = glob_jpeg d
  end.
Proof.
  unfold setup_test.
  pose proof (eval_split_in self (dm_test_dir self)) as Hte.
  destruct (dm_test_dir self) as [d|].
  - destruct Hte as (te & -> & Hcfg & Hfiles). by exists te.
  - by rewrite Hte.
Qed.

(** X16. After a setup that succeeds, the validation split (stages None and
    "fit") and the test split (stages None and "test") are configured for
    evaluation whatever the module was given: hide_map_prob 0,
    token_mask_prob 0, five zero dropout probabilities, control mode
    "keyboard", train False and the transform without the random stages. *)
Theorem setup_eval_splits (self : Tedd1104DataModule) (stage : option string)
  self' out :
  Tedd1104DataModule_setup glob_jpeg color_jitter self stage
    = (Ok tt, self', out) ->
  (stage_in stage "fit" = true ->
   exists va, dm_val_dataset self' = Some va /\ eval_configuration va /\
              exists d, dm_val_dir self = Some d /\
                        dataset_files va = glob_jpeg d) /\
  (stage_in stage "test" = true ->
   exists te, dm_test_dataset self' = Some te /\ eval_configuration te /\
              exists d, dm_test_dir self = Some d /\
                        dataset_files te = glob_jpeg d).
Proof.
  unfold Tedd1104DataModule_setup. intros Hsetup.
  destruct (stage_in stage "fit") eqn:Hfit.
  - pose proof (setup_fit_cases self) as Hf.
    destruct (Tedd1104Dataset_in _ _ (dm_train_dir self) _) as [tr|e].
    2: { by rewrite Hf in Hsetup. }
    destruct (dm_val_dir self) as [dv|] eqn:Hdv.
    2: { by rewrite Hf in Hsetup. }
    destruct Hf as (va & Hf & Hcfg & Hfiles). rewrite Hf in Hsetup.
    destruct (stage_in stage "test") eqn:Htest.
    + pose proof (setup_test_cases
                    (set_val_dataset (set_train_dataset self tr) va)) as Ht.
      change (dm_test_dir (set_val_dataset (set_train_dataset self tr) va))
        with (dm_test_dir self) in Ht.
      destruct (dm_test_dir self) as [dt|] eqn:Hdt.
      2: { by rewrite Ht in Hsetup. }
      destruct Ht as (te & Ht & Hcfg' & Hfiles'). rewrite Ht in Hsetup.
      injection Hsetup as <- _.
      split; intros _; [exists va | exists te]; cbn; eauto.
    + injection Hsetup as <- _. split; [| done].
      intros _. exists va. cbn. eauto.
  - destruct (stage_in stage "test") eqn:Htest; [| done].
    pose proof (setup_test_cases self) as Ht.
    destruct (dm_test_dir self) as [dt|] eqn:Hdt.
    2: { by rewrite Ht in Hsetup. }
    destruct Ht as (te & Ht & Hcfg' & Hfiles'). rewrite Ht in Hsetup.
    injection Hsetup as <- _.
    split; [done |]. intros _. exists te. cbn. eauto.
Qed.

(** X17. Through the data module the stages of the training transform hold
    validated values: after a setup of a module made by __init__ that
    succeeds for the stage None or "fit", the RemoveImage stage of the
    training split holds the very vector that was validated (5 entries of
    [0,1), never None) and the RemoveMinimap stage a probability of [0,1];
    a missing or empty dropout vector has become five zeros before the
    split is constructed. *)
Theorem setup_training_split (a : Tedd1104DataModule_args)
  (stage : option string) self' out :
  Tedd1104DataModule_setup glob_jpeg color_jitter
    (Tedd1104DataModule_init a).1 stage = (Ok tt, self', out) ->
  stage_in stage "fit" = true ->
  exists tr minimap dropout jitter,
    dm_train_dataset self' = Some tr /\
    train tr = true /\
    dataset_transform tr = TrainTransform minimap dropout jitter /\
    RemoveImage_dropout_images_prob dropout = Some (dropout_images_prob tr) /\
    dropout_images_prob tr = dropout_or_zeros (dmarg_dropout_images_prob a) 5 /\
    length (dropout_images_prob tr) = 5 /\
    Forall in_unit_half_open (dropout_images_prob tr) /\
    RemoveMinimap_hide_map_prob minimap = hide_map_prob tr /\
    in_unit_closed (hide_map_prob tr).
Proof.
  set (self := (Tedd1104DataModule_init a).1).
  unfold Tedd1104DataModule_setup. intros Hsetup Hfit.
  rewrite Hfit in Hsetup.
  pose proof (setup_fit_cases self) as Hf.
  destruct (Tedd1104Dataset_in _ _ (dm_train_dir self) _) as [tr|e] eqn:Htr.
  2: { by rewrite Hf in Hsetup. }
  assert (Htrain : dm_train_dataset self' = Some tr).
  { destruct (dm_val_dir self) as [dv|].
    2: { by rewrite Hf in Hsetup. }
    destruct Hf as (va & Hf & _). rewrite Hf in Hsetup.
    destruct (stage_in stage "test").
    - pose proof (setup_test_cases
                    (set_val_dataset (set_train_dataset self tr) va)) as Ht.
      destruct (dm_test_dir _) as [dt|].
      2: { by rewrite Ht in Hsetup. }
      destruct Ht as (te & Ht & _). rewrite Ht in Hsetup.
      by injection Hsetup as <- _.
    - by injection Hsetup as <- _. }
  assert (Hinit : exists dir,
            Tedd1104Dataset_init glob_jpeg color_jitter
              (train_split_args self dir) = Ok tr).
  { unfold Tedd1104Dataset_in in Htr.
    destruct (dm_train_dir self) as [d|]; [by exists d |].
    apply bind_Ok_inv in Htr as (? & _ & ?). done. }
  destruct Hinit as [dir Hinit].
  apply init_Ok_inv in Hinit
    as (Hhide & Hlen & Hall & _ & Eh & Ed & Et & _ & Etr).
  assert (Hsame : dropout_or_zeros
                    (Some (dropout_or_zeros (dmarg_dropout_images_prob a) 5))
                    (dmarg_sequence_length a)
                  = dropout_or_zeros (dmarg_dropout_images_prob a) 5).
  { by destruct (dmarg_dropout_images_prob a) as [[|p ps]|]. }
  cbn in Hhide, Hlen, Hall, Eh, Ed, Et, Etr, Hsame.
  rewrite Hsame in Hlen, Hall, Ed.
  eexists tr, _, _, _. split; [exact Htrain |]. split; [exact Et |].
  split; [exact Etr |]. cbn.
  split; [by rewrite Ed |]. split; [exact Ed |].
  split; [by rewrite Ed |]. split; [by rewrite Ed |].
  split; [by rewrite Eh | by rewrite Eh].
Qed.

(** X18. The validation and test splits always pass the validation of the
    construction: setup for the stage "test" fails only when no test
    directory was given, with the TypeError of joining None to the
    pattern, and otherwise sets the test split and prints its size. *)
Theorem setup_test_stage (self : Tedd1104DataModule) :
  match dm_test_dir self with
  | None =>
      Tedd1104DataModule_setup glob_jpeg color_jitter self (Some "test"%string)
        = (Raise TypeError, self, [])
  | Some d =>
      exists te,
        Tedd1104DataModule_setup glob_jpeg color_jitter self
          (Some "test"%string)
          = (Ok tt, set_test_dataset self te,
             [("Total test samples: " ++ pretty (length (glob_jpeg d)) ++ ".")
              %string]) /\
        eval_configuration te /\ dataset_files te = glob_jpeg d
  end.
Proof.
  unfold Tedd1104DataModule_setup.
  change (stage_in (Some "test"%string) "fit") with false.
  change (stage_in (Some "test"%string) "test") with true.
  cbv iota beta.
  pose proof (setup_test_cases self) as Hte.
  destruct (dm_test_dir self) as [d|].
  - destruct Hte as (te & Hte & Hcfg & Hfiles). exists te.
    rewrite Hte. unfold samples_message, Tedd1104Dataset_len.
    by rewrite Hfiles.
  - by rewrite Hte.
Qed.
End DataModuleProperties.

(** ** calculate_mean_str *)

Lemma inject_nat_S (n : nat) :
  (inject_Z (Z.of_nat (S n)) == inject_Z (Z.of_nat n) + 1)%Q.
Proof.
  rewrite Nat2Z.inj_succ, <- Z.add_1_r, inject_Z_plus. reflexivity.
Qed.

Lemma inject_nat_pos (n : nat) : 0 < n -> (0 < inject_Z (Z.of_nat n))%Q.
Proof.
  intros Hn. change 0%Q with (inject_Z 0). rewrite <- Zlt_Qlt. lia.
Qed.

Lemma Qsum_unit_bounds (xs : list Q) :
  Forall (fun q => (0 <= q <= 1)%Q) xs ->
  (0 <= Qsum xs <= inject_Z (Z.of_nat (length xs)))%Q.
Proof.
  induction 1 as [|q xs Hq _ IH]; [split; apply Qle_refl |].
  change (Qsum (q :: xs)) with (q + Qsum xs)%Q.
  change (length (q :: xs)) with (S (length xs)).
  rewrite inject_nat_S. lra.
Qed.

Lemma unit_ratio (a : Q) (n : nat) :
  0 < n -> (0 <= a <= inject_Z (Z.of_nat n))%Q ->
  (0 <= a / inject_Z (Z.of_nat n) <= 1)%Q.
Proof.
  intros Hn [Ha0 Ha1]. pose proof (inject_nat_pos n Hn) as Hpos. split.
  - apply Qle_shift_div_l; [exact Hpos | lra].
  - apply Qle_shift_div_r; [exact Hpos | lra].
Qed.

Lemma join_fmap {A B} (f : A -> B) (ls : list (list A)) :
  mjoin (fmap (M:=list) (fmap (M:=list) f) ls) =
  fmap (M:=list) f (mjoin ls).
Proof.
  induction ls as [|l ls IH]; [reflexivity |].
  change (mjoin (l :: ls)) with (l ++ mjoin ls).
  change (fmap (M:=list) (fmap (M:=list) f) (l :: ls))
    with (fmap (M:=list) f l :: fmap (M:=list) (fmap (M:=list) f) ls).
  change (mjoin (fmap (M:=list) f l ::
                 fmap (M:=list) (fmap (M:=list) f) ls))
    with (fmap (M:=list) f l ++
          mjoin (fmap (M:=list) (fmap (M:=list) f) ls)).
  by rewrite IH, fmap_app.
Qed.

Lemma join_nils {A} (ls : list (list A)) :
  Forall (fun l => l = []) ls -> mjoin ls = [].
Proof.
  induction 1 as [|l ls -> _ IH]; [reflexivity |].
  change (mjoin ([] :: ls)) with ([] ++ mjoin ls). by rewrite IH.
Qed.

Lemma elements_true_divide (img : image Z) (d : Q) :
  elements (true_divide img d) =
  fmap (M:=list) (fun x => (to_float x / d)%Q) (elements img).
Proof.
  unfold elements; simpl. by rewrite !join_fmap.
Qed.

Lemma byte_elements (img : image Z) :
  byte_image img -> Forall (fun p => (0 <= p <= 255)%Z) (elements img).
Proof.
  intros Hb. unfold elements. apply Forall_join, Forall_join. exact Hb.
Qed.

Lemma byte_image_crop_cols a b (img : image Z) :
  byte_image img -> byte_image (crop_cols a b img).
Proof.
  unfold byte_image; simpl. intros Hb.
  apply Forall_fmap. eapply Forall_impl; [exact Hb |].
  intros ch Hch; simpl. apply Forall_fmap.
  eapply Forall_impl; [exact Hch |].
  intros row Hrow; simpl. unfold slice. by apply Forall_take, Forall_drop.
Qed.

Lemma elements_nonempty {A} (img : image A) :
  wf_image img -> 0 < channels img -> 0 < height img -> 0 < width img ->
  elements img <> [].
Proof.
  intros [Hc Hrows] HC HH HW. unfold elements.
  destruct (pixels img) as [|ch chs]; simpl in Hc; [lia |].
  apply Forall_cons_1 in Hrows as [[Hh Hw] _].
  destruct ch as [|row rows]; simpl in Hh; [lia |].
  apply Forall_cons_1 in Hw as [Hw _].
  destruct row as [|x row]; simpl in Hw; [lia |].
  discriminate.
Qed.

Lemma elements_narrow {A} (a : nat) (img : image A) :
  elements (crop_cols a a img) = [].
Proof.
  unfold elements; simpl. apply join_nils, Forall_forall.
  intros l Hl. apply list_elem_of_join in Hl as (ch & Hl & Hch).
  apply list_elem_of_fmap in Hch as (ch' & -> & _).
  apply list_elem_of_fmap in Hl as (row & -> & _).
  unfold slice. by rewrite Nat.sub_diag, take_0.
Qed.

(** The mean of a frame of bytes that has elements lies in [0, 1]. *)
Lemma torch_mean_unit (img : image Z) :
  byte_image img -> elements img <> [] ->
  exists m, torch_mean (true_divide img 255) = Finite m /\
            (0 <= m <= 1)%Q.
Proof.
  intros Hb Hne. unfold torch_mean. rewrite elements_true_divide.
  pose proof (byte_elements img Hb) as Hel.
  destruct (elements img) as [|x xs] eqn:E; [done |].
  set (ys := fmap (M:=list) (fun x0 : Z => (to_float x0 / 255)%Q) (x :: xs)).
  assert (Hys : Forall (fun q => (0 <= q <= 1)%Q) ys).
  { subst ys. apply Forall_fmap. eapply Forall_impl; [exact Hel |].
    intros p [Hp0 Hp1]; simpl. unfold to_float, uint8_dtype.
    assert (0 <= inject_Z p)%Q
      by (change 0%Q with (inject_Z 0); by rewrite <- Zle_Qle).
    assert (inject_Z p <= 255)%Q
      by (change 255%Q with (inject_Z 255); by rewrite <- Zle_Qle).
    unfold Qdiv. change (/ 255)%Q with (1 # 255)%Q. lra. }
  assert (Hlen : 0 < length ys) by (subst ys; simpl; lia).
  change (match ys with [] => NaN | _ :: _ =>
            Finite (Qsum ys / inject_Z (Z.of_nat (length ys))) end =
          Finite _ /\ _) || idtac.
  destruct ys as [|y ys'] eqn:Ey; [simpl in Hlen; lia |].
  eexists; split; [reflexivity |].
  apply unit_ratio; [exact Hlen |]. by apply Qsum_unit_bounds.
Qed.

Section MeanStdProperties.
Variable glob_jpeg : string -> list string.
Variable read_image : string -> result (image Z).
Variable torch_std : image Q -> pyfloat.

Lemma add_frames_total acc images :
  (add_frames torch_std acc images).2 = acc.2 + length images.
Proof.
  revert acc. induction images as [|img images IH]; intros acc; simpl.
  - lia.
  - unfold add_frames in *; simpl. rewrite IH.
    destruct acc as [[ms ss] t]; simpl. lia.
Qed.

Lemma add_frames_app acc xs ys :
  add_frames torch_std acc (xs ++ ys) =
  add_frames torch_std (add_frames torch_std acc xs) ys.
Proof. unfold add_frames. apply foldl_app. Qed.

(** One more frame whose mean is in [0, 1] keeps the sum within the
    count. *)
Lemma add_frames_unit acc images ms :
  acc.1.1 = Finite ms -> (0 <= ms <= inject_Z (Z.of_nat acc.2))%Q ->
  Forall (fun img => exists m,
            torch_mean (true_divide img 255) = Finite m /\
            (0 <= m <= 1)%Q) images ->
  exists ms',
    (add_frames torch_std acc images).1.1 = Finite ms' /\
    (0 <= ms' <=
       inject_Z (Z.of_nat (add_frames torch_std acc images).2))%Q.
Proof.
  intros Hms Hb Himgs. revert acc ms Hms Hb.
  induction Himgs as [|img images (m & Hm & Hmb) _ IH];
    intros [[mean_sum ss] t] ms Hms Hb; simpl in Hms, Hb.
  - exists ms. by split.
  - change (add_frames torch_std (mean_sum, ss, t) (img :: images))
      with (add_frames torch_std
              (float_add mean_sum (torch_mean (true_divide img 255)),
               float_add ss (torch_std (true_divide img 255)), S t)
              images).
    apply (IH _ (ms + m)%Q).
    + simpl. by rewrite Hms, Hm.
    + simpl. rewrite inject_nat_S. lra.
Qed.

(** A frame without elements turns the sum into NaN for good. *)
Lemma add_frames_NaN acc images :
  acc.1.1 = NaN -> (add_frames torch_std acc images).1.1 = NaN.
Proof.
  revert acc. induction images as [|img images IH];
    intros [[mean_sum ss] t] H; simpl in H; [exact H |].
  change (add_frames torch_std (mean_sum, ss, t) (img :: images))
    with (add_frames torch_std
            (float_add mean_sum (torch_mean (true_divide img 255)),
             float_add ss (torch_std (true_divide img 255)), S t)
            images).
  apply IH. simpl. by rewrite H.
Qed.

Lemma add_frames_empty_frame acc images img :
  img ∈ images -> elements img = [] ->
  (add_frames torch_std acc images).1.1 = NaN.
Proof.
  intros Hin Hel. apply list_elem_of_split in Hin as (xs & ys & ->).
  rewrite add_frames_app.
  destruct (add_frames torch_std acc xs) as [[mean_sum ss] t].
  change (add_frames torch_std (mean_sum, ss, t) (img :: ys))
    with (add_frames torch_std
            (float_add mean_sum (torch_mean (true_divide img 255)),
             float_add ss (torch_std (true_divide img 255)), S t)
            ys).
  apply add_frames_NaN. simpl.
  unfold torch_mean. rewrite elements_true_divide, Hel. simpl.
  by destruct mean_sum.
Qed.

Lemma add_files_cons f files acc img :
  read_image f = Ok img ->
  add_files read_image torch_std (f :: files) acc =
  add_files read_image torch_std files
    (add_frames torch_std acc (frames_of img)).
Proof.
  intros Hr. cbn [add_files]. rewrite Hr. unfold mbind, result_bind, bind.
  by rewrite (SplitImages_Ok img 0%Z).
Qed.

Lemma add_files_raise pre f post acc e :
  Forall (readable read_image) pre ->
  read_image f = Raise e ->
  add_files read_image torch_std (pre ++ f :: post) acc = Raise e.
Proof.
  intros Hpre Hf. revert acc.
  induction Hpre as [|g pre Hg _ IH]; intros acc.
  - simpl. by rewrite Hf.
  - unfold readable in Hg.
    destruct (read_image g) as [img|] eqn:Hr; [| discriminate].
    rewrite <- app_comm_cons, (add_files_cons _ _ _ img Hr). apply IH.
Qed.

Lemma add_files_Ok files acc :
  Forall (readable read_image) files ->
  exists acc',
    add_files read_image torch_std files acc = Ok acc' /\
    acc'.2 = acc.2 + 5 * length files.
Proof.
  intros Hfiles. revert acc.
  induction Hfiles as [|g files Hg _ IH]; intros acc.
  - exists acc. split; [reflexivity | simpl; lia].
  - unfold readable in Hg.
    destruct (read_image g) as [img|] eqn:Hr; [| discriminate].
    rewrite (add_files_cons _ _ _ img Hr).
    destruct (IH (add_frames torch_std acc (frames_of img)))
      as (acc' & -> & Ht).
    exists acc'. split; [reflexivity |].
    rewrite Ht, add_frames_total. simpl. lia.
Qed.

(** Either every file is read, or there is a first one that is not. *)
Lemma first_failure (files : list string) :
  Forall (readable read_image) files \/
  exists pre f post e,
    files = pre ++ f :: post /\
    Forall (readable read_image) pre /\
    read_image f = Raise e.
Proof.
  induction files as [|g files IH]; [left; constructor |].
  destruct (read_image g) as [img|e] eqn:Hr.
  - destruct IH as [IH | (pre & f & post & e & -> & Hpre & Hf)].
    + left. constructor; [unfold readable; by rewrite Hr | exact IH].
    + right. exists (g :: pre), f, post, e. split; [reflexivity |].
      split; [| exact Hf].
      constructor; [unfold readable; by rewrite Hr | exact Hpre].
  - right. exists [], g, files, e. split; [reflexivity |].
    split; [constructor | exact Hr].
Qed.

Lemma add_files_unit files acc ms :
  acc.1.1 = Finite ms -> (0 <= ms <= inject_Z (Z.of_nat acc.2))%Q ->
  Forall (byte_file read_image) files ->
  exists acc' ms',
    add_files read_image torch_std files acc = Ok acc' /\
    acc'.2 = acc.2 + 5 * length files /\
    acc'.1.1 = Finite ms' /\
    (0 <= ms' <= inject_Z (Z.of_nat acc'.2))%Q.
Proof.
  intros Hms Hb Hfiles. revert acc ms Hms Hb.
  induction Hfiles
    as [|g files (img & Hr & Hwf & Hby & HC & HH & HW) _ IH];
    intros acc ms Hms Hb.
  - exists acc, ms. split; [reflexivity |]. split; [simpl; lia |].
    by split.
  - rewrite (add_files_cons _ _ _ img Hr).
    assert (Hfr : Forall (fun fr => exists m,
                     torch_mean (true_divide fr 255) = Finite m /\
                     (0 <= m <= 1)%Q) (frames_of img)).
    { assert (HW5 : 5 * (width img / 5) <= width img)
        by apply Nat.Div0.mul_div_le.
      assert (HW1 : 0 < width img / 5)
        by (apply Nat.div_str_pos; lia).
      unfold frames_of.
      repeat (apply Forall_cons_2 || apply Forall_nil_2);
        (apply torch_mean_unit;
         [by apply byte_image_crop_cols
         | apply elements_nonempty;
           [by apply wf_crop_cols | exact HC | exact HH
           | unfold crop_cols; cbn [width]; lia]]). }
    destruct (add_frames_unit acc (frames_of img) ms Hms Hb Hfr)
      as (ms1 & Hms1 & Hb1).
    destruct (IH _ ms1 Hms1 Hb1) as (acc' & ms' & -> & Ht & Hm & Hbm).
    exists acc', ms'. split; [reflexivity |].
    split; [rewrite Ht, add_frames_total; simpl; lia |]. by split.
Qed.

Lemma add_files_NaN files acc :
  acc.1.1 = NaN -> Forall (readable read_image) files ->
  exists acc',
    add_files read_image torch_std files acc = Ok acc' /\
    acc'.2 = acc.2 + 5 * length files /\ acc'.1.1 = NaN.
Proof.
  intros Hacc Hfiles. revert acc Hacc.
  induction Hfiles as [|g files Hg _ IH]; intros acc Hacc.
  - exists acc. split; [reflexivity |]. split; [simpl; lia | exact Hacc].
  - unfold readable in Hg.
    destruct (read_image g) as [img|] eqn:Hr; [| discriminate].
    rewrite (add_files_cons _ _ _ img Hr).
    destruct (IH (add_frames torch_std acc (frames_of img))
                 (add_frames_NaN _ _ Hacc)) as (acc' & -> & Ht & Hn).
    exists acc'. split; [reflexivity |].
    split; [rewrite Ht, add_frames_total; simpl; lia | exact Hn].
Qed.

Lemma add_files_narrow files acc f img :
  Forall (readable read_image) files -> f ∈ files ->
  read_image f = Ok img -> width img < 5 ->
  exists acc',
    add_files read_image torch_std files acc = Ok acc' /\
    acc'.2 = acc.2 + 5 * length files /\ acc'.1.1 = NaN.
Proof.
  intros Hfiles Hin Hr Hw. revert acc.
  induction Hfiles as [|g files Hg Hrest IH]; intros acc.
  - by apply elem_of_nil in Hin.
  - destruct (decide (g = f)) as [->|Hne].
    + rewrite (add_files_cons _ _ _ img Hr).
      assert (HN : (add_frames torch_std acc (frames_of img)).1.1 = NaN).
      { apply (add_frames_empty_frame _ _
                 (crop_cols 0 (width img / 5) img)).
        - unfold frames_of. apply list_elem_of_here.
        - rewrite Nat.div_small by lia. apply elements_narrow. }
      destruct (add_files_NaN files _ HN Hrest) as (acc' & -> & Ht & Hn).
      exists acc'. split; [reflexivity |].
      split; [rewrite Ht, add_frames_total; simpl; lia | exact Hn].
    + apply elem_of_cons in Hin as [->|Hin]; [done |].
      unfold readable in Hg.
      destruct (read_image g) as [img'|] eqn:Hr'; [| discriminate].
      rewrite (add_files_cons _ _ _ img' Hr').
      destruct (IH Hin (add_frames torch_std acc (frames_of img')))
        as (acc' & -> & Ht & Hn).
      exists acc'. split; [reflexivity |].
      split; [rewrite Ht, add_frames_total; simpl; lia | exact Hn].
Qed.

Lemma float_div_int_pos x n :
  0 < n -> exists y, float_div_int x n = Some y /\
    match x with
    | Finite a => y = Finite (a / inject_Z (Z.of_nat n))
    | other => y = other
    end.
Proof.
  intros Hn. unfold float_div_int.
  destruct (Nat.eqb_spec n 0) as [->|_]; [lia |].
  eexists; split; [reflexivity |]. by destruct x.
Qed.

(** X19. calculate_mean_str ends with ZeroDivisionError exactly when the
    directory holds no jpeg file: without a file the loop leaves [total]
    at 0 and [mean_sum / total] divides by zero; with a file either the
    read raises or [total] is positive. *)
Theorem calculate_mean_str_zero_division (dataset_dir : string) :
  calculate_mean_str glob_jpeg read_image torch_std dataset_dir =
    ZeroDivisionError
  <-> glob_jpeg dataset_dir = [].
Proof.
  unfold calculate_mean_str. split.
  - intros H. destruct (glob_jpeg dataset_dir) as [|f files] eqn:E;
      [reflexivity | exfalso].
    destruct (first_failure (f :: files))
      as [Hall | (pre & g & post & e & Heq & Hpre & Hg)].
    + destruct (add_files_Ok (f :: files) (Finite 0, Finite 0, 0) Hall)
        as ([[ms ss] t] & Hrun & Ht).
      rewrite Hrun in H. simpl in Ht.
      destruct (float_div_int_pos ms t ltac:(lia)) as (y & Hy & _).
      destruct (float_div_int_pos ss t ltac:(lia)) as (z & Hz & _).
      rewrite Hy, Hz in H. discriminate.
    + rewrite Heq, (add_files_raise _ _ _ _ e Hpre Hg) in H.
      discriminate.
  - intros ->. reflexivity.
Qed.

(** X20. calculate_mean_str raises [e] exactly when the first file of the
    directory listing that the decoder cannot read fails with [e]: there
    is no handler and no retry, so the exception of the read (a ValueError
    or a FileNotFoundError as much as any other) ends the call. *)
Theorem calculate_mean_str_propagates (dataset_dir : string) (e : exn) :
  calculate_mean_str glob_jpeg read_image torch_std dataset_dir = Raised e
  <-> exists pre f post,
        glob_jpeg dataset_dir = pre ++ f :: post /\
        Forall (readable read_image) pre /\
        read_image f = Raise e.
Proof.
  unfold calculate_mean_str. split.
  - intros H.
    destruct (first_failure (glob_jpeg dataset_dir))
      as [Hall | (pre & g & post & e' & Heq & Hpre & Hg)].
    + destruct (add_files_Ok _ (Finite 0, Finite 0, 0) Hall)
        as ([[ms ss] t] & Hrun & Ht).
      rewrite Hrun in H.
      destruct (float_div_int ms t); [| discriminate].
      destruct (float_div_int ss t); discriminate.
    + exists pre, g, post. split; [exact Heq |]. split; [exact Hpre |].
      rewrite Heq, (add_files_raise _ _ _ _ e' Hpre Hg) in H.
      by injection H as ->.
  - intros (pre & f & post & -> & Hpre & Hf).
    by rewrite (add_files_raise _ _ _ _ e Hpre Hf).
Qed.

(** X21. On a directory with at least one file, all of them holding
    non-empty images of bytes at least 5 columns wide, calculate_mean_str
    returns, and the mean it returns is a number of [0, 1]. *)
Theorem calculate_mean_str_mean_range (dataset_dir : string) :
  glob_jpeg dataset_dir <> [] ->
  Forall (byte_file read_image) (glob_jpeg dataset_dir) ->
  exists mean std,
    calculate_mean_str glob_jpeg read_image torch_std dataset_dir =
      Returned (Finite mean) std /\
    (0 <= mean <= 1)%Q.
Proof.
  intros Hne Hfiles. unfold calculate_mean_str.
  destruct (add_files_unit (glob_jpeg dataset_dir)
              (Finite 0, Finite 0, 0) 0%Q eq_refl
              (conj (Qle_refl 0) (Qle_refl 0)) Hfiles)
    as ([[ms ss] t] & m & -> & Ht & Hm & Hb).
  simpl in Ht, Hm, Hb. subst ms.
  assert (Hpos : 0 < t).
  { destruct (glob_jpeg dataset_dir); [done | simpl in Ht; lia]. }
  destruct (float_div_int_pos (Finite m) t Hpos) as (y & -> & ->).
  destruct (float_div_int_pos ss t Hpos) as (z & -> & _).
  eexists _, z. split; [reflexivity |]. by apply unit_ratio.
Qed.

(** X22. If every file of the directory is read and one of the images is
    less than 5 columns wide, calculate_mean_str returns NaN as the mean:
    the frames of that image have no column, and the mean of a tensor
    without elements is NaN. *)
Theorem calculate_mean_str_narrow_image (dataset_dir f : string)
  (img : image Z) :
  Forall (readable read_image) (glob_jpeg dataset_dir) ->
  f ∈ glob_jpeg dataset_dir ->
  read_image f = Ok img ->
  width img < 5 ->
  exists std,
    calculate_mean_str glob_jpeg read_image torch_std dataset_dir =
      Returned NaN std.
Proof.
  intros Hall Hin Hr Hw. unfold calculate_mean_str.
  destruct (add_files_narrow _ (Finite 0, Finite 0, 0) f img
              Hall Hin Hr Hw) as ([[ms ss] t] & -> & Ht & Hn).
  simpl in Ht, Hn. subst ms.
  assert (Hpos : 0 < t).
  { destruct (glob_jpeg dataset_dir);
      [by apply elem_of_nil in Hin | simpl in Ht; lia]. }
  destruct (float_div_int_pos NaN t Hpos) as (y & -> & ->).
  destruct (float_div_int_pos ss t Hpos) as (z & -> & _).
  by exists z.
Qed.

End MeanStdProperties.

(** ** Examples *)

(** SplitImages on an image of shape (3, 1, 5): frame 3 is column 3. *)
Lemma SplitImages_pixels_witness :
  exists frames,
    SplitImages (small_image, 7%Z) = Ok (frames, Torch.tensor 7%Z) /\
    stack_pixel frames 3 1 0 0 = pixel small_image 1 0 3 /\
    stack_pixel frames 3 1 0 1 = None.
Proof.
  destruct (SplitImages_pixels small_image 7%Z) as (frames & Hrun & _ & Hpx).
  exists frames. split; [exact Hrun |]. split.
  - rewrite (Hpx 3 1 0 0) by lia. reflexivity.
  - rewrite (Hpx 3 1 0 1) by lia. reflexivity.
Defined.


(** A triggered RemoveMinimap on an image of shape (3, 270, 250): the
    window of segment 4 does not fit, the call raises, and the window of
    segment 0 is zeroed while the columns from 230 on are as they were. *)
Lemma RemoveMinimap_partial_update_witness :
  store (one_tensor narrow_game_image 0.75) !! 0 = Some narrow_game_image /\
  wf_image narrow_game_image /\
  float_lt (Finite 0) (RemoveMinimap_hide_map_prob hide_always) = true /\
  width narrow_game_image < 4 * (width narrow_game_image / 5) + 80 /\
  exists img',
    RemoveMinimap_call hide_always (0, tt)
      (one_tensor narrow_game_image 0.75) =
      (Raise RuntimeError,
       State (<[0:=img']> {[0 := narrow_game_image]})
             (fun _ => 0.75%Q) 1 []) /\
    pixel img' 0 215 0 = Some 0%Z /\
    pixel img' 0 215 240 = Some 7%Z.
Proof.
  assert (Hwf : wf_image narrow_game_image) by apply wf_image_replicate.
  assert (HW : width narrow_game_image / 5 = 50) by reflexivity.
  assert (Hlt : width narrow_game_image
                < 4 * (width narrow_game_image / 5) + 80)
    by (rewrite HW; simpl; lia).
  split; [apply one_tensor_lookup |]. split; [exact Hwf |].
  split; [reflexivity |]. split; [exact Hlt |].
  destruct (RemoveMinimap_partial_update hide_always 0 tt
              (one_tensor narrow_game_image 0.75) narrow_game_image 4
              (one_tensor_lookup _ _) Hwf eq_refl eq_refl eq_refl eq_refl
              ltac:(lia))
    as (img' & Hrun & _ & _ & Hpx).
  - intros j Hj. rewrite HW. simpl. lia.
  - exact Hlt.
  - exists img'. split; [exact Hrun |].
    destruct (Hpx 0 215 0 ltac:(lia) ltac:(lia) ltac:(simpl; lia))
      as [Hzero _].
    destruct (Hpx 0 215 240 ltac:(lia) ltac:(lia) ltac:(simpl; lia))
      as [_ Hsame].
    split.
    + apply Hzero; [lia |]. exists 0. rewrite HW. lia.
    + rewrite Hsame; [reflexivity |].
      rewrite HW. intros [_ (j & Hj & Hk)]. lia.
Defined.


(** RemoveImage with six probabilities does what it does with the first
    five. *)
Lemma RemoveImage_long_vector_witness :
  5 <= length [Finite 0.5; Finite 0; Finite 0; Finite 0; Finite 0;
               Finite 1]%Q /\
  RemoveImage_call drop_first_of_six (0, tt) (one_tensor small_image 0.25) =
  RemoveImage_call drop_first (0, tt) (one_tensor small_image 0.25).
Proof.
  split; [simpl; lia |].
  apply (RemoveImage_long_vector drop_first_of_six drop_first (0, tt)
           (one_tensor small_image 0.25) _ eq_refl eq_refl).
  simpl; lia.
Defined.

Lemma wf_stack_replicate {A} (n h w : nat) (x : A) :
  wf_stack n (replicate n (Image 3 h w
                             (replicate 3 (replicate h (replicate w x))))).
Proof.
  split; [apply length_replicate |]. exists h, w.
  apply Forall_replicate. split; [apply wf_image_replicate | reflexivity].
Qed.

(** Normalize on a stack of five frames of bytes: the first value of the
    result is in the range of channel 0. *)
Lemma Normalize_range_witness :
  wf_stack 5 gray_stack /\
  exists out x,
    Normalize (gray_stack, tt) = Ok (out, tt) /\
    stack_pixel out 0 0 0 0 = Some x /\
    ((0 - 0.485) / 0.229 <= x <= (1 - 0.485) / 0.229)%Q.
Proof.
  assert (Hwf : wf_stack 5 gray_stack) by apply wf_stack_replicate.
  split; [exact Hwf |].
  destruct (Normalize_range gray_stack tt Hwf) as (out & Hrun & Hpx).
  - intros i c r k p Hp.
    destruct i as [|[|[|[|[|i]]]]]; try discriminate Hp;
      (destruct c as [|[|[|c]]]; try discriminate Hp;
       destruct r as [|r]; try discriminate Hp;
       destruct k as [|k]; try discriminate Hp;
       injection Hp as <-; lia).
  - pose proof Hrun as Hout. vm_compute in Hout. injection Hout as <-.
    eexists _, _. split; [exact Hrun |]. split; [reflexivity |].
    apply (Hpx 0 0 0 0 _ 0.485%Q 0.229%Q); reflexivity.
Defined.

(** Normalize on the stack of zero frames: the first value of the result
    gives back the pixel 0. *)
Lemma Normalize_inverse_witness :
  wf_stack 5 dark_stack /\
  exists out x,
    Normalize (dark_stack, tt) = Ok (out, tt) /\
    stack_pixel out 0 0 0 0 = Some x /\
    (0 == (x * 0.229 + 0.485) * 255)%Q.
Proof.
  assert (Hwf : wf_stack 5 dark_stack) by apply wf_stack_replicate.
  split; [exact Hwf |].
  destruct (Normalize_inverse dark_stack tt Hwf) as (out & Hrun & Hpx).
  pose proof Hrun as Hout. vm_compute in Hout. injection Hout as <-.
  eexists _, _. split; [exact Hrun |]. split; [reflexivity |].
  destruct (Hpx 0 0 0 0 _ eq_refl) as (p & m & sd & Hp & Hc & Heq).
  injection Hp as <-. injection Hc as <- <-. exact Heq.
Defined.

(** Normalize on the first two frames of a stack and on a stack of six. *)
Lemma Normalize_frame_count_witness :
  wf_stack 2 (take 2 dark_stack) /\
  Normalize (take 2 dark_stack, tt) = Raise IndexError /\
  Normalize (dark_stack ++ [dark_frame], tt) = Normalize (dark_stack, tt).
Proof.
  assert (Hwf : wf_stack 2 (take 2 dark_stack))
    by apply (wf_stack_replicate 2 1 1 0%Q).
  split; [exact Hwf |].
  destruct (Normalize_frame_count (take 2 dark_stack) tt) as [Hshort _].
  destruct (Normalize_frame_count (dark_stack ++ [dark_frame]) tt)
    as [_ Hlong].
  split; [apply (Hshort 2); [lia | exact Hwf] |].
  apply Hlong. vm_compute; lia.
Defined.


(** __getitem__ on a split of two files: the index 2 raises IndexError and
    the index -1 is the index 1. *)
Lemma getitem_index_witness :
  Tedd1104Dataset_getitem read_second_file name_length visible_mask 2
    eval_dataset 2 (one_tensor small_image 0.75) =
    (Raise IndexError, one_tensor small_image 0.75) /\
  Tedd1104Dataset_getitem read_second_file name_length visible_mask 2
    eval_dataset (-1) (one_tensor small_image 0.75) =
  Tedd1104Dataset_getitem read_second_file name_length visible_mask 2
    eval_dataset 1 (one_tensor small_image 0.75).
Proof.
  split.
  - destruct (getitem_index (R:=bool) read_second_file name_length
                visible_mask eval_dataset 2 2
                (one_tensor small_image 0.75)) as [Hout _].
    apply Hout. right.
    change (Z.of_nat (Tedd1104Dataset_len eval_dataset)) with 2%Z. lia.
  - destruct (getitem_index (R:=bool) read_second_file name_length
                visible_mask eval_dataset 2 (-1)
                (one_tensor small_image 0.75)) as [_ Hneg].
    apply Hneg.
    change (Z.of_nat (Tedd1104Dataset_len eval_dataset)) with 2%Z. lia.
Defined.

(** __getitem__ at index 1 of the validation split of two files: the file
    "good.jpeg" is read at once; the label is the length of its name. *)
Lemma getitem_eval_witness :
  dataset_transform eval_dataset = EvalTransform /\
  getitem (dataset_files eval_dataset) 1 = Ok "good.jpeg"%string /\
  read_second_file "good.jpeg" = Ok small_image /\
  wf_image small_image /\
  exists frames,
    Tedd1104Dataset_getitem read_second_file name_length visible_mask 1
      eval_dataset 1 (one_tensor small_image 0.75) =
      (Ok (Some (Tensor frames false, Tensor [true] false,
                 Torch.tensor 9%Z)),
       one_tensor small_image 0.75) /\
    length frames = 5 /\
    stack_pixel frames 2 1 0 0 = Some ((inject_Z 7 / 255 - 0.456) / 0.224)%Q.
Proof.
  assert (Hwf : wf_image small_image) by apply wf_image_replicate.
  split; [reflexivity |]. split; [reflexivity |]. split; [reflexivity |].
  split; [exact Hwf |].
  destruct (getitem_eval read_second_file name_length visible_mask
              eval_dataset 0 1 (one_tensor small_image 0.75)
              "good.jpeg" small_image 9%Z (Tensor [true] false) 0
              eq_refl eq_refl eq_refl Hwf eq_refl eq_refl eq_refl)
    as (frames & Hrun & Hlen & _ & Hpx).
  exists frames. split; [exact Hrun |]. split; [exact Hlen |].
  apply (Hpx 2 1 0 0 7%Z 0.456%Q 0.224%Q);
    [lia | vm_compute; lia | reflexivity | reflexivity].
Defined.

(** A split with a sequence length of 4 and no dropout probabilities: the
    construction raises TypeError. *)
Lemma init_wrong_sequence_length_witness :
  Z.to_nat (arg_sequence_length short_sequence_args) <> 5 /\
  arg_dropout_images_prob short_sequence_args = None /\
  Tedd1104Dataset_init glob_two_files no_jitter short_sequence_args =
    Raise TypeError.
Proof.
  assert (Hlen : Z.to_nat (arg_sequence_length short_sequence_args) <> 5)
    by (simpl; lia).
  split; [exact Hlen |]. split; [reflexivity |].
  destruct (init_wrong_sequence_length glob_two_files no_jitter
              short_sequence_args Hlen) as [Hnone _].
  - change (lower (arg_control_mode short_sequence_args))
      with "keyboard"%string.
    constructor.
  - exists 0%Q. split; [reflexivity |]. split; discriminate.
  - apply Hnone. reflexivity.
Defined.

(** A training split constructed with an empty list of dropout
    probabilities: the construction succeeds and the sample of a readable
    file cannot be built. *)
Lemma train_with_empty_dropout_witness :
  arg_train empty_dropout_args = true /\
  arg_dropout_images_prob empty_dropout_args = Some [] /\
  exists self,
    Tedd1104Dataset_init glob_two_files no_jitter empty_dropout_args
      = Ok self /\
    dropout_images_prob self = replicate 5 (Finite 0) /\
    exists s',
      build_sample name_length visible_mask self "good.jpeg" small_image
        (one_tensor small_image 0.75) = (Raise IndexError, s').
Proof.
  split; [reflexivity |]. split; [reflexivity |].
  destruct (train_with_empty_dropout (R:=bool) glob_two_files no_jitter
              read_second_file name_length visible_mask empty_dropout_args
              eq_refl eq_refl eq_refl)
    as (self & Hinit & Hdrop & _ & Hindex).
  - change (lower (arg_control_mode empty_dropout_args))
      with "keyboard"%string.
    constructor.
  - exists 0%Q. split; [reflexivity |]. split; discriminate.
  - exists 0%Q. split; [reflexivity |]. split; [discriminate | reflexivity].
  - exists self. split; [exact Hinit |]. split; [exact Hdrop |].
    apply (Hindex "good.jpeg"%string small_image
             (one_tensor small_image 0.75) 9%Z); reflexivity.
Defined.

(** The training transform with a minimap never hidden and five zero
    dropout probabilities. *)
Lemma train_transform_without_dropping_witness :
  float_lt (Finite 0) (RemoveMinimap_hide_map_prob hide_never) = false /\
  RemoveImage_dropout_images_prob drop_none = Some (replicate 5 (Finite 0)) /\
  apply_transform
    (TrainTransform hide_never drop_none
       {| SequenceColorJitter_jitter := no_jitter |})
    small_image tt (one_tensor small_image 0.75) =
  ('(images, t) ← lift (SplitImages (small_image, tt));
   '(images, t) ← SequenceColorJitter_forward
                    {| SequenceColorJitter_jitter := no_jitter |}
                    (images, t);
   lift (Normalize (images, t)))
    (State (<[fresh (dom (store (one_tensor small_image 0.75))):=
                small_image]> (store (one_tensor small_image 0.75)))
           (fun _ => 0.75%Q) 0 []).
Proof.
  split; [reflexivity |]. split; [reflexivity |].
  apply (train_transform_without_dropping hide_never drop_none
           {| SequenceColorJitter_jitter := no_jitter |}
           (replicate 5 (Finite 0)) small_image tt
           (one_tensor small_image 0.75) eq_refl eq_refl).
  - simpl; lia.
  - apply Forall_replicate. reflexivity.
Defined.


(** setup of a data module for the controller, with a minimap hidden half
    of the time: the validation split is configured for evaluation. *)
Lemma setup_eval_splits_witness :
  exists self' out va,
    Tedd1104DataModule_setup glob_two_files no_jitter
      (Tedd1104DataModule_init module_args).1 None = (Ok tt, self', out) /\
    dm_val_dataset self' = Some va /\
    control_mode va = "keyboard"%string /\
    hide_map_prob va = Finite 0 /\
    dataset_files va = two_files.
Proof.
  destruct (Tedd1104DataModule_setup glob_two_files no_jitter
              (Tedd1104DataModule_init module_args).1 None)
    as [[r self'] out] eqn:Hrun.
  assert (Hr : r = Ok tt) by (vm_compute in Hrun; congruence).
  subst r.
  destruct (setup_eval_splits glob_two_files no_jitter _ None self' out Hrun)
    as [Hval _].
  destruct (Hval eq_refl) as (va & Hva & Hconf & d & Hd & Hfiles).
  destruct Hconf as (Hhide & _ & _ & Hmode & _).
  exists self', out, va. split; [reflexivity |]. split; [exact Hva |].
  split; [exact Hmode |]. split; [exact Hhide |]. exact Hfiles.
Defined.

(** setup of the same module: the training split holds the five zeros that
    replaced the missing dropout vector, in the RemoveImage stage too. *)
Lemma setup_training_split_witness :
  stage_in None "fit" = true /\
  exists self' out tr minimap dropout jitter,
    Tedd1104DataModule_setup glob_two_files no_jitter
      (Tedd1104DataModule_init module_args).1 None = (Ok tt, self', out) /\
    dm_train_dataset self' = Some tr /\
    dataset_transform tr = TrainTransform minimap dropout jitter /\
    RemoveImage_dropout_images_prob dropout =
      Some (replicate 5 (Finite 0)) /\
    RemoveMinimap_hide_map_prob minimap = hide_map_prob tr.
Proof.
  split; [reflexivity |].
  destruct (Tedd1104DataModule_setup glob_two_files no_jitter
              (Tedd1104DataModule_init module_args).1 None)
    as [[r self'] out] eqn:Hrun.
  assert (Hr : r = Ok tt) by (vm_compute in Hrun; congruence).
  subst r.
  destruct (setup_training_split glob_two_files no_jitter module_args None
              self' out Hrun eq_refl)
    as (tr & minimap & dropout & jitter & Htr & _ & Ht & Hd & Hz & _ & _
        & Hm & _).
  exists self', out, tr, minimap, dropout, jitter.
  split; [reflexivity |]. split; [exact Htr |]. split; [exact Ht |].
  split; [by rewrite Hd, Hz | exact Hm].
Defined.

(** setup for the stage "test" of a module without a test directory. *)
Lemma setup_test_stage_witness :
  Tedd1104DataModule_setup glob_two_files no_jitter
    (Tedd1104DataModule_init module_args_no_test).1 (Some "test"%string) =
  (Raise TypeError, (Tedd1104DataModule_init module_args_no_test).1, []).
Proof.
  exact (setup_test_stage glob_two_files no_jitter
           (Tedd1104DataModule_init module_args_no_test).1).
Defined.

(** calculate_mean_str on a directory without jpeg files. *)
Lemma calculate_mean_str_zero_division_witness :
  glob_no_file "empty" = [] /\
  calculate_mean_str glob_no_file read_second_file std_zero "empty" =
    ZeroDivisionError.
Proof.
  split; [reflexivity |].
  apply (calculate_mean_str_zero_division glob_no_file read_second_file
           std_zero "empty").
  reflexivity.
Defined.

(** calculate_mean_str on a directory whose first file cannot be decoded:
    the ValueError of the read ends the call. *)
Lemma calculate_mean_str_propagates_witness :
  glob_two_files "val" = [] ++ "bad.jpeg"%string :: ["good.jpeg"%string] /\
  read_second_file "bad.jpeg" = Raise ValueError /\
  calculate_mean_str glob_two_files read_second_file std_zero "val" =
    Raised ValueError.
Proof.
  split; [reflexivity |]. split; [reflexivity |].
  apply (calculate_mean_str_propagates glob_two_files read_second_file
           std_zero "val" ValueError).
  exists [], "bad.jpeg"%string, ["good.jpeg"%string].
  split; [reflexivity |]. split; [constructor | reflexivity].
Defined.

(** calculate_mean_str on a directory of one file of shape (3, 1, 5). *)
Lemma calculate_mean_str_mean_range_witness :
  glob_one_file "val" <> [] /\
  Forall (byte_file read_second_file) (glob_one_file "val") /\
  exists mean std,
    calculate_mean_str glob_one_file read_second_file std_zero "val" =
      Returned (Finite mean) std /\
    (0 <= mean <= 1)%Q.
Proof.
  assert (Hne : glob_one_file "val" <> []) by discriminate.
  assert (Hfiles : Forall (byte_file read_second_file)
                     (glob_one_file "val")).
  { apply Forall_cons_2; [| apply Forall_nil_2].
    exists small_image. split; [reflexivity |].
    split; [apply wf_image_replicate |]. split.
    - unfold byte_image. simpl.
      repeat (apply Forall_cons_2 || apply Forall_nil_2); lia.
    - simpl. lia. }
  split; [exact Hne |]. split; [exact Hfiles |].
  exact (calculate_mean_str_mean_range glob_one_file read_second_file
           std_zero "val" Hne Hfiles).
Defined.

(** calculate_mean_str on a directory of one file that holds an image 4
    columns wide. *)
Lemma calculate_mean_str_narrow_image_witness :
  Forall (readable read_thin) (glob_one_file "val") /\
  read_thin "good.jpeg" = Ok thin_image /\
  width thin_image < 5 /\
  exists std,
    calculate_mean_str glob_one_file read_thin std_zero "val" =
      Returned NaN std.
Proof.
  assert (Hall : Forall (readable read_thin) (glob_one_file "val")).
  { apply Forall_cons_2; [reflexivity | apply Forall_nil_2]. }
  assert (Hw : width thin_image < 5) by (simpl; lia).
  split; [exact Hall |]. split; [reflexivity |]. split; [exact Hw |].
  apply (calculate_mean_str_narrow_image glob_one_file read_thin std_zero
           "val" "good.jpeg" thin_image Hall); [| reflexivity | exact Hw].
  apply list_elem_of_here.
Defined.
